(** * E-paper display driver and renderer: a shallow embedding

    The development follows [app/display_driver.py] (class [EPD2in7]) and
    [app/renderer.py] (class [DisplayRenderer]).

    - Python methods become functions in a state-and-exception monad over
      a machine state holding the two objects and the outside world.
    - The outside world is a trace of GPIO, SPI, sleep and print events,
      plus two oracles: the successive readings of the BUSY pin and the
      successive readings of the wall clock.
    - Bytes and pixel values are [Z]; image coordinates are [nat].
    - Wall-clock readings are [Z]: the code only subtracts and compares
      them.  Sleep durations are in milliseconds. *)

From Stdlib Require Import ZArith List String Ascii Bool Lia Arith.
Import ListNotations.

Set Implicit Arguments.

(* ================================================================== *)
(** * Python outcomes                                                  *)
(* ================================================================== *)

Inductive exn : Type :=
| AttributeError (msg : string)
| ValueError (msg : string).

(** How a call ends: it returns a value or raises.  [OutOfFuel] is not a
    Python outcome: it marks a modelled [while] loop that was given too
    few iterations, and the theorems show it never shows up. *)
Inductive outcome (A : Type) : Type :=
| Returned (a : A)
| Raised (e : exn)
| OutOfFuel.

Arguments Returned {A} a.
Arguments Raised {A} e.
Arguments OutOfFuel {A}.

(** Values of the methods whose result type a claim talks about. *)
Inductive pyval : Type :=
| PyNone
| PyBool (b : bool).

Definition is_bool (v : pyval) : bool :=
  match v with PyBool _ => true | PyNone => false end.

(** [range(n)] and [range(start, stop, step)] for a positive step.  The
    second walks from [start] while the index is below [stop]; [stop]
    steps of fuel are enough since every step advances by at least one. *)
Definition range (n : nat) : list nat := seq 0 n.

Fixpoint range_from (fuel x stop step : nat) : list nat :=
  match fuel with
  | O => []
  | S fuel' =>
      if x <? stop then x :: range_from fuel' (x + step) stop step else []
  end.

Definition range3 (start stop step : nat) : list nat :=
  range_from stop start stop step.

(** [bytes(buffer)]: raises [ValueError] unless every item is in
    [range(0, 256)]. *)
Definition is_byte (b : Z) : bool := ((0 <=? b) && (b <? 256))%Z.

Definition bytes (buffer : list Z) : outcome (list Z) :=
  if forallb is_byte buffer then Returned buffer
  else Raised (ValueError "bytes must be in range(0, 256)").

(* ================================================================== *)
(** * Images (the part of PIL the renderer uses)                       *)
(* ================================================================== *)

Module PIL.

(** An image is its [size = (width, height)] and its rows of pixel
    values, top row first.  In mode ['1'] a pixel reads as 0 (black)
    or 255 (white). *)
Record Image : Type := mkImage {
  size : nat * nat;
  rows : list (list Z)
}.

Definition BLACK : Z := 0%Z.
Definition WHITE : Z := 255%Z.

(** [Image.new('1', size, color)] *)
Definition new (sz : nat * nat) (color : Z) : Image :=
  mkImage sz (repeat (repeat color (fst sz)) (snd sz)).

(** [image.getpixel((x, y))], used inside the image only. *)
Definition getpixel (image : Image) (xy : nat * nat) : Z :=
  nth (fst xy) (nth (snd xy) (rows image) []) 0%Z.

(** [image.copy()] *)
Definition copy (image : Image) : Image := image.

(** [draw.rectangle([x0, y0, x1, y1], fill=v)]: both corners are
    inside the filled area; pixels outside the image are clipped. *)
Definition rectangle (image : Image) (x0 y0 x1 y1 : nat) (v : Z) : Image :=
  mkImage (size image)
    (map (fun yr : nat * list Z =>
            if (y0 <=? fst yr) && (fst yr <=? y1)
            then map (fun xp : nat * Z =>
                        if (x0 <=? fst xp) && (fst xp <=? x1)
                        then v else snd xp)
                     (combine (seq 0 (List.length (snd yr))) (snd yr))
            else snd yr)
         (combine (seq 0 (List.length (rows image))) (rows image))).

(** The library's invariant: [height] rows of [width] pixels. *)
Definition well_formed (image : Image) : Prop :=
  List.length (rows image) = snd (size image) /\
  Forall (fun r => List.length r = fst (size image)) (rows image).

(** A 1-bit frame: every pixel is BLACK or WHITE. *)
Definition one_bit (image : Image) : Prop :=
  Forall (Forall (fun p => p = BLACK \/ p = WHITE)) (rows image).

End PIL.

(* ================================================================== *)
(** * The frame packing loops of [DisplayRenderer._image_to_buffer]    *)
(* ================================================================== *)

Module Codec.
Import PIL.

(** One turn of [for bit in range(8)]. *)
Definition pack_bit (image : Image) (x y : nat) (byte : Z) (bit : nat) : Z :=
  if x + bit <? fst (size image) then
    let pixel := getpixel image (x + bit, y) in
    if (pixel =? 255)%Z
    then Z.lor byte (Z.shiftr 0x80 (Z.of_nat bit))
    else byte
  else byte.

(** The condition under which turn [bit] of the inner loop sets a
    bit of the byte. *)
Definition lit (image : Image) (x y bit : nat) : bool :=
  (x + bit <? fst (size image)) &&
  Z.eqb (getpixel image (x + bit, y)) 255.

(** The byte appended for the group that starts at column [x]. *)
Definition pack_byte (image : Image) (x y : nat) : Z :=
  fold_left (pack_bit image x y) (range 8) 0%Z.

(** The list [buffer] when the two outer loops end. *)
Definition pack_buffer (image : Image) : list Z :=
  let img_width := fst (size image) in
  let img_height := snd (size image) in
  flat_map
    (fun y => map (fun x => pack_byte image x y) (range3 0 img_width 8))
    (range img_height).

(** Number of bytes per packed row. *)
Definition ceil_div (a b : nat) : nat := (a + (b - 1)) / b.

(** Modelled from the spec: the inverse transformation [unpack], which
    the repository does not contain.  It reads pixel [(x, y)] of a
    [width] x [height] frame from bit [7 - x mod 8] of byte
    [y * ceil(width/8) + x / 8]; a set bit is WHITE, a clear bit is
    BLACK. *)
Definition unpack (width height : nat) (buffer : list Z) : Image :=
  mkImage (width, height)
    (map (fun y =>
            map (fun x =>
                   if Z.testbit (nth (y * ceil_div width 8 + x / 8) buffer 0%Z)
                                (7 - Z.of_nat (x mod 8))
                   then WHITE else BLACK)
                (range width))
         (range height)).

End Codec.

(* ================================================================== *)
(** * The state-and-exception monad                                    *)
(* ================================================================== *)

Definition M (S A : Type) : Type := S -> outcome A * S.

Definition ret {S A} (a : A) : M S A := fun s => (Returned a, s).

Definition bind {S A B} (m : M S A) (k : A -> M S B) : M S B :=
  fun s =>
    match m s with
    | (Returned a, s') => k a s'
    | (Raised e, s') => (Raised e, s')
    | (OutOfFuel, s') => (OutOfFuel, s')
    end.

Definition raise {S A} (e : exn) : M S A := fun s => (Raised e, s).
Definition gets {S A} (f : S -> A) : M S A := fun s => (Returned (f s), s).
Definition modify {S} (f : S -> S) : M S unit := fun s => (Returned tt, f s).

(** Run a computation on a component of a larger state. *)
Definition lift {S T A} (get : T -> S) (set : S -> T -> T) (m : M S A)
  : M T A :=
  fun t => let (r, s') := m (get t) in (r, set s' t).

(** [for item in items: body(item)] *)
Fixpoint for_each {S A} (items : list A) (body : A -> M S unit) : M S unit :=
  match items with
  | [] => ret tt
  | item :: rest => bind (body item) (fun _ => for_each rest body)
  end.

Declare Scope monad_scope.
Delimit Scope monad_scope with monad.
Notation "x <- m ;; k" := (bind m (fun x => k))
  (at level 61, m at next level, right associativity) : monad_scope.
Notation "m ;; k" := (bind m (fun _ => k))
  (at level 61, right associativity) : monad_scope.
Local Open Scope monad_scope.

(* ================================================================== *)
(** * The outside world                                                *)
(* ================================================================== *)

Inductive level : Type := LOW | HIGH.
Inductive direction : Type := OUT | IN.

Inductive event : Type :=
| GpioSetmodeBCM
| GpioSetwarnings (flag : bool)
| GpioSetup (pin : Z) (dir : direction)
| GpioOutput (pin : Z) (value : level)
| GpioInput (pin : Z) (value : Z)
| GpioCleanup
| SpiOpen (bus device : Z)
| SpiWritebytes (data : list Z)
| SpiClose
| Sleep (milliseconds : Z)
| Print (text : string).

Record World : Type := mkWorld {
  HAS_HARDWARE : bool;        (* the module constant of display_driver *)
  busy_line : nat -> Z;       (* k-th value GPIO.input will return *)
  gpio_reads : nat;           (* inputs read so far *)
  wall_clock : nat -> Z;      (* k-th reading of the wall clock *)
  clock_reads : nat;          (* clock readings taken so far *)
  trace : list event          (* everything done so far, oldest first *)
}.

Definition emit (e : event) (w : World) : World :=
  mkWorld (HAS_HARDWARE w) (busy_line w) (gpio_reads w)
          (wall_clock w) (clock_reads w) (trace w ++ [e]).

Definition read_gpio (pin : Z) (w : World) : Z * World :=
  let v := busy_line w (gpio_reads w) in
  (v, mkWorld (HAS_HARDWARE w) (busy_line w) (S (gpio_reads w))
              (wall_clock w) (clock_reads w)
              (trace w ++ [GpioInput pin v])).

Definition read_clock (w : World) : Z * World :=
  (wall_clock w (clock_reads w),
   mkWorld (HAS_HARDWARE w) (busy_line w) (gpio_reads w)
           (wall_clock w) (S (clock_reads w)) (trace w)).

(* ================================================================== *)
(** * [class EPD2in7] of app/display_driver.py                         *)
(* ================================================================== *)

Module EPD2in7.

Local Open Scope Z_scope.

Record SpiDev : Type := mkSpiDev {
  max_speed_hz : Z;
  spi_mode : Z
}.

(** The attributes of the driver object. *)
Record t : Type := mkEPD {
  dc_pin : Z;
  rst_pin : Z;
  busy_pin : Z;
  cs_pin : Z;
  spi : option SpiDev;
  width : nat;
  height : nat
}.

Definition WIDTH : nat := 176.
Definition HEIGHT : nat := 264.

(** The attributes [__init__] sets (its simulation-mode message is
    left out). *)
Definition __init__ (dc rst busy cs : Z) : t :=
  mkEPD dc rst busy cs None WIDTH HEIGHT.

(** The driver object together with the world it acts on. *)
Record machine : Type := mkMachine {
  self : t;
  env : World
}.

Definition set_spi (d : option SpiDev) (m : machine) : machine :=
  mkMachine
    (mkEPD (dc_pin (self m)) (rst_pin (self m)) (busy_pin (self m))
           (cs_pin (self m)) d (width (self m)) (height (self m)))
    (env m).

Definition perform (e : event) : M machine unit :=
  modify (fun m => mkMachine (self m) (emit e (env m))).

Definition GPIO_input (pin : Z) : M machine Z :=
  fun m => let (v, w) := read_gpio pin (env m) in
           (Returned v, mkMachine (self m) w).

Definition time_sleep (milliseconds : Z) : M machine unit :=
  perform (Sleep milliseconds).

Definition print (text : string) : M machine unit := perform (Print text).

(** [self.spi.writebytes(data)]: attribute lookup on [None] raises. *)
Definition spi_writebytes (data : list Z) : M machine unit :=
  d <- gets (fun m => spi (self m)) ;;
  match d with
  | None =>
      raise (AttributeError
               "'NoneType' object has no attribute 'writebytes'")
  | Some _ => perform (SpiWritebytes data)
  end.

Definition reset : M machine unit :=
  hw <- gets (fun m => HAS_HARDWARE (env m)) ;;
  if negb hw then ret tt else
  rst <- gets (fun m => rst_pin (self m)) ;;
  perform (GpioOutput rst HIGH) ;;
  time_sleep 200 ;;
  perform (GpioOutput rst LOW) ;;
  time_sleep 2 ;;
  perform (GpioOutput rst HIGH) ;;
  time_sleep 200.

Definition send_command (command : Z) : M machine unit :=
  hw <- gets (fun m => HAS_HARDWARE (env m)) ;;
  if negb hw then ret tt else
  dc <- gets (fun m => dc_pin (self m)) ;;
  perform (GpioOutput dc LOW) ;;
  spi_writebytes [command].

Definition send_data (data : Z) : M machine unit :=
  hw <- gets (fun m => HAS_HARDWARE (env m)) ;;
  if negb hw then ret tt else
  dc <- gets (fun m => dc_pin (self m)) ;;
  perform (GpioOutput dc HIGH) ;;
  spi_writebytes [data].

(** [while GPIO.input(self.busy_pin) == 1 and timeout < 100:
       time.sleep(0.1); timeout += 1]
    The result is the final value of the local [timeout]. *)
Fixpoint busy_loop (fuel : nat) (timeout : Z) : M machine Z :=
  match fuel with
  | O => fun m => (OutOfFuel, m)
  | S fuel' =>
      busy <- gets (fun m => busy_pin (self m)) ;;
      v <- GPIO_input busy ;;
      if (v =? 1) && (timeout <? 100) then
        time_sleep 100 ;;
        busy_loop fuel' (timeout + 1)
      else ret timeout
  end.

(** The method has no [return] with a value: every path gives [None].
    101 turns of fuel cover the 100 sleeps and the last test. *)
Definition wait_until_idle : M machine pyval :=
  hw <- gets (fun m => HAS_HARDWARE (env m)) ;;
  if negb hw then ret PyNone else
  timeout <- busy_loop 101 0 ;;
  (if timeout >=? 100
   then print "WARNING: Display BUSY timeout"
   else ret tt) ;;
  time_sleep 200 ;;
  ret PyNone.

Definition init (mode : string) : M machine unit :=
  hw <- gets (fun m => HAS_HARDWARE (env m)) ;;
  if negb hw then ret tt else
  perform GpioSetmodeBCM ;;
  perform (GpioSetwarnings false) ;;
  rst <- gets (fun m => rst_pin (self m)) ;;
  perform (GpioSetup rst OUT) ;;
  dc <- gets (fun m => dc_pin (self m)) ;;
  perform (GpioSetup dc OUT) ;;
  busy <- gets (fun m => busy_pin (self m)) ;;
  perform (GpioSetup busy IN) ;;
  (* self.spi = spidev.SpiDev(); open(0, 0); max_speed_hz; mode *)
  modify (set_spi (Some (mkSpiDev 0 0))) ;;
  perform (SpiOpen 0 0) ;;
  modify (set_spi (Some (mkSpiDev 4000000 0))) ;;
  modify (set_spi (Some (mkSpiDev 4000000 0))) ;;
  reset ;;
  wait_until_idle ;;
  send_command 0x12 ;;
  wait_until_idle ;;
  send_command 0x45 ;;
  send_data 0x00 ;;
  send_data 0x00 ;;
  send_data 0x07 ;;
  send_data 0x01 ;;
  send_command 0x4F ;;
  send_data 0x00 ;;
  send_data 0x00 ;;
  send_command 0x11 ;;
  send_data 0x03.

Definition display_frame (frame_buffer : list Z) : M machine unit :=
  hw <- gets (fun m => HAS_HARDWARE (env m)) ;;
  if negb hw then ret tt else
  send_command 0x24 ;;
  for_each frame_buffer send_data.

Definition refresh (mode : string) : M machine unit :=
  hw <- gets (fun m => HAS_HARDWARE (env m)) ;;
  if negb hw then ret tt else
  send_command 0x22 ;;
  (if String.eqb mode "partial" then send_data 0xFF
   else if String.eqb mode "fast" then send_data 0xC7
   else send_data 0xF7) ;;
  send_command 0x20 ;;
  wait_until_idle ;;
  ret tt.

Definition sleep : M machine unit :=
  hw <- gets (fun m => HAS_HARDWARE (env m)) ;;
  if negb hw then ret tt else
  send_command 0x10 ;;
  send_data 0x01 ;;
  time_sleep 100.

Definition clear : M machine unit :=
  hw <- gets (fun m => HAS_HARDWARE (env m)) ;;
  if negb hw then ret tt else
  w <- gets (fun m => width (self m)) ;;
  h <- gets (fun m => height (self m)) ;;
  let frame_buffer := repeat 0xFF (Nat.div (w * h) 8) in
  display_frame frame_buffer ;;
  refresh "full".

Definition cleanup : M machine unit :=
  hw <- gets (fun m => HAS_HARDWARE (env m)) ;;
  if negb hw then ret tt else
  sleep ;;
  d <- gets (fun m => spi (self m)) ;;
  (match d with
   | Some _ => perform SpiClose
   | None => ret tt
   end) ;;
  perform GpioCleanup.

(** ** What a busy wait does, in closed form

    [busy_count line start budget] is the number of sleeps of a wait
    that starts at reading [start] with [budget] sleeps left: the
    length of the run of busy readings, capped by the budget. *)
Fixpoint busy_count (line : nat -> Z) (start budget : nat) : nat :=
  match budget with
  | O => O
  | S budget' =>
      if line start =? 1
      then S (busy_count line (S start) budget')
      else O
  end.

(** The events of [n] sleeps: [n] busy readings, each followed by a
    100 ms sleep, and the reading that ends the loop. *)
Fixpoint poll_events (pin : Z) (line : nat -> Z) (start n : nat)
  : list event :=
  match n with
  | O => [GpioInput pin (line start)]
  | S n' =>
      GpioInput pin (line start) :: Sleep 100
        :: poll_events pin line (S start) n'
  end.

Definition wait_events (pin : Z) (line : nat -> Z) (start : nat)
  : list event :=
  let n := busy_count line start 100 in
  poll_events pin line start n
    ++ (if (100 <=? n)%nat
        then [Print "WARNING: Display BUSY timeout"] else [])
    ++ [Sleep 200].

Definition after_wait (m : machine) : machine :=
  let w := env m in
  if HAS_HARDWARE w then
    mkMachine (self m)
      (mkWorld true (busy_line w)
         (gpio_reads w + S (busy_count (busy_line w) (gpio_reads w) 100))
         (wall_clock w) (clock_reads w)
         (trace w
            ++ wait_events (busy_pin (self m)) (busy_line w)
                 (gpio_reads w)))
  else m.

(** ** States in which the bus can be driven

    [ready]: if there is hardware, the SPI device has been opened.
    [follows e e']: [e'] is [e] after some more events; the hardware
    flag and the clock are the same. *)
Definition ready (e : machine) : Prop :=
  HAS_HARDWARE (env e) = true -> spi (self e) <> None.

Definition follows (e e' : machine) : Prop :=
  HAS_HARDWARE (env e') = HAS_HARDWARE (env e) /\
  wall_clock (env e') = wall_clock (env e) /\
  clock_reads (env e') = clock_reads (env e) /\
  exists t, trace (env e') = trace (env e) ++ t.

(** The events of streaming data bytes one by one. *)
Definition data_events (dc : Z) (data : list Z) : list event :=
  flat_map (fun b => [GpioOutput dc HIGH; SpiWritebytes [b]]) data.

(** Milliseconds spent in [time.sleep] along a stretch of trace, and
    the number of readings of an input pin in it. *)
Definition slept (tr : list event) : Z :=
  fold_right (fun e acc => match e with Sleep ms => ms + acc | _ => acc end)
             0 tr.

Definition inputs_read (tr : list event) : nat :=
  List.length
    (filter (fun e => match e with GpioInput _ _ => true | _ => false end) tr).


(** ** Reading the bus back from the trace

    A byte written while the data/command line is low is a command;
    a byte written while it is high is data of the last command. *)
Definition command := (Z * list Z)%type.

Fixpoint add_data (cmds : list command) (data : list Z) : list command :=
  match cmds with
  | [] => []
  | [(c, ds)] => [(c, ds ++ data)]
  | cmd :: rest => cmd :: add_data rest data
  end.

Definition bus_step (dc : Z) (st : level * list command) (e : event)
  : level * list command :=
  match e with
  | GpioOutput pin value => if pin =? dc then (value, snd st) else st
  | SpiWritebytes data =>
      match fst st with
      | LOW => (LOW, snd st ++ map (fun c => (c, [])) data)
      | HIGH => (HIGH, add_data (snd st) data)
      end
  | _ => st
  end.

(** The commands, each with its data bytes, that a stretch of trace
    puts on the bus. *)
Definition commands (dc : Z) (tr : list event) : list command :=
  snd (fold_left (bus_step dc) tr (LOW, [])).

(** The commands of the V2 initialisation as [init] sends them:
    SWRESET, RAM-Y range, RAM-Y counter, data entry mode. *)
Definition init_commands : list command :=
  [(0x12, []); (0x45, [0x00; 0x00; 0x07; 0x01]); (0x4F, [0x00; 0x00]);
   (0x11, [0x03])].

(** Modelled from the spec: the mode selectors of the display update
    control row of the opcode table in section 6. *)
Definition update_modes : list (string * Z) :=
  [("full"%string, 0xF7); ("fast"%string, 0xC7); ("partial"%string, 0xFF)].

(** Modelled from the spec: the initialisation sequence of section 4.2
    with the payload sizes of the opcode table in section 6, as
    (opcode, number of data bytes). *)
Definition spec_init_sequence : list (Z * nat) :=
  [(0x12, 0%nat); (0x01, 3%nat); (0x11, 1%nat); (0x44, 2%nat);
   (0x45, 4%nat); (0x3C, 1%nat); (0x18, 1%nat); (0x4E, 1%nat);
   (0x4F, 2%nat)].

Definition shape (cmds : list command) : list (Z * nat) :=
  map (fun c => (fst c, List.length (snd c))) cmds.

End EPD2in7.

(* ================================================================== *)
(** * [class DisplayRenderer] of app/renderer.py                       *)
(* ================================================================== *)

Module DisplayRenderer.
Import PIL.

Local Open Scope Z_scope.

(** The attributes of the renderer that its refresh logic reads or
    writes.  [self.epd] lives in the state below; fonts and the
    configuration object only feed the text drawing. *)
Record t : Type := mkRenderer {
  width : nat;
  height : nat;
  mode : string;
  full_refresh_minutes : Z;
  full_refresh_after_partials : Z;
  last_full_refresh : Z;
  partial_count : Z;
  last_image : option Image;
  initialized : bool
}.

(** [__init__] with the values [config.get] yields. *)
Definition __init__ (display_width display_height : nat)
    (display_mode : string) (full_every_minutes full_after_partials : Z)
  : t :=
  mkRenderer display_width display_height display_mode
             full_every_minutes full_after_partials 0 0 None false.

(** Layout zones (x, y, width, height). *)
Definition zone := (nat * nat * nat * nat)%type.
Definition ZONE_HEADER : zone := (0, 0, 264, 28)%nat.
Definition ZONE_PRICE : zone := (10, 32, 140, 65)%nat.
Definition ZONE_CHANGE : zone := (155, 32, 100, 65)%nat.
Definition ZONE_STATS : zone := (10, 102, 244, 50)%nat.
Definition ZONE_FOOTER : zone := (0, 156, 264, 20)%nat.

(** The renderer, its driver and the world. *)
Record state : Type := mkState {
  self : t;
  epd : EPD2in7.machine
}.

Definition set_last_full_refresh (v : Z) (s : state) : state :=
  mkState
    (mkRenderer (width (self s)) (height (self s)) (mode (self s))
       (full_refresh_minutes (self s))
       (full_refresh_after_partials (self s))
       v (partial_count (self s)) (last_image (self s))
       (initialized (self s)))
    (epd s).

Definition set_partial_count (v : Z) (s : state) : state :=
  mkState
    (mkRenderer (width (self s)) (height (self s)) (mode (self s))
       (full_refresh_minutes (self s))
       (full_refresh_after_partials (self s))
       (last_full_refresh (self s)) v (last_image (self s))
       (initialized (self s)))
    (epd s).

Definition set_last_image (v : option Image) (s : state) : state :=
  mkState
    (mkRenderer (width (self s)) (height (self s)) (mode (self s))
       (full_refresh_minutes (self s))
       (full_refresh_after_partials (self s))
       (last_full_refresh (self s)) (partial_count (self s)) v
       (initialized (self s)))
    (epd s).

Definition set_initialized (v : bool) (s : state) : state :=
  mkState
    (mkRenderer (width (self s)) (height (self s)) (mode (self s))
       (full_refresh_minutes (self s))
       (full_refresh_after_partials (self s))
       (last_full_refresh (self s)) (partial_count (self s))
       (last_image (self s)) v)
    (epd s).

Definition set_epd (m : EPD2in7.machine) (s : state) : state :=
  mkState (self s) m.

(** A call of a method of [self.epd]. *)
Definition on_epd {A} (m : M EPD2in7.machine A) : M state A :=
  lift epd set_epd m.

Definition print (text : string) : M state unit :=
  on_epd (EPD2in7.print text).

(** [time.time()] and [datetime.now()] *)
Definition time_time : M state Z :=
  fun s =>
    let (now, w) := read_clock (EPD2in7.env (epd s)) in
    (Returned now,
     mkState (self s) (EPD2in7.mkMachine (EPD2in7.self (epd s)) w)).

Definition datetime_now : M state Z := time_time.

(** [str.lower] on ASCII letters. *)
Definition lower_ascii (c : ascii) : ascii :=
  let n := nat_of_ascii c in
  if ((65 <=? n) && (n <=? 90))%nat then ascii_of_nat (n + 32) else c.

Fixpoint lower (s : string) : string :=
  match s with
  | EmptyString => EmptyString
  | String c rest => String (lower_ascii c) (lower rest)
  end.

(** Text drawing goes through PIL fonts; it is kept as an interface.
    Each operation stands for the [draw.text] and [draw.line] calls of
    the method of the same name, acting on the image it is given. *)
Class Drawing : Type := {
  TokenData : Type;
  _draw_header : t -> option TokenData -> Image -> Image;
  _draw_price : t -> option TokenData -> Image -> Image;
  _draw_change : t -> option TokenData -> Image -> Image;
  _draw_stats : t -> option TokenData -> Image -> Image;
  (* the clock reading is [datetime.now()] *)
  _draw_footer : t -> Z -> Z -> Image -> Image
}.

Definition _clear_zone (image : Image) (z : zone) : Image :=
  let '(x, y, w, h) := z in
  rectangle image x y (x + w) (y + h) 255.

(** [return bytes(buffer)] after the loops of [Codec]. *)
Definition _image_to_buffer (self : t) (image : Image)
  : outcome (list Z) :=
  bytes (Codec.pack_buffer image).

Definition call_image_to_buffer (image : Image) : M state (list Z) :=
  fun s => (_image_to_buffer (self s) image, s).

Definition init : M state unit :=
  ini <- gets (fun s => initialized (self s)) ;;
  if negb ini then
    on_epd (EPD2in7.init "full") ;;
    on_epd EPD2in7.clear ;;
    now <- time_time ;;
    modify (set_last_full_refresh now) ;;
    modify (set_initialized true)
  else ret tt.

Definition show_blank : M state unit :=
  ini <- gets (fun s => initialized (self s)) ;;
  (if negb ini then init else ret tt) ;;
  on_epd (EPD2in7.init "full") ;;
  on_epd EPD2in7.clear ;;
  w <- gets (fun s => width (self s)) ;;
  h <- gets (fun s => height (self s)) ;;
  let image := new (w, h) 255 in
  modify (set_last_image (Some image)).

Definition _should_full_refresh : M state bool :=
  now <- time_time ;;
  last <- gets (fun s => last_full_refresh (self s)) ;;
  let time_since_full := now - last in
  minutes <- gets (fun s => full_refresh_minutes (self s)) ;;
  if time_since_full >? minutes * 60 then ret true else
  count <- gets (fun s => partial_count (self s)) ;;
  limit <- gets (fun s => full_refresh_after_partials (self s)) ;;
  if count >=? limit then ret true else
  ret false.

(** The state after one reading of the clock. *)
Definition tick (s : state) : state :=
  let w := EPD2in7.env (epd s) in
  mkState (self s)
    (EPD2in7.mkMachine (EPD2in7.self (epd s))
       (mkWorld (HAS_HARDWARE w) (busy_line w) (gpio_reads w)
          (wall_clock w) (S (clock_reads w)) (trace w))).

(** The driver state in which a render method starts to transmit:
    its messages are printed and the clock has been read once for the
    footer. *)
Definition entering (text : list string) (s : state) : EPD2in7.machine :=
  let w := EPD2in7.env (epd s) in
  EPD2in7.mkMachine (EPD2in7.self (epd s))
    (mkWorld (HAS_HARDWARE w) (busy_line w) (gpio_reads w) (wall_clock w)
       (S (clock_reads w)) (trace w ++ map Print text)).

Section Rendering.
Context {D : Drawing}.

(** The frame [_render_full] draws: all five zones on a fresh white
    image. *)
Definition full_frame (r : t) (data : option TokenData)
    (now stale_seconds : Z) : Image :=
  _draw_footer r now stale_seconds
    (_draw_stats r data
       (_draw_change r data
          (_draw_price r data
             (_draw_header r data
                (new (width r, height r) 255))))).

(** The frame [_render_partial] draws on a copy of the last one. *)
Definition partial_frame (r : t) (last : Image)
    (data : option TokenData) (now stale_seconds : Z) : Image :=
  _draw_footer r now stale_seconds
    (_draw_stats r data
       (_draw_change r data
          (_draw_price r data
             (_clear_zone
                (_clear_zone
                   (_clear_zone
                      (_clear_zone (copy last) ZONE_PRICE)
                      ZONE_CHANGE)
                   ZONE_STATS)
                ZONE_FOOTER)))).

Definition _render_full (data : option TokenData) (stale_seconds : Z)
  : M state unit :=
  print "Full refresh" ;;
  r <- gets self ;;
  now <- datetime_now ;;
  let image := full_frame r data now stale_seconds in
  buffer <- call_image_to_buffer image ;;
  on_epd (EPD2in7.init "full") ;;
  on_epd (EPD2in7.display_frame buffer) ;;
  on_epd (EPD2in7.refresh "full") ;;
  modify (set_last_image (Some image)).

Definition _render_partial (data : option TokenData)
    (stale_seconds : Z) : M state unit :=
  print "Partial refresh" ;;
  last <- gets (fun s => last_image (self s)) ;;
  match last with
  | None => _render_full data stale_seconds
  | Some last_image =>
      r <- gets self ;;
      now <- datetime_now ;;
      let image := partial_frame r last_image data now stale_seconds in
      buffer <- call_image_to_buffer image ;;
      on_epd (EPD2in7.init "partial") ;;
      on_epd (EPD2in7.display_frame buffer) ;;
      on_epd (EPD2in7.refresh "partial") ;;
      modify (set_last_image (Some image))
  end.

Definition render (data : option TokenData) (stale_seconds : Z)
  : M state unit :=
  ini <- gets (fun s => initialized (self s)) ;;
  (if negb ini then init else ret tt) ;;
  m <- gets (fun s => mode (self s)) ;;
  if String.eqb (lower m) "blank" then show_blank else
  should_full_refresh <- _should_full_refresh ;;
  if should_full_refresh then
    _render_full data stale_seconds ;;
    now <- time_time ;;
    modify (set_last_full_refresh now) ;;
    modify (set_partial_count 0)
  else
    _render_partial data stale_seconds ;;
    count <- gets (fun s => partial_count (self s)) ;;
    modify (set_partial_count (count + 1)).

End Rendering.

(** Whether pixel [(x, y)] lies in the rectangle [_clear_zone] fills for
    a zone: both corners [(x, y)] and [(x + w, y + h)] are included. *)
Definition covers (z : zone) (x y : nat) : bool :=
  let '(zx, zy, zw, zh) := z in
  ((zx <=? x) && (x <=? zx + zw) && (zy <=? y) && (y <=? zy + zh))%nat.

(** The zones [_render_partial] clears, in its order. *)
Definition dynamic_zones : list zone :=
  [ZONE_PRICE; ZONE_CHANGE; ZONE_STATS; ZONE_FOOTER].

(** A drawing interface whose operations keep the size of the image
    they draw on, as every [ImageDraw] operation does. *)
Definition size_preserving (D : Drawing) : Prop :=
  (forall r d image, size (_draw_header r d image) = size image) /\
  (forall r d image, size (_draw_price r d image) = size image) /\
  (forall r d image, size (_draw_change r d image) = size image) /\
  (forall r d image, size (_draw_stats r d image) = size image) /\
  (forall r now stale image,
      size (_draw_footer r now stale image) = size image).

(** A drawing interface for worked examples: each text operation
    blackens the pixel at the origin of its zone. *)
Definition marking : Drawing := {|
  TokenData := unit;
  _draw_header := fun _ _ image => rectangle image 0 0 0 0 0;
  _draw_price := fun _ _ image => rectangle image 10 32 10 32 0;
  _draw_change := fun _ _ image => rectangle image 155 32 155 32 0;
  _draw_stats := fun _ _ image => rectangle image 10 102 10 102 0;
  _draw_footer := fun _ _ _ image => rectangle image 0 156 0 156 0
|}.

(** Modelled from the spec: [decide] of section 4.4, on the reading
    [now] of the clock: FULL ([true]) when the interval has elapsed
    or the partial-update limit is reached. *)
Definition decide_spec (now last_full interval count limit : Z) : bool :=
  (now - last_full >=? interval) || (count >=? limit).

End DisplayRenderer.

(* ================================================================== *)
(** * [class Config] of app/config.py: dotted paths into the YAML data *)
(* ================================================================== *)

Module Config.

(** What [yaml.safe_load] yields.  A mapping is a list of bindings in
    insertion order, with string keys; floats are kept as their text,
    since [get] and [set] never look inside a scalar. *)
#[local] Unset Elimination Schemes.
Inductive value : Type :=
| VNone
| VBool (b : bool)
| VInt (z : Z)
| VFloat (text : string)
| VStr (s : string)
| VList (items : list value)
| VDict (items : list (string * value)).
#[local] Set Elimination Schemes.

Inductive error : Type :=
| KeyError (key : string)
| TypeError
| IndexError.

(** [d[key]] on a mapping's bindings. *)
Fixpoint lookup (key : string) (d : list (string * value)) : option value :=
  match d with
  | [] => None
  | (k, v) :: rest => if String.eqb k key then Some v else lookup key rest
  end.

(** [d[key] = v]: an existing key keeps its place, a new one goes last. *)
Fixpoint store (key : string) (v : value) (d : list (string * value))
  : list (string * value) :=
  match d with
  | [] => [(key, v)]
  | (k, old) :: rest =>
      if String.eqb k key then (k, v) :: rest
      else (k, old) :: store key v rest
  end.

(** [key_path.split('.')] *)
Fixpoint split (key_path : string) : list string :=
  match key_path with
  | EmptyString => [EmptyString]
  | String c rest =>
      if Ascii.eqb c "."%char then EmptyString :: split rest
      else match split rest with
           | first :: others => String c first :: others
           | [] => [String c EmptyString]
           end
  end.

(** [value[key]]: [KeyError] on a mapping without the key, [TypeError]
    on anything that is not a mapping (a string key is never a valid
    index of a scalar, a string or a list). *)
Definition subscript (v : value) (key : string) : error + value :=
  match v with
  | VDict d =>
      match lookup key d with
      | Some v' => inr v'
      | None => inl (KeyError key)
      end
  | _ => inl TypeError
  end.

(** [for key in keys: value = value[key]] *)
Fixpoint walk (keys : list string) (v : value) : error + value :=
  match keys with
  | [] => inr v
  | key :: rest =>
      match subscript v key with
      | inr v' => walk rest v'
      | inl e => inl e
      end
  end.

(** [Config.get]: both exceptions are caught and give the default. *)
Definition get (data : value) (key_path : string) (default : value) : value :=
  match walk (split key_path) data with
  | inr v => v
  | inl _ => default
  end.

(** The loop and the final assignment of [Config.set], on the value
    [target] refers to.  Mutation in place of the nested mappings is
    the rebuilt mapping.  A target that is not a mapping ends in
    [TypeError], at the membership test, the assignment or the
    subscript. *)
Fixpoint set_keys (keys : list string) (v : value) (target : value)
  : error + value :=
  match keys with
  | [] => inl IndexError
  | [key] =>
      match target with
      | VDict d => inr (VDict (store key v d))
      | _ => inl TypeError
      end
  | key :: rest =>
      match target with
      | VDict d =>
          match lookup key d with
          | None =>
              match set_keys rest v (VDict []) with
              | inr sub => inr (VDict (store key sub d))
              | inl e => inl e
              end
          | Some sub =>
              match set_keys rest v sub with
              | inr sub' => inr (VDict (store key sub' d))
              | inl e => inl e
              end
          end
      | _ => inl TypeError
      end
  end.

(** [Config.set]: the new [self.data], or the exception raised. *)
Definition set (data : value) (key_path : string) (v : value)
  : error + value :=
  set_keys (split key_path) v data.

End Config.

(* ================================================================== *)
(** * [class TetsuoDisplay] of app/main.py: the button callbacks       *)
(* ================================================================== *)

Module TetsuoDisplay.

(** The flags of the application object, and the renderer it owns. *)
Record t : Type := mkApp {
  running : bool;
  force_full_refresh : bool;
  manual_refresh_requested : bool
}.

Record state : Type := mkState {
  self : t;
  renderer : DisplayRenderer.state
}.

Definition on_renderer {A} (m : M DisplayRenderer.state A) : M state A :=
  lift renderer (fun r s => mkState (self s) r) m.

Definition set_manual_refresh_requested (v : bool) (s : state) : state :=
  mkState (mkApp (running (self s)) (force_full_refresh (self s)) v)
          (renderer s).

Definition newline : string := String (ascii_of_nat 10) EmptyString.

(** KEY1: [self.renderer.partial_count =
    self.renderer.full_refresh_after_partials], then the manual
    refresh flag. *)
Definition _on_force_full_refresh : M state unit :=
  on_renderer
    (DisplayRenderer.print
       (newline ++ "[BUTTON] KEY1: Force full refresh requested")) ;;
  limit <- gets (fun s => DisplayRenderer.full_refresh_after_partials
                            (DisplayRenderer.self (renderer s))) ;;
  on_renderer (modify (DisplayRenderer.set_partial_count limit)) ;;
  modify (set_manual_refresh_requested true).

(** KEY4 *)
Definition _on_manual_refresh : M state unit :=
  on_renderer
    (DisplayRenderer.print
       (newline ++ "[BUTTON] KEY4: Manual refresh requested")) ;;
  modify (set_manual_refresh_requested true).

End TetsuoDisplay.

(* ================================================================== *)
(** * Frame packing: facts about the loops                             *)
(* ================================================================== *)

Import PIL.

Lemma ceil_div_step (a step : nat) :
  0 < step -> 0 < a ->
  Codec.ceil_div a step = S (Codec.ceil_div (a - step) step).
Proof.
  intros Hs Ha. unfold Codec.ceil_div.
  destruct (le_lt_dec step a) as [Hle | Hlt].
  - replace (a + (step - 1)) with ((a - step + (step - 1)) + 1 * step) by lia.
    rewrite Nat.div_add by lia. lia.
  - replace (a - step) with 0 by lia.
    rewrite (Nat.div_small (0 + (step - 1))) by lia.
    symmetry. apply Nat.div_unique with (r := a - 1). lia. lia.
Qed.

Lemma ceil_div_zero (step : nat) : 0 < step -> Codec.ceil_div 0 step = 0.
Proof. intros Hs. unfold Codec.ceil_div. apply Nat.div_small. lia. Qed.

(** [range(start, stop, step)] lists [start + k * step] for the
    [ceil((stop - start) / step)] values of [k]. *)
Lemma range_from_map (fuel x stop step : nat) :
  0 < step -> stop - x <= fuel ->
  range_from fuel x stop step =
  map (fun k => x + k * step) (seq 0 (Codec.ceil_div (stop - x) step)).
Proof.
  intros Hs. revert x. induction fuel as [| fuel IH]; intros x Hf.
  - replace (stop - x) with 0 by lia. now rewrite ceil_div_zero.
  - simpl. destruct (x <? stop) eqn:E.
    + apply Nat.ltb_lt in E.
      rewrite (ceil_div_step (a := stop - x)) by lia.
      rewrite IH by lia. simpl. f_equal. lia.
      rewrite <- seq_shift, map_map.
      replace (stop - x - step) with (stop - (x + step)) by lia.
      apply map_ext. intros k. lia.
    + apply Nat.ltb_ge in E. replace (stop - x) with 0 by lia.
      now rewrite ceil_div_zero.
Qed.

Lemma range3_by8 (w : nat) :
  range3 0 w 8 = map (fun k => 8 * k) (seq 0 (Codec.ceil_div w 8)).
Proof.
  unfold range3. rewrite range_from_map by lia.
  rewrite Nat.sub_0_r. apply map_ext. intros k. lia.
Qed.

(** Indexing a concatenation of [h] rows of [n] items each. *)
Lemma nth_flat_map_rows {A} (g : nat -> list A) (n : nat) (d : A) :
  forall h s j k,
    (forall y, List.length (g y) = n) -> j < h -> k < n ->
    nth (j * n + k) (flat_map g (seq s h)) d = nth k (g (s + j)) d.
Proof.
  induction h as [| h IH]; intros s j k Hlen Hj Hk; [lia |].
  simpl. destruct j as [| j].
  - rewrite app_nth1 by (rewrite Hlen; lia).
    simpl. now rewrite Nat.add_0_r.
  - rewrite app_nth2 by (rewrite Hlen; simpl; lia).
    rewrite Hlen. replace (S j * n + k - n) with (j * n + k) by (simpl; lia).
    rewrite IH by (auto; lia). f_equal. f_equal. lia.
Qed.

Lemma length_flat_map_rows {A} (g : nat -> list A) (n : nat) :
  forall h s, (forall y, List.length (g y) = n) ->
    List.length (flat_map g (seq s h)) = h * n.
Proof.
  induction h as [| h IH]; intros s Hlen; simpl; [reflexivity |].
  rewrite length_app, Hlen, IH by assumption. reflexivity.
Qed.

Lemma shifted_mask_bit (bit : nat) (n : Z) :
  (0 <= n)%Z ->
  Z.testbit (Z.shiftr 0x80 (Z.of_nat bit)) n = (n =? 7 - Z.of_nat bit)%Z.
Proof.
  intros Hn. rewrite Z.shiftr_spec by assumption.
  change 0x80%Z with (2 ^ 7)%Z.
  rewrite Z.pow2_bits_eqb by lia.
  destruct (Z.eqb_spec 7 (n + Z.of_nat bit)), (Z.eqb_spec n (7 - Z.of_nat bit));
    lia || reflexivity.
Qed.

Lemma pack_fold_bit (image : Image) (x y : nat) (n : Z) :
  (0 <= n)%Z ->
  forall bits acc,
    Z.testbit (fold_left (Codec.pack_bit image x y) bits acc) n =
    Z.testbit acc n ||
    existsb (fun bit => Codec.lit image x y bit && (n =? 7 - Z.of_nat bit)%Z) bits.
Proof.
  intros Hn. induction bits as [| bit bits IH]; intros acc; simpl.
  - now rewrite orb_false_r.
  - rewrite IH. unfold Codec.pack_bit, Codec.lit.
    destruct (x + bit <? fst (size image)); simpl; [| reflexivity].
    destruct (Z.eqb (getpixel image (x + bit, y)) 255); simpl; [| reflexivity].
    rewrite Z.lor_spec, shifted_mask_bit by assumption.
    now rewrite orb_assoc.
Qed.

(** Bit [7 - c] of a packed byte is set exactly when column [x + c] is
    inside the image and its pixel reads 255. *)
Lemma pack_byte_bit (image : Image) (x y c : nat) :
  c < 8 ->
  Z.testbit (Codec.pack_byte image x y) (7 - Z.of_nat c) = Codec.lit image x y c.
Proof.
  intros Hc. unfold Codec.pack_byte, range.
  rewrite pack_fold_bit by lia. rewrite Z.testbit_0_l. simpl existsb.
  do 8 (destruct c as [| c]; [simpl; repeat rewrite ?andb_true_r, ?andb_false_r, ?orb_false_r; reflexivity |]).
  lia.
Qed.

Lemma pack_fold_range (image : Image) (x y : nat) :
  forall bits acc,
    (0 <= acc < 256)%Z ->
    (0 <= fold_left (Codec.pack_bit image x y) bits acc < 256)%Z.
Proof.
  induction bits as [| bit bits IH]; intros acc Hacc; simpl; [assumption |].
  apply IH. unfold Codec.pack_bit.
  destruct (x + bit <? fst (size image)); [| assumption].
  destruct (Z.eqb (getpixel image (x + bit, y)) 255); [| assumption].
  assert (Hm : (0 <= Z.shiftr 0x80 (Z.of_nat bit) < 256)%Z).
  { rewrite Z.shiftr_div_pow2 by lia.
    assert (0 < 2 ^ Z.of_nat bit)%Z by (apply Z.pow_pos_nonneg; lia).
    split.
    - apply Z.div_pos; lia.
    - apply Z.div_lt_upper_bound; lia. }
  split.
  - apply Z.lor_nonneg. lia.
  - set (v := Z.lor acc (Z.shiftr 0x80 (Z.of_nat bit))).
    assert (Hv : (0 <= v)%Z) by (apply Z.lor_nonneg; lia).
    destruct (Z.eq_dec v 0) as [-> | Hnz]; [lia |].
    change 256%Z with (2 ^ 8)%Z. apply Z.log2_lt_pow2; [lia |].
    unfold v. rewrite Z.log2_lor by lia.
    apply Z.max_lub_lt.
    + destruct (Z.eq_dec acc 0) as [-> | Ha]; [reflexivity |].
      apply Z.log2_lt_pow2; lia.
    + destruct (Z.eq_dec (Z.shiftr 0x80 (Z.of_nat bit)) 0) as [-> | Ha];
        [reflexivity |].
      apply Z.log2_lt_pow2; lia.
Qed.

Lemma pack_byte_range (image : Image) (x y : nat) :
  (0 <= Codec.pack_byte image x y < 256)%Z.
Proof. apply pack_fold_range. lia. Qed.

Lemma pack_row_length (image : Image) (y : nat) :
  List.length
    (map (fun x => Codec.pack_byte image x y) (range3 0 (fst (size image)) 8))
  = Codec.ceil_div (fst (size image)) 8.
Proof. now rewrite range3_by8, !length_map, length_seq. Qed.

Lemma pack_buffer_length (image : Image) :
  List.length (Codec.pack_buffer image) =
  Codec.ceil_div (fst (size image)) 8 * snd (size image).
Proof.
  unfold Codec.pack_buffer, range.
  rewrite (length_flat_map_rows _ (n := Codec.ceil_div (fst (size image)) 8)).
  - apply Nat.mul_comm.
  - intros y. apply pack_row_length.
Qed.

Lemma pack_buffer_nth (image : Image) (y k : nat) :
  y < snd (size image) -> k < Codec.ceil_div (fst (size image)) 8 ->
  nth (y * Codec.ceil_div (fst (size image)) 8 + k)
      (Codec.pack_buffer image) 0%Z
  = Codec.pack_byte image (8 * k) y.
Proof.
  intros Hy Hk. unfold Codec.pack_buffer, range.
  rewrite (nth_flat_map_rows _ (n := Codec.ceil_div (fst (size image)) 8))
    by (auto using pack_row_length).
  simpl. rewrite range3_by8, map_map.
  rewrite (nth_indep _ 0%Z (Codec.pack_byte image (8 * 0) y))
    by (rewrite length_map, length_seq; assumption).
  rewrite (map_nth (fun k0 => Codec.pack_byte image (8 * k0) y)).
  now rewrite seq_nth.
Qed.

Lemma pack_buffer_bytes (image : Image) :
  bytes (Codec.pack_buffer image) = Returned (Codec.pack_buffer image).
Proof.
  unfold bytes.
  replace (forallb is_byte (Codec.pack_buffer image)) with true; [reflexivity |].
  symmetry. apply forallb_forall. intros b Hb.
  unfold Codec.pack_buffer in Hb. apply in_flat_map in Hb.
  destruct Hb as (y & _ & Hb). apply in_map_iff in Hb.
  destruct Hb as (x & <- & _).
  pose proof (pack_byte_range image x y). unfold is_byte.
  apply andb_true_iff. split; [apply Z.leb_le | apply Z.ltb_lt]; lia.
Qed.

Lemma image_to_buffer_returns (r : DisplayRenderer.t) (image : Image) :
  DisplayRenderer._image_to_buffer r image =
  Returned (Codec.pack_buffer image).
Proof. apply pack_buffer_bytes. Qed.

Lemma pack_buffer_bit (image : Image) (y k c : nat) :
  y < snd (size image) -> k < Codec.ceil_div (fst (size image)) 8 -> c < 8 ->
  Z.testbit
    (nth (y * Codec.ceil_div (fst (size image)) 8 + k)
         (Codec.pack_buffer image) 0%Z)
    (7 - Z.of_nat c)
  = (8 * k + c <? fst (size image)) &&
    Z.eqb (getpixel image (8 * k + c, y)) WHITE.
Proof.
  intros Hy Hk Hc. rewrite pack_buffer_nth by assumption.
  now rewrite pack_byte_bit.
Qed.

Lemma ceil_div8_bounds (w : nat) :
  w <= 8 * Codec.ceil_div w 8 < w + 8.
Proof.
  unfold Codec.ceil_div. simpl (8 - 1).
  pose proof (Nat.div_mod_eq (w + 7) 8) as E.
  pose proof (Nat.mod_upper_bound (w + 7) 8). lia.
Qed.

Lemma getpixel_new (sz : nat * nat) (color : Z) (xy : nat * nat) :
  getpixel (new sz color) xy = color \/ getpixel (new sz color) xy = 0%Z.
Proof.
  unfold getpixel, new. simpl rows.
  destruct (nth_in_or_default (snd xy) (repeat (repeat color (fst sz)) (snd sz)) [])
    as [Hin | ->].
  - apply repeat_spec in Hin. rewrite Hin.
    destruct (nth_in_or_default (fst xy) (repeat color (fst sz)) 0%Z)
      as [Hin' | ->]; [left; now apply repeat_spec in Hin' | now right].
  - right. now destruct (fst xy).
Qed.

Lemma pack_fold_dark (image : Image) (x y : nat) :
  (forall bit, Codec.lit image x y bit = false) ->
  forall bits acc, fold_left (Codec.pack_bit image x y) bits acc = acc.
Proof.
  intros Hdark. induction bits as [| bit bits IH]; intros acc; simpl;
    [reflexivity |].
  rewrite IH. unfold Codec.pack_bit. specialize (Hdark bit).
  unfold Codec.lit in Hdark.
  destruct (x + bit <? fst (size image)); [| reflexivity].
  simpl in Hdark. now rewrite Hdark.
Qed.

Lemma pack_buffer_black (w h : nat) :
  Codec.pack_buffer (new (w, h) BLACK) = repeat 0%Z (Codec.ceil_div w 8 * h).
Proof.
  change (Codec.ceil_div w 8 * h)
    with (Codec.ceil_div (fst (size (new (w, h) BLACK))) 8
          * snd (size (new (w, h) BLACK))).
  rewrite <- (pack_buffer_length (new (w, h) BLACK)).
  apply Forall_eq_repeat. apply Forall_forall. intros b Hb.
  unfold Codec.pack_buffer in Hb. apply in_flat_map in Hb.
  destruct Hb as (y & _ & Hb). apply in_map_iff in Hb.
  destruct Hb as (x & <- & _).
  unfold Codec.pack_byte. rewrite pack_fold_dark; [reflexivity |].
  intros bit. unfold Codec.lit.
  destruct (getpixel_new (w, h) BLACK (x + bit, y)) as [-> | ->];
    apply andb_false_r.
Qed.

(** Worked values: the column groups of a 20-pixel row, a row with a
    partial trailing byte, and the buffer size of the 176 x 264 panel. *)
Example range3_20 : range3 0 20 8 = [0; 8; 16].
Proof. reflexivity. Qed.

Example pack_partial_byte :
  Codec.pack_buffer (new (10, 1) WHITE) = [0xFF%Z; 0xC0%Z].
Proof. reflexivity. Qed.

Example panel_buffer_size : Codec.ceil_div 176 8 * 264 = 5808.
Proof. reflexivity. Qed.

(** ** The claims about packing *)

(** C3.  [_image_to_buffer] returns a buffer in which bit [7 - c] of the
    byte for column group [k] of row [y] is set exactly when column
    [8k + c] is inside the frame and its pixel is WHITE: it is clear for
    a BLACK pixel and for the unused trailing bits of a partial byte.
    Hence a WIDTH=8, HEIGHT=1 frame that is BLACK at (0,0) and WHITE
    elsewhere packs to 0x7F, the all-WHITE one packs to 0xFF, and an
    all-BLACK frame of any size packs to 0x00 bytes only. *)
Theorem image_to_buffer_polarity :
  (forall (r : DisplayRenderer.t) (image : Image),
      exists buffer,
        DisplayRenderer._image_to_buffer r image = Returned buffer /\
        forall y k c,
          y < snd (size image) ->
          k < Codec.ceil_div (fst (size image)) 8 ->
          c < 8 ->
          Z.testbit
            (nth (y * Codec.ceil_div (fst (size image)) 8 + k) buffer 0%Z)
            (7 - Z.of_nat c)
          = (8 * k + c <? fst (size image)) &&
            Z.eqb (getpixel image (8 * k + c, y)) WHITE) /\
  (forall r : DisplayRenderer.t,
      DisplayRenderer._image_to_buffer r
        (mkImage (8, 1)
           [[BLACK; WHITE; WHITE; WHITE; WHITE; WHITE; WHITE; WHITE]])
      = Returned [0x7F%Z]) /\
  (forall r : DisplayRenderer.t,
      DisplayRenderer._image_to_buffer r (new (8, 1) WHITE)
      = Returned [0xFF%Z]) /\
  (forall (r : DisplayRenderer.t) (w h : nat),
      DisplayRenderer._image_to_buffer r (new (w, h) BLACK)
      = Returned (repeat 0x00%Z (Codec.ceil_div w 8 * h))).
Proof.
  split; [| split; [| split]].
  - intros r image. exists (Codec.pack_buffer image). split.
    + apply image_to_buffer_returns.
    + intros y k c. apply pack_buffer_bit.
  - intros r. reflexivity.
  - intros r. reflexivity.
  - intros r w h. rewrite image_to_buffer_returns. f_equal.
    apply pack_buffer_black.
Qed.

(** C5.  For every frame, [_image_to_buffer] returns a buffer of exactly
    [ceil(WIDTH/8) * HEIGHT] bytes, where [ceil(WIDTH/8)] is the least
    number of bytes that holds WIDTH bits. *)
Theorem image_to_buffer_length :
  forall (r : DisplayRenderer.t) (image : Image),
    let WIDTH := fst (size image) in
    let HEIGHT := snd (size image) in
    exists buffer,
      DisplayRenderer._image_to_buffer r image = Returned buffer /\
      List.length buffer = Codec.ceil_div WIDTH 8 * HEIGHT /\
      WIDTH <= 8 * Codec.ceil_div WIDTH 8 < WIDTH + 8.
Proof.
  intros r image WIDTH HEIGHT. exists (Codec.pack_buffer image).
  split; [apply image_to_buffer_returns |].
  split; [apply pack_buffer_length | apply ceil_div8_bounds].
Qed.

Lemma column_split (x : nat) : 8 * (x / 8) + x mod 8 = x.
Proof. symmetry. apply Nat.div_mod_eq. Qed.

Lemma column_group_bound (x w : nat) : x < w -> x / 8 < Codec.ceil_div w 8.
Proof.
  intros Hx. pose proof (ceil_div8_bounds w).
  pose proof (Nat.div_mod_eq x 8). pose proof (Nat.mod_upper_bound x 8).
  assert (8 * (x / 8) < 8 * Codec.ceil_div w 8) by lia. lia.
Qed.

(** Unpacking a packed frame reads back each pixel's colour test. *)
Lemma unpack_pack_rows (image : Image) :
  rows (Codec.unpack (fst (size image)) (snd (size image))
          (Codec.pack_buffer image))
  = map (fun y =>
           map (fun x => if Z.eqb (getpixel image (x, y)) WHITE
                         then WHITE else BLACK)
               (seq 0 (fst (size image))))
        (seq 0 (snd (size image))).
Proof.
  unfold Codec.unpack, range. cbn [rows].
  apply map_ext_in. intros y Hy. apply in_seq in Hy.
  apply map_ext_in. intros x Hx. apply in_seq in Hx.
  rewrite pack_buffer_bit
    by (try apply column_group_bound; try apply Nat.mod_upper_bound; lia).
  rewrite column_split.
  replace (x <? fst (size image)) with true
    by (symmetry; apply Nat.ltb_lt; lia).
  reflexivity.
Qed.

Lemma one_bit_row_fixed (row : list Z) :
  Forall (fun p => p = BLACK \/ p = WHITE) row ->
  map (fun x => if Z.eqb (nth x row 0%Z) WHITE then WHITE else BLACK)
      (seq 0 (List.length row))
  = row.
Proof.
  intros Hrow.
  set (f := fun x => if Z.eqb (nth x row 0%Z) WHITE then WHITE else BLACK).
  apply nth_ext with (d := f 0) (d' := 0%Z).
  - now rewrite length_map, length_seq.
  - intros n Hn. rewrite length_map, length_seq in Hn.
    rewrite (map_nth f), seq_nth by assumption. simpl. unfold f.
    assert (Hp : nth n row 0%Z = BLACK \/ nth n row 0%Z = WHITE).
    { rewrite Forall_forall in Hrow. apply Hrow. now apply nth_In. }
    destruct Hp as [-> | ->]; reflexivity.
Qed.

Lemma one_bit_rows_fixed (image : Image) :
  well_formed image -> one_bit image ->
  map (fun y =>
         map (fun x => if Z.eqb (getpixel image (x, y)) WHITE
                       then WHITE else BLACK)
             (seq 0 (fst (size image))))
      (seq 0 (snd (size image)))
  = rows image.
Proof.
  intros [Hh Hw] Hbits. unfold one_bit in Hbits.
  rewrite Forall_forall in Hw, Hbits.
  set (g := fun y =>
              map (fun x => if Z.eqb (getpixel image (x, y)) WHITE
                            then WHITE else BLACK)
                  (seq 0 (fst (size image)))).
  apply nth_ext with (d := g 0) (d' := []).
  - now rewrite length_map, length_seq.
  - intros n Hn. rewrite length_map, length_seq in Hn.
    rewrite (map_nth g), seq_nth by assumption. simpl. unfold g, getpixel.
    cbn [fst snd].
    assert (Hin : In (nth n (rows image) []) (rows image))
      by (apply nth_In; lia).
    rewrite <- (Hw _ Hin). apply one_bit_row_fixed. now apply Hbits.
Qed.

(** C4.  With [unpack] as the spec describes it, every well-formed
    1-bit frame of the configured dimensions is packed into a buffer
    that unpacks to the same frame. *)
Theorem unpack_inverts_image_to_buffer :
  forall (r : DisplayRenderer.t) (F : Image),
    well_formed F -> one_bit F ->
    size F = (DisplayRenderer.width r, DisplayRenderer.height r) ->
    exists buffer,
      DisplayRenderer._image_to_buffer r F = Returned buffer /\
      Codec.unpack (DisplayRenderer.width r) (DisplayRenderer.height r) buffer
      = F.
Proof.
  intros r F Hwf Hbits Hsize. exists (Codec.pack_buffer F).
  split; [apply image_to_buffer_returns |].
  pose proof (unpack_pack_rows F) as Hrows.
  rewrite (one_bit_rows_fixed Hwf Hbits) in Hrows.
  rewrite Hsize in Hrows. cbn [fst snd] in Hrows.
  destruct F as [sz rs]. cbn [size rows] in *. subst sz.
  unfold Codec.unpack in *. cbn [rows] in Hrows. now rewrite Hrows.
Qed.

(** A 2 x 10 frame (partial trailing byte) round-trips. *)
Lemma unpack_inverts_image_to_buffer_witness :
  let r := DisplayRenderer.__init__ 10 2 "normal" 45 60 in
  let F := mkImage (10, 2)
             [[BLACK; WHITE; WHITE; BLACK; WHITE; WHITE; WHITE; BLACK;
               WHITE; BLACK];
              [WHITE; WHITE; BLACK; BLACK; BLACK; WHITE; BLACK; WHITE;
               BLACK; WHITE]] in
  exists buffer,
    DisplayRenderer._image_to_buffer r F = Returned buffer /\
    Codec.unpack (DisplayRenderer.width r) (DisplayRenderer.height r) buffer
    = F.
Proof.
  intros r F. apply (unpack_inverts_image_to_buffer r (F := F)).
  - split; [reflexivity |]. repeat constructor.
  - unfold one_bit, F. cbn [rows].
    repeat (constructor; [repeat (constructor; [auto |]); constructor |]).
    constructor.
  - reflexivity.
Defined.

(** C8, as stated, fails: a renderer configured for 264 x 176 is given
    an 8 x 1 frame and returns a one-byte buffer instead of raising. *)
Lemma image_to_buffer_accepts_mismatch :
  let r := DisplayRenderer.__init__ 264 176 "normal" 45 60 in
  let image := new (8, 1) WHITE in
  size image <> (DisplayRenderer.width r, DisplayRenderer.height r) /\
  DisplayRenderer._image_to_buffer r image = Returned [0xFF%Z] /\
  ~ (exists e, DisplayRenderer._image_to_buffer r image = Raised e).
Proof.
  split; [discriminate |]. split; [reflexivity |].
  intros [e He]. discriminate He.
Qed.

(** C8, amended.  [_image_to_buffer] never compares the frame with the
    configured panel size and never raises: for any two renderer
    configurations it returns the same buffer, sized from the frame's
    own dimensions, and the call leaves the machine state (and so the
    bus) untouched. *)
Theorem image_to_buffer_never_rejects :
  forall (r r' : DisplayRenderer.t) (image : Image)
         (s : DisplayRenderer.state),
    DisplayRenderer._image_to_buffer r image
    = DisplayRenderer._image_to_buffer r' image /\
    exists buffer,
      DisplayRenderer._image_to_buffer r image = Returned buffer /\
      List.length buffer
      = Codec.ceil_div (fst (size image)) 8 * snd (size image) /\
      DisplayRenderer.call_image_to_buffer image s = (Returned buffer, s).
Proof.
  intros r r' image s. split; [reflexivity |].
  exists (Codec.pack_buffer image).
  split; [apply image_to_buffer_returns |].
  split; [apply pack_buffer_length |].
  unfold DisplayRenderer.call_image_to_buffer.
  now rewrite image_to_buffer_returns.
Qed.

(* ================================================================== *)
(** * The driver: busy wait                                            *)
(* ================================================================== *)

Unset Implicit Arguments.

Lemma bind_returned {S A B} (m : M S A) (k : A -> M S B) s a s' :
  m s = (Returned a, s') -> bind m k s = k a s'.
Proof. intros H. unfold bind. now rewrite H. Qed.

(** Unfold the primitive steps and project the record fields, leaving
    loops and waits folded. *)
Ltac run_fields :=
  cbn [EPD2in7.self EPD2in7.env HAS_HARDWARE busy_line gpio_reads
       wall_clock clock_reads trace
       EPD2in7.dc_pin EPD2in7.rst_pin EPD2in7.busy_pin EPD2in7.cs_pin
       EPD2in7.spi EPD2in7.width EPD2in7.height negb andb fst snd].

Ltac run_prims :=
  repeat (unfold bind at 1;
          unfold gets, modify, ret, raise, EPD2in7.print, EPD2in7.time_sleep,
            EPD2in7.perform, EPD2in7.set_spi, emit;
          run_fields).

Lemma busy_loop_run :
  forall (budget fuel : nat) (timeout : Z) (m : EPD2in7.machine),
    timeout = (100 - Z.of_nat budget)%Z -> budget < fuel ->
    let w := EPD2in7.env m in
    let n := EPD2in7.busy_count (busy_line w) (gpio_reads w) budget in
    EPD2in7.busy_loop fuel timeout m =
    (Returned (timeout + Z.of_nat n)%Z,
     EPD2in7.mkMachine (EPD2in7.self m)
       (mkWorld (HAS_HARDWARE w) (busy_line w) (gpio_reads w + S n)
          (wall_clock w) (clock_reads w)
          (trace w ++ EPD2in7.poll_events (EPD2in7.busy_pin (EPD2in7.self m))
                        (busy_line w) (gpio_reads w) n))).
Proof.
  induction budget as [| budget IH]; intros fuel timeout m Ht Hf;
    destruct fuel as [| fuel]; try lia;
    destruct m as [d [hw line reads clock creads tr]];
    cbn [EPD2in7.env EPD2in7.self busy_line gpio_reads HAS_HARDWARE
         wall_clock clock_reads trace].
  - subst timeout. cbn. rewrite andb_false_r. cbn.
    now rewrite Nat.add_1_r.
  - cbn [EPD2in7.busy_loop EPD2in7.busy_count].
    unfold bind at 1. cbn [gets EPD2in7.self EPD2in7.env].
    unfold bind at 1. unfold EPD2in7.GPIO_input, read_gpio.
    cbn [EPD2in7.self EPD2in7.env busy_line gpio_reads HAS_HARDWARE
         wall_clock clock_reads trace].
    destruct (line reads =? 1)%Z eqn:Ebusy.
    + replace (timeout <? 100)%Z with true by (symmetry; apply Z.ltb_lt; lia).
      cbn [andb]. unfold bind at 1.
      unfold EPD2in7.time_sleep, EPD2in7.perform, modify, emit.
      cbn [EPD2in7.self EPD2in7.env busy_line gpio_reads HAS_HARDWARE
           wall_clock clock_reads trace].
      rewrite (IH fuel (timeout + 1)%Z) by lia.
      cbn [EPD2in7.self EPD2in7.env busy_line gpio_reads HAS_HARDWARE
           wall_clock clock_reads trace EPD2in7.poll_events].
      rewrite <- !app_assoc. cbn [app].
      set (n := EPD2in7.busy_count line (S reads) budget).
      replace (timeout + 1 + Z.of_nat n)%Z with (timeout + Z.of_nat (S n))%Z
        by lia.
      replace (S reads + S n) with (reads + S (S n)) by lia.
      reflexivity.
    + cbn [andb ret EPD2in7.poll_events].
      rewrite Z.add_0_r, Nat.add_1_r. reflexivity.
Qed.

Lemma busy_count_le (line : nat -> Z) :
  forall budget start, EPD2in7.busy_count line start budget <= budget.
Proof.
  induction budget as [| budget IH]; intros start; simpl; [lia |].
  destruct (line start =? 1)%Z; [specialize (IH (S start)) |]; lia.
Qed.

Lemma busy_count_busy (line : nat -> Z) :
  forall budget start i,
    i < EPD2in7.busy_count line start budget -> line (start + i) = 1%Z.
Proof.
  induction budget as [| budget IH]; intros start i Hi; simpl in Hi; [lia |].
  destruct (line start =? 1)%Z eqn:E; [| lia].
  destruct i as [| i].
  - rewrite Nat.add_0_r. now apply Z.eqb_eq.
  - replace (start + S i) with (S start + i) by lia. apply IH. lia.
Qed.

Lemma busy_count_stop (line : nat -> Z) :
  forall budget start,
    EPD2in7.busy_count line start budget < budget ->
    line (start + EPD2in7.busy_count line start budget) <> 1%Z.
Proof.
  induction budget as [| budget IH]; intros start Hlt; simpl in *; [lia |].
  destruct (line start =? 1)%Z eqn:E.
  - replace (start + S (EPD2in7.busy_count line (S start) budget))
      with (S start + EPD2in7.busy_count line (S start) budget) by lia.
    apply IH. lia.
  - rewrite Nat.add_0_r. now apply Z.eqb_neq.
Qed.

(** Every call returns [None] in the state [after_wait] describes. *)
Lemma wait_until_idle_run (m : EPD2in7.machine) :
  EPD2in7.wait_until_idle m = (Returned PyNone, EPD2in7.after_wait m).
Proof.
  unfold EPD2in7.wait_until_idle, EPD2in7.after_wait.
  unfold bind at 1. cbn [gets].
  destruct (HAS_HARDWARE (EPD2in7.env m)) eqn:Hhw; cbn [negb].
  - rewrite (bind_returned _ _ _ _ _
               (busy_loop_run 100 101 0%Z m eq_refl (Nat.lt_succ_diag_r 100))).
    set (n := EPD2in7.busy_count _ _ 100).
    pose proof (busy_count_le (busy_line (EPD2in7.env m)) 100
                  (gpio_reads (EPD2in7.env m))) as Hle. fold n in Hle.
    rewrite Hhw. unfold EPD2in7.wait_events. fold n.
    destruct (100 <=? n) eqn:E.
    + apply Nat.leb_le in E.
      assert (Hge : (0 + Z.of_nat n >=? 100)%Z = true)
        by (apply Z.geb_le; lia).
      rewrite Hge. run_prims. now rewrite <- !app_assoc.
    + apply Nat.leb_gt in E.
      assert (Hge : (0 + Z.of_nat n >=? 100)%Z = false)
        by (rewrite Z.geb_leb; apply Z.leb_gt; lia).
      rewrite Hge. run_prims. now rewrite <- !app_assoc.
  - destruct m. reflexivity.
Qed.

(** C9, as stated, fails on the result: whether the line is idle at once
    or stays busy through the whole budget, the call returns [None],
    which is not a boolean and is the same in both cases. *)
Lemma wait_until_idle_result_not_boolean :
  let d := EPD2in7.__init__ 25 17 24 8 in
  let idle :=
    EPD2in7.mkMachine d (mkWorld true (fun _ => 0%Z) 0 (fun _ => 0%Z) 0 []) in
  let stuck :=
    EPD2in7.mkMachine d (mkWorld true (fun _ => 1%Z) 0 (fun _ => 0%Z) 0 []) in
  fst (EPD2in7.wait_until_idle idle) = Returned PyNone /\
  fst (EPD2in7.wait_until_idle stuck) = Returned PyNone /\
  is_bool PyNone = false /\
  ~ (exists b, fst (EPD2in7.wait_until_idle stuck) = Returned (PyBool b)).
Proof.
  intros d idle stuck. rewrite !wait_until_idle_run. cbn [fst].
  repeat split. intros [b Hb]. discriminate Hb.
Qed.

(** C9, amended.  [wait_until_idle] never raises and always returns
    [None].  Without hardware it does nothing.  With hardware it reads
    the busy line, sleeping 100 ms after each busy reading, until a
    reading is not busy or 100 sleeps have been spent; a timeout is
    surfaced only as a printed warning; it ends with a 200 ms sleep. *)
Theorem wait_until_idle_returns_none :
  forall m : EPD2in7.machine,
    let w := EPD2in7.env m in
    let pin := EPD2in7.busy_pin (EPD2in7.self m) in
    exists m',
      EPD2in7.wait_until_idle m = (Returned PyNone, m') /\
      EPD2in7.self m' = EPD2in7.self m /\
      (HAS_HARDWARE w = false -> m' = m) /\
      (HAS_HARDWARE w = true ->
       exists n,
         n <= 100 /\
         (forall i, i < n -> busy_line w (gpio_reads w + i) = 1%Z) /\
         (n < 100 -> busy_line w (gpio_reads w + n) <> 1%Z) /\
         trace (EPD2in7.env m') =
         trace w
           ++ EPD2in7.poll_events pin (busy_line w) (gpio_reads w) n
           ++ (if 100 <=? n
               then [Print "WARNING: Display BUSY timeout"] else [])
           ++ [Sleep 200]).
Proof.
  intros m w pin. exists (EPD2in7.after_wait m).
  split; [apply wait_until_idle_run |].
  unfold EPD2in7.after_wait. fold w.
  destruct (HAS_HARDWARE w) eqn:Hhw.
  - split; [reflexivity |]. split; [discriminate |]. intros _.
    exists (EPD2in7.busy_count (busy_line w) (gpio_reads w) 100).
    split; [apply busy_count_le |].
    split; [apply busy_count_busy |].
    split; [apply busy_count_stop |]. reflexivity.
  - split; [reflexivity |]. split; [reflexivity | discriminate].
Qed.

(* ================================================================== *)
(** * The driver: what reaches the bus                                 *)
(* ================================================================== *)

Lemma bus_quiet_polls (dc pin : Z) (line : nat -> Z) :
  forall n start st,
    fold_left (EPD2in7.bus_step dc) (EPD2in7.poll_events pin line start n) st
    = st.
Proof.
  induction n as [| n IH]; intros start st; simpl; [reflexivity | apply IH].
Qed.

(** A busy wait puts nothing on the bus. *)
Lemma bus_quiet_wait (dc pin : Z) (line : nat -> Z) (start : nat) st :
  fold_left (EPD2in7.bus_step dc) (EPD2in7.wait_events pin line start) st
  = st.
Proof.
  unfold EPD2in7.wait_events. rewrite !fold_left_app, bus_quiet_polls.
  now destruct (100 <=? _).
Qed.

Ltac run_driver :=
  repeat (first
    [ rewrite wait_until_idle_run
    | progress (unfold bind at 1;
                unfold gets, modify, ret, raise, EPD2in7.reset,
                  EPD2in7.send_command, EPD2in7.send_data,
                  EPD2in7.spi_writebytes, EPD2in7.print, EPD2in7.time_sleep,
                  EPD2in7.perform, EPD2in7.set_spi, EPD2in7.after_wait, emit;
                run_fields) ]).

Lemma bus_cons (dc : Z) (e : event) (rest : list event) st :
  fold_left (EPD2in7.bus_step dc) (e :: rest) st
  = fold_left (EPD2in7.bus_step dc) rest (EPD2in7.bus_step dc st e).
Proof. reflexivity. Qed.

(** Replay a stretch of trace on the bus reader, one event at a time so
    that the line state is a value before the next event is read. *)
Ltac read_bus :=
  repeat (first
    [ rewrite bus_quiet_wait
    | rewrite bus_cons;
      cbn [EPD2in7.bus_step fst snd EPD2in7.add_data app map];
      rewrite ?Z.eqb_refl;
      try match goal with
          | H : (_ =? _)%Z = false |- _ => rewrite !H
          end;
      cbv iota;
      cbn [fst snd EPD2in7.add_data app map]
    | rewrite fold_left_app
    | progress cbn [fold_left snd] ]).

(** C1, as stated, fails: on a machine with hardware, [init] puts four
    commands on the bus, not the nine of the spec's sequence; opcodes
    0x01, 0x44, 0x3C, 0x18 and 0x4E are never sent. *)
Lemma init_is_not_spec_sequence :
  let m :=
    EPD2in7.mkMachine (EPD2in7.__init__ 25 17 24 8)
      (mkWorld true (fun _ => 0%Z) 0 (fun _ => 0%Z) 0 []) in
  let sent :=
    EPD2in7.commands 25 (trace (EPD2in7.env (snd (EPD2in7.init "full" m)))) in
  fst (EPD2in7.init "full" m) = Returned tt /\
  EPD2in7.shape sent
  = [(0x12%Z, 0); (0x45%Z, 4); (0x4F%Z, 2); (0x11%Z, 1)] /\
  EPD2in7.shape sent <> EPD2in7.spec_init_sequence.
Proof.
  vm_compute. repeat split. discriminate.
Qed.

(** C1, amended.  With hardware present, every call of [init] returns
    and puts on the bus exactly: software reset (0x12) with no data,
    set-RAM-Y-range (0x45) with data 00 00 07 01, set-RAM-Y-counter
    (0x4F) with data 00 00, and data-entry-mode (0x11) with data 03. *)
Theorem init_command_sequence :
  forall (mode : string) (m : EPD2in7.machine),
    HAS_HARDWARE (EPD2in7.env m) = true ->
    exists m' sent,
      EPD2in7.init mode m = (Returned tt, m') /\
      trace (EPD2in7.env m') = trace (EPD2in7.env m) ++ sent /\
      EPD2in7.commands (EPD2in7.dc_pin (EPD2in7.self m)) sent
      = EPD2in7.init_commands.
Proof.
  intros mode m Hhw.
  destruct m as [[dc rst busy cs dev w h] [hw line reads clock creads tr]].
  cbn in Hhw. subst hw. unfold EPD2in7.init. run_driver.
  match goal with |- exists m' sent, (_, ?s) = _ /\ _ => exists s end.
  run_fields. rewrite <- !app_assoc. cbn [app].
  eexists. split; [reflexivity |]. split; [reflexivity |].
  unfold EPD2in7.commands.
  destruct (Z.eqb_spec rst dc) as [-> | Hne].
  - read_bus. reflexivity.
  - apply Z.eqb_neq in Hne. read_bus. reflexivity.
Qed.

Lemma init_command_sequence_witness :
  let m :=
    EPD2in7.mkMachine (EPD2in7.__init__ 25 17 24 8)
      (mkWorld true (fun k => if k <? 3 then 1%Z else 0%Z) 0
               (fun _ => 0%Z) 0 []) in
  exists m' sent,
    EPD2in7.init "full" m = (Returned tt, m') /\
    trace (EPD2in7.env m') = trace (EPD2in7.env m) ++ sent /\
    EPD2in7.commands (EPD2in7.dc_pin (EPD2in7.self m)) sent
    = EPD2in7.init_commands.
Proof.
  intros m. apply (init_command_sequence "full" m). reflexivity.
Defined.

Lemma refresh_run (mode : string) (m : EPD2in7.machine) :
  HAS_HARDWARE (EPD2in7.env m) = true ->
  EPD2in7.spi (EPD2in7.self m) <> None ->
  let dc := EPD2in7.dc_pin (EPD2in7.self m) in
  let selector :=
    if String.eqb mode "partial" then 0xFF%Z
    else if String.eqb mode "fast" then 0xC7%Z else 0xF7%Z in
  let w := EPD2in7.env m in
  EPD2in7.refresh mode m =
  (Returned tt,
   EPD2in7.after_wait
     (EPD2in7.mkMachine (EPD2in7.self m)
        (mkWorld true (busy_line w) (gpio_reads w) (wall_clock w)
           (clock_reads w)
           (trace w ++
            [GpioOutput dc LOW; SpiWritebytes [0x22%Z];
             GpioOutput dc HIGH; SpiWritebytes [selector];
             GpioOutput dc LOW; SpiWritebytes [0x20%Z]])))).
Proof.
  intros Hhw Hspi.
  destruct m as [[dc rst busy cs dev w h] [hw line reads clock creads tr]].
  cbn in Hhw, Hspi. subst hw. destruct dev as [dev |]; [| contradiction].
  unfold EPD2in7.refresh. cbn zeta.
  destruct (String.eqb mode "partial"); [| destruct (String.eqb mode "fast")];
    run_driver; unfold EPD2in7.after_wait; run_fields;
    rewrite <- ?app_assoc; reflexivity.
Qed.

(** C10.  With hardware present and the SPI device opened by [init],
    [refresh] sends display-update-control 0x22 with exactly one data
    byte, the selector of the mode (0xF7 full, 0xC7 fast, 0xFF partial),
    then master-activate 0x20, then runs the busy wait; it returns
    whatever the busy line does, with the driver object unchanged and
    able to send further commands. *)
Theorem refresh_activation :
  forall (mode : string) (selector : Z) (m : EPD2in7.machine),
    In (mode, selector) EPD2in7.update_modes ->
    HAS_HARDWARE (EPD2in7.env m) = true ->
    EPD2in7.spi (EPD2in7.self m) <> None ->
    let dc := EPD2in7.dc_pin (EPD2in7.self m) in
    let w := EPD2in7.env m in
    let sent :=
      [GpioOutput dc LOW; SpiWritebytes [0x22%Z];
       GpioOutput dc HIGH; SpiWritebytes [selector];
       GpioOutput dc LOW; SpiWritebytes [0x20%Z]] in
    let m1 :=
      EPD2in7.mkMachine (EPD2in7.self m)
        (mkWorld true (busy_line w) (gpio_reads w) (wall_clock w)
           (clock_reads w) (trace w ++ sent)) in
    exists m',
      EPD2in7.commands dc sent = [(0x22%Z, [selector]); (0x20%Z, [])] /\
      EPD2in7.wait_until_idle m1 = (Returned PyNone, m') /\
      EPD2in7.refresh mode m = (Returned tt, m') /\
      EPD2in7.self m' = EPD2in7.self m /\
      HAS_HARDWARE (EPD2in7.env m') = true /\
      (forall command : Z,
          exists m'', EPD2in7.send_command command m' = (Returned tt, m'')).
Proof.
  intros mode selector m Hmode Hhw Hspi dc w sent m1.
  exists (EPD2in7.after_wait m1).
  split.
  { unfold EPD2in7.commands, sent. read_bus. reflexivity. }
  split; [apply wait_until_idle_run |].
  split.
  { rewrite refresh_run by assumption. unfold m1, sent, dc, w.
    destruct Hmode as [E | [E | [E | []]]]; inversion E; subst; reflexivity. }
  unfold EPD2in7.after_wait, m1. run_fields.
  split; [reflexivity |]. split; [reflexivity |].
  intros command. unfold EPD2in7.send_command. run_driver.
  destruct (EPD2in7.spi (EPD2in7.self m)) as [dev |] eqn:Edev;
    [| contradiction].
  run_driver. eexists. reflexivity.
Qed.

Lemma refresh_activation_witness :
  let m :=
    EPD2in7.mkMachine
      (EPD2in7.mkEPD 25 17 24 8 (Some (EPD2in7.mkSpiDev 4000000 0)) 176 264)
      (mkWorld true (fun _ => 1%Z) 0 (fun _ => 0%Z) 0 []) in
  exists m',
    EPD2in7.refresh "partial" m = (Returned tt, m') /\
    EPD2in7.self m' = EPD2in7.self m.
Proof.
  intros m.
  destruct (refresh_activation "partial" 0xFF%Z m) as (m' & _ & _ & H & Hs & _).
  - right. right. left. reflexivity.
  - reflexivity.
  - discriminate.
  - exists m'. split; assumption.
Defined.

(* ================================================================== *)
(** * The driver: every method returns once the device is open         *)
(* ================================================================== *)

Lemma follows_refl (e : EPD2in7.machine) : EPD2in7.follows e e.
Proof.
  repeat split. exists []. now rewrite app_nil_r.
Qed.

Lemma follows_trans (e1 e2 e3 : EPD2in7.machine) :
  EPD2in7.follows e1 e2 -> EPD2in7.follows e2 e3 -> EPD2in7.follows e1 e3.
Proof.
  intros (H1 & C1 & R1 & t1 & T1) (H2 & C2 & R2 & t2 & T2).
  repeat split; try congruence.
  exists (t1 ++ t2). now rewrite T2, T1, app_assoc.
Qed.

Lemma epd_init_ok (mode : string) (e : EPD2in7.machine) :
  exists e',
    EPD2in7.init mode e = (Returned tt, e') /\
    EPD2in7.ready e' /\ EPD2in7.follows e e'.
Proof.
  destruct e as [[dc rst busy cs dev w h] [hw line reads clock creads tr]].
  destruct hw.
  - unfold EPD2in7.init. run_driver. eexists. split; [reflexivity |].
    split.
    + intros _. discriminate.
    + repeat split. run_fields. rewrite <- !app_assoc. eexists. reflexivity.
  - eexists. split; [reflexivity |]. split.
    + intros Hhw. discriminate Hhw.
    + apply follows_refl.
Qed.

Lemma send_data_stream (data : list Z) :
  forall (e : EPD2in7.machine),
    HAS_HARDWARE (EPD2in7.env e) = true ->
    EPD2in7.spi (EPD2in7.self e) <> None ->
    let w := EPD2in7.env e in
    for_each data EPD2in7.send_data e =
    (Returned tt,
     EPD2in7.mkMachine (EPD2in7.self e)
       (mkWorld true (busy_line w) (gpio_reads w) (wall_clock w)
          (clock_reads w)
          (trace w ++
           EPD2in7.data_events (EPD2in7.dc_pin (EPD2in7.self e)) data))).
Proof.
  induction data as [| b data IH]; intros e Hhw Hspi;
    destruct e as [[dc rst busy cs dev w h] [hw line reads clock creads tr]];
    cbn in Hhw, Hspi; subst hw; (destruct dev as [dev |]; [| contradiction]).
  - cbn. now rewrite app_nil_r.
  - cbn [for_each]. run_driver. rewrite IH by (cbn; congruence).
    run_fields. cbn [EPD2in7.data_events flat_map].
    rewrite <- !app_assoc. reflexivity.
Qed.

Lemma epd_display_frame_ok (buffer : list Z) (e : EPD2in7.machine) :
  EPD2in7.ready e ->
  exists e',
    EPD2in7.display_frame buffer e = (Returned tt, e') /\
    EPD2in7.ready e' /\ EPD2in7.follows e e' /\
    (HAS_HARDWARE (EPD2in7.env e) = true ->
     trace (EPD2in7.env e') =
     trace (EPD2in7.env e)
       ++ [GpioOutput (EPD2in7.dc_pin (EPD2in7.self e)) LOW;
           SpiWritebytes [0x24%Z]]
       ++ EPD2in7.data_events (EPD2in7.dc_pin (EPD2in7.self e)) buffer).
Proof.
  intros Hready.
  destruct e as [[dc rst busy cs dev w h] [hw line reads clock creads tr]].
  unfold EPD2in7.ready in Hready. cbn in Hready. destruct hw.
  - destruct dev as [dev |]; [| now specialize (Hready eq_refl)].
    unfold EPD2in7.display_frame. run_driver.
    rewrite send_data_stream by (cbn; congruence). run_fields.
    eexists. split; [reflexivity |]. split; [intros _; discriminate |].
    split.
    + repeat split. run_fields. rewrite <- !app_assoc. eexists. reflexivity.
    + intros _. run_fields. now rewrite <- !app_assoc.
  - eexists. split; [reflexivity |]. split; [intros H; discriminate H |].
    split; [apply follows_refl | intros H; discriminate H].
Qed.

Lemma epd_refresh_ok (mode : string) (e : EPD2in7.machine) :
  EPD2in7.ready e ->
  exists e',
    EPD2in7.refresh mode e = (Returned tt, e') /\
    EPD2in7.ready e' /\ EPD2in7.follows e e'.
Proof.
  intros Hready. destruct (HAS_HARDWARE (EPD2in7.env e)) eqn:Hhw.
  - rewrite refresh_run by auto. eexists. split; [reflexivity |].
    unfold EPD2in7.after_wait. run_fields.
    split; [intros _; now apply Hready |].
    repeat split; try (symmetry; assumption).
    run_fields. rewrite <- !app_assoc. eexists. reflexivity.
  - unfold EPD2in7.refresh. unfold bind at 1, gets. rewrite Hhw. cbn.
    eexists. split; [reflexivity |]. split; [assumption | apply follows_refl].
Qed.

Lemma epd_clear_ok (e : EPD2in7.machine) :
  EPD2in7.ready e ->
  exists e',
    EPD2in7.clear e = (Returned tt, e') /\
    EPD2in7.ready e' /\ EPD2in7.follows e e'.
Proof.
  intros Hready. unfold EPD2in7.clear. unfold bind at 1, gets.
  destruct (HAS_HARDWARE (EPD2in7.env e)) eqn:Hhw; cbn [negb].
  - unfold bind at 1. cbn [ret]. unfold bind at 1. cbn [ret].
    destruct (epd_display_frame_ok
                (repeat 0xFF%Z
                   (Nat.div (EPD2in7.width (EPD2in7.self e)
                             * EPD2in7.height (EPD2in7.self e)) 8))
                e Hready) as (e1 & H1 & R1 & F1 & _).
    rewrite (bind_returned _ _ _ _ _ H1).
    destruct (epd_refresh_ok "full" e1 R1) as (e2 & H2 & R2 & F2).
    exists e2. split; [assumption |]. split; [assumption |].
    eapply follows_trans; eassumption.
  - eexists. split; [reflexivity |]. split; [assumption | apply follows_refl].
Qed.

(* ================================================================== *)
(** * The renderer                                                     *)
(* ================================================================== *)

Ltac run_renderer_fields :=
  cbn [DisplayRenderer.self DisplayRenderer.epd
       DisplayRenderer.width DisplayRenderer.height DisplayRenderer.mode
       DisplayRenderer.full_refresh_minutes
       DisplayRenderer.full_refresh_after_partials
       DisplayRenderer.last_full_refresh DisplayRenderer.partial_count
       DisplayRenderer.last_image DisplayRenderer.initialized];
  run_fields.

(** Run the renderer's steps; where a driver call is reached, use the
    fact [op e = (Returned _, e')] about it from the context. *)
Ltac run_renderer :=
  repeat (first
    [ match goal with
      | H : ?call = (Returned _, _) |- context [?call] => rewrite H
      | H : ?test = true |- context [?test] => rewrite H
      | H : ?test = false |- context [?test] => rewrite H
      | H : ?field = None |- context [?field] => rewrite H
      end
    | progress
        (unfold bind at 1;
         unfold gets, modify, ret, DisplayRenderer.print,
           DisplayRenderer.on_epd, lift, DisplayRenderer.datetime_now,
           DisplayRenderer.time_time, read_clock,
           DisplayRenderer.call_image_to_buffer,
           DisplayRenderer.set_epd, DisplayRenderer.set_last_image,
           DisplayRenderer.set_partial_count,
           DisplayRenderer.set_last_full_refresh,
           DisplayRenderer.set_initialized,
           EPD2in7.print, EPD2in7.perform, emit;
         run_renderer_fields;
         rewrite ?image_to_buffer_returns) ]).

Section RendererFacts.
Context {D : DisplayRenderer.Drawing}.

Lemma render_full_run (data : option DisplayRenderer.TokenData)
    (stale : Z) (s : DisplayRenderer.state) :
  let w := EPD2in7.env (DisplayRenderer.epd s) in
  let image :=
    DisplayRenderer.full_frame (DisplayRenderer.self s) data
      (wall_clock w (clock_reads w)) stale in
  exists e1 e2 e3,
    EPD2in7.init "full" (DisplayRenderer.entering ["Full refresh"%string] s)
    = (Returned tt, e1) /\
    EPD2in7.display_frame (Codec.pack_buffer image) e1 = (Returned tt, e2) /\
    EPD2in7.refresh "full" e2 = (Returned tt, e3) /\
    EPD2in7.follows (DisplayRenderer.entering ["Full refresh"%string] s) e3 /\
    DisplayRenderer._render_full data stale s
    = (Returned tt,
       DisplayRenderer.set_last_image (Some image)
         (DisplayRenderer.set_epd e3 s)).
Proof.
  intros w image.
  destruct (epd_init_ok "full" (DisplayRenderer.entering ["Full refresh"%string] s))
    as (e1 & H1 & R1 & F1).
  destruct (epd_display_frame_ok (Codec.pack_buffer image) e1 R1)
    as (e2 & H2 & R2 & F2 & _).
  destruct (epd_refresh_ok "full" e2 R2) as (e3 & H3 & R3 & F3).
  exists e1, e2, e3. repeat (split; [assumption |]).
  split; [eauto using follows_trans |].
  unfold DisplayRenderer._render_full. unfold DisplayRenderer.entering in H1.
  cbn [map] in H1. subst image w. run_renderer. reflexivity.
Qed.

Lemma should_full_refresh_run (s : DisplayRenderer.state) :
  let r := DisplayRenderer.self s in
  let w := EPD2in7.env (DisplayRenderer.epd s) in
  let now := wall_clock w (clock_reads w) in
  DisplayRenderer._should_full_refresh s =
  (Returned
     ((now - DisplayRenderer.last_full_refresh r
       >? DisplayRenderer.full_refresh_minutes r * 60)%Z
      || (DisplayRenderer.partial_count r
          >=? DisplayRenderer.full_refresh_after_partials r)%Z),
   DisplayRenderer.tick s).
Proof.
  intros r w now. subst r w now.
  unfold DisplayRenderer._should_full_refresh, DisplayRenderer.tick.
  run_renderer.
  destruct (_ >? _)%Z; [reflexivity |]. run_renderer.
  destruct (_ >=? _)%Z; reflexivity.
Qed.

Lemma renderer_init_run (s : DisplayRenderer.state) :
  exists s',
    DisplayRenderer.init s = (Returned tt, s') /\
    DisplayRenderer.initialized (DisplayRenderer.self s') = true /\
    DisplayRenderer.last_image (DisplayRenderer.self s')
    = DisplayRenderer.last_image (DisplayRenderer.self s) /\
    DisplayRenderer.mode (DisplayRenderer.self s')
    = DisplayRenderer.mode (DisplayRenderer.self s) /\
    DisplayRenderer.partial_count (DisplayRenderer.self s')
    = DisplayRenderer.partial_count (DisplayRenderer.self s) /\
    DisplayRenderer.width (DisplayRenderer.self s')
    = DisplayRenderer.width (DisplayRenderer.self s) /\
    DisplayRenderer.height (DisplayRenderer.self s')
    = DisplayRenderer.height (DisplayRenderer.self s).
Proof.
  unfold DisplayRenderer.init. unfold bind at 1, gets.
  destruct (DisplayRenderer.initialized (DisplayRenderer.self s)) eqn:Hi;
    cbn [negb].
  - exists s. unfold ret. repeat split; auto.
  - destruct (epd_init_ok "full" (DisplayRenderer.epd s))
      as (e1 & H1 & R1 & F1).
    destruct (epd_clear_ok e1 R1) as (e2 & H2 & R2 & F2).
    run_renderer. eexists. split; [reflexivity |]. run_renderer_fields.
    repeat split; auto.
Qed.

(** Without a retained frame [_render_partial] is [_render_full]
    after its own message. *)
Lemma render_partial_fallback (data : option DisplayRenderer.TokenData)
    (stale : Z) (s : DisplayRenderer.state) :
  DisplayRenderer.last_image (DisplayRenderer.self s) = None ->
  DisplayRenderer._render_partial data stale s
  = DisplayRenderer._render_full data stale
      (snd (DisplayRenderer.print "Partial refresh" s)).
Proof.
  intros Hlast. unfold DisplayRenderer._render_partial.
  unfold bind at 1. unfold DisplayRenderer.print at 1.
  unfold DisplayRenderer.on_epd, lift, EPD2in7.print, EPD2in7.perform, modify.
  cbn [snd]. unfold bind at 1, gets. unfold DisplayRenderer.set_epd.
  cbn [DisplayRenderer.self]. now rewrite Hlast.
Qed.

(** [render] on an initialised renderer outside blank mode that has no
    retained frame: either branch runs [_render_full]. *)
Lemma render_first_run (data : option DisplayRenderer.TokenData)
    (stale : Z) (s : DisplayRenderer.state) :
  DisplayRenderer.initialized (DisplayRenderer.self s) = true ->
  String.eqb (DisplayRenderer.lower (DisplayRenderer.mode
                                       (DisplayRenderer.self s)))
             "blank" = false ->
  DisplayRenderer.last_image (DisplayRenderer.self s) = None ->
  let r := DisplayRenderer.self s in
  let w := EPD2in7.env (DisplayRenderer.epd s) in
  let decision :=
    ((wall_clock w (clock_reads w) - DisplayRenderer.last_full_refresh r
      >? DisplayRenderer.full_refresh_minutes r * 60)%Z
     || (DisplayRenderer.partial_count r
         >=? DisplayRenderer.full_refresh_after_partials r)%Z) in
  let s0 :=
    if decision then DisplayRenderer.tick s
    else snd (DisplayRenderer.print "Partial refresh"
                (DisplayRenderer.tick s)) in
  exists s1,
    DisplayRenderer._render_full data stale s0 = (Returned tt, s1) /\
    DisplayRenderer.render data stale s
    = (Returned tt,
       if decision then
         DisplayRenderer.set_partial_count 0
           (DisplayRenderer.set_last_full_refresh
              (wall_clock (EPD2in7.env (DisplayRenderer.epd s1))
                 (clock_reads (EPD2in7.env (DisplayRenderer.epd s1))))
              (DisplayRenderer.tick s1))
       else
         DisplayRenderer.set_partial_count
           (DisplayRenderer.partial_count (DisplayRenderer.self s1) + 1)
           s1).
Proof.
  intros Hini Hmode Hlast r w decision s0.
  destruct (render_full_run data stale s0)
    as (e1 & e2 & e3 & _ & _ & _ & _ & Hfull).
  eexists. split; [exact Hfull |].
  unfold DisplayRenderer.render.
  unfold bind at 1, gets. rewrite Hini. cbn [negb].
  unfold bind at 1, ret. unfold bind at 1, gets. rewrite Hmode.
  unfold bind at 1. rewrite should_full_refresh_run.
  fold r w. fold decision. subst s0. destruct decision.
  - unfold bind at 1. rewrite Hfull. unfold DisplayRenderer.tick.
    run_renderer. reflexivity.
  - unfold bind at 1.
    rewrite render_partial_fallback by exact Hlast.
    rewrite Hfull. run_renderer. reflexivity.
Qed.

Lemma render_after_init (data : option DisplayRenderer.TokenData)
    (stale : Z) (s s' : DisplayRenderer.state) :
  DisplayRenderer.initialized (DisplayRenderer.self s) = false ->
  DisplayRenderer.init s = (Returned tt, s') ->
  DisplayRenderer.initialized (DisplayRenderer.self s') = true ->
  DisplayRenderer.render data stale s = DisplayRenderer.render data stale s'.
Proof.
  intros Hi Hinit Hi'. unfold DisplayRenderer.render.
  unfold bind at 1, gets. rewrite Hi. cbn [negb].
  unfold bind at 1. rewrite Hinit.
  symmetry. unfold bind at 1, gets. rewrite Hi'. cbn [negb].
  unfold bind at 1, ret. reflexivity.
Qed.

(** In blank mode [render] only blanks the panel: the retained frame
    is the white frame and the counter is not touched. *)
Lemma render_blank_initialized (data : option DisplayRenderer.TokenData)
    (stale : Z) (s : DisplayRenderer.state) :
  DisplayRenderer.initialized (DisplayRenderer.self s) = true ->
  String.eqb (DisplayRenderer.lower (DisplayRenderer.mode
                                       (DisplayRenderer.self s)))
             "blank" = true ->
  exists s',
    DisplayRenderer.render data stale s = (Returned tt, s') /\
    DisplayRenderer.last_image (DisplayRenderer.self s')
    = Some (new (DisplayRenderer.width (DisplayRenderer.self s),
                 DisplayRenderer.height (DisplayRenderer.self s)) 255%Z) /\
    DisplayRenderer.partial_count (DisplayRenderer.self s')
    = DisplayRenderer.partial_count (DisplayRenderer.self s).
Proof.
  intros Hini Hmode.
  destruct (epd_init_ok "full" (DisplayRenderer.epd s))
    as (e1 & H1 & R1 & F1).
  destruct (epd_clear_ok e1 R1) as (e2 & H2 & R2 & F2).
  unfold DisplayRenderer.render, DisplayRenderer.show_blank.
  run_renderer. eexists. split; [reflexivity |].
  run_renderer_fields. split; reflexivity.
Qed.

Lemma render_blank_run (data : option DisplayRenderer.TokenData)
    (stale : Z) (s : DisplayRenderer.state) :
  String.eqb (DisplayRenderer.lower (DisplayRenderer.mode
                                       (DisplayRenderer.self s)))
             "blank" = true ->
  exists s',
    DisplayRenderer.render data stale s = (Returned tt, s') /\
    DisplayRenderer.last_image (DisplayRenderer.self s')
    = Some (new (DisplayRenderer.width (DisplayRenderer.self s),
                 DisplayRenderer.height (DisplayRenderer.self s)) 255%Z) /\
    DisplayRenderer.partial_count (DisplayRenderer.self s')
    = DisplayRenderer.partial_count (DisplayRenderer.self s).
Proof.
  intros Hmode.
  destruct (DisplayRenderer.initialized (DisplayRenderer.self s)) eqn:Hi.
  - now apply render_blank_initialized.
  - destruct (renderer_init_run s)
      as (si & Hrun & Hi' & _ & Hm & Hc & Hw & Hh).
    rewrite (render_after_init data stale s si Hi Hrun Hi').
    rewrite <- Hm in Hmode. rewrite <- Hw, <- Hh, <- Hc.
    now apply render_blank_initialized.
Qed.

(** C7, amended.  Outside blank mode, a [render] call made while no
    frame is retained runs the full-refresh path whatever the
    scheduler decides: [_render_full] is entered (in a state [s0]
    that still has no frame), draws all five zones on a fresh white
    frame of the configured size, packs it, has the driver run
    [init], [display_frame] with the packed frame and
    [refresh('full')], and retains the frame; [render] then returns
    with that frame retained and nothing more on the trace. *)
Theorem first_render_takes_full_path :
  forall (data : option DisplayRenderer.TokenData) (stale : Z)
         (s : DisplayRenderer.state),
    DisplayRenderer.last_image (DisplayRenderer.self s) = None ->
    String.eqb (DisplayRenderer.lower (DisplayRenderer.mode
                                         (DisplayRenderer.self s)))
               "blank" = false ->
    exists s0 s1 s2 e1 e2 image,
      DisplayRenderer.last_image (DisplayRenderer.self s0) = None /\
      DisplayRenderer.width (DisplayRenderer.self s0)
      = DisplayRenderer.width (DisplayRenderer.self s) /\
      DisplayRenderer.height (DisplayRenderer.self s0)
      = DisplayRenderer.height (DisplayRenderer.self s) /\
      image
      = DisplayRenderer.full_frame (DisplayRenderer.self s0) data
          (wall_clock (EPD2in7.env (DisplayRenderer.epd s0))
             (clock_reads (EPD2in7.env (DisplayRenderer.epd s0))))
          stale /\
      EPD2in7.init "full"
        (DisplayRenderer.entering ["Full refresh"%string] s0)
      = (Returned tt, e1) /\
      EPD2in7.display_frame (Codec.pack_buffer image) e1
      = (Returned tt, e2) /\
      EPD2in7.refresh "full" e2 = (Returned tt, DisplayRenderer.epd s1) /\
      DisplayRenderer._render_full data stale s0 = (Returned tt, s1) /\
      DisplayRenderer.last_image (DisplayRenderer.self s1) = Some image /\
      DisplayRenderer.render data stale s = (Returned tt, s2) /\
      DisplayRenderer.last_image (DisplayRenderer.self s2) = Some image /\
      trace (EPD2in7.env (DisplayRenderer.epd s2))
      = trace (EPD2in7.env (DisplayRenderer.epd s1)).
Proof.
  intros data stale s Hlast Hmode.
  assert (Hinit : exists si,
             DisplayRenderer.render data stale s
             = DisplayRenderer.render data stale si /\
             DisplayRenderer.initialized (DisplayRenderer.self si) = true /\
             DisplayRenderer.last_image (DisplayRenderer.self si) = None /\
             DisplayRenderer.mode (DisplayRenderer.self si)
             = DisplayRenderer.mode (DisplayRenderer.self s) /\
             DisplayRenderer.width (DisplayRenderer.self si)
             = DisplayRenderer.width (DisplayRenderer.self s) /\
             DisplayRenderer.height (DisplayRenderer.self si)
             = DisplayRenderer.height (DisplayRenderer.self s)).
  { destruct (DisplayRenderer.initialized (DisplayRenderer.self s)) eqn:Hi.
    - exists s. repeat split; auto.
    - destruct (renderer_init_run s)
        as (si & Hrun & Hi' & Himg & Hm & _ & Hw & Hh).
      exists si. split; [now apply render_after_init |].
      repeat split; congruence. }
  destruct Hinit as (si & Hsame & Hi & Hlasti & Hmodei & Hwi & Hhi).
  rewrite <- Hmodei in Hmode. rewrite Hsame.
  destruct (render_first_run data stale si Hi Hmode Hlasti)
    as (s1 & Hfull & Hrender).
  set (decision := (_ || _)%bool) in *.
  set (s0 := if decision then _ else _) in *.
  destruct (render_full_run data stale s0)
    as (e1 & e2 & e3 & H1 & H2 & H3 & _ & Hfull').
  rewrite Hfull in Hfull'. injection Hfull' as Hs1.
  assert (Hself0 : DisplayRenderer.self s0 = DisplayRenderer.self si)
    by (subst s0; destruct decision; reflexivity).
  eexists s0, s1, _, e1, e2, _.
  split; [now rewrite Hself0 |].
  split; [now rewrite Hself0 |].
  split; [now rewrite Hself0 |].
  split; [reflexivity |].
  split; [exact H1 |]. split; [exact H2 |].
  split; [rewrite Hs1; exact H3 |].
  split; [exact Hfull |].
  split; [rewrite Hs1; reflexivity |].
  split; [exact Hrender |].
  rewrite Hs1. destruct decision; split; reflexivity.
Qed.

(** The fallback: the scheduler says PARTIAL, no frame is retained,
    the full path runs, and [render] then counts a partial update. *)
Lemma render_fallback_run (data : option DisplayRenderer.TokenData)
    (stale : Z) (s : DisplayRenderer.state) :
  DisplayRenderer.initialized (DisplayRenderer.self s) = true ->
  String.eqb (DisplayRenderer.lower (DisplayRenderer.mode
                                       (DisplayRenderer.self s)))
             "blank" = false ->
  DisplayRenderer.last_image (DisplayRenderer.self s) = None ->
  let r := DisplayRenderer.self s in
  let w := EPD2in7.env (DisplayRenderer.epd s) in
  ((wall_clock w (clock_reads w) - DisplayRenderer.last_full_refresh r
    >? DisplayRenderer.full_refresh_minutes r * 60)%Z
   || (DisplayRenderer.partial_count r
       >=? DisplayRenderer.full_refresh_after_partials r)%Z) = false ->
  exists s1 image,
    DisplayRenderer._render_full data stale
      (snd (DisplayRenderer.print "Partial refresh"
              (DisplayRenderer.tick s)))
    = (Returned tt, s1) /\
    DisplayRenderer.last_image (DisplayRenderer.self s1) = Some image /\
    DisplayRenderer.render data stale s
    = (Returned tt,
       DisplayRenderer.set_partial_count
         (DisplayRenderer.partial_count r + 1) s1) /\
    DisplayRenderer.last_full_refresh (DisplayRenderer.self s1)
    = DisplayRenderer.last_full_refresh r.
Proof.
  intros Hini Hmode Hlast r w Hdec.
  destruct (render_first_run data stale s Hini Hmode Hlast)
    as (s1 & Hfull & Hrender).
  fold r w in Hfull, Hrender. rewrite Hdec in Hfull, Hrender.
  destruct (render_full_run data stale
              (snd (DisplayRenderer.print "Partial refresh"
                      (DisplayRenderer.tick s))))
    as (e1 & e2 & e3 & _ & _ & _ & _ & Hfull').
  rewrite Hfull in Hfull'. injection Hfull' as Hs1.
  exists s1. eexists. split; [exact Hfull |].
  split; [rewrite Hs1; reflexivity |].
  split; [| rewrite Hs1; reflexivity].
  rewrite Hrender. rewrite Hs1. reflexivity.
Qed.

End RendererFacts.

(** ** The claims about the scheduler and the renderer *)

(** C2, as stated, fails at the boundary: with a 60 s interval and the
    clock exactly 60 s after the last full refresh (and the counter
    below its limit), the spec's [decide] gives FULL while
    [_should_full_refresh] returns [False]. *)
Lemma should_full_refresh_boundary_is_partial :
  let s :=
    DisplayRenderer.mkState
      (DisplayRenderer.mkRenderer 264 176 "normal" 1 1000 1000 0 None true)
      (EPD2in7.mkMachine (EPD2in7.__init__ 25 17 24 8)
         (mkWorld true (fun _ => 0%Z) 0 (fun _ => 1060%Z) 0 [])) in
  DisplayRenderer.decide_spec 1060 1000 60 0 1000 = true /\
  fst (DisplayRenderer._should_full_refresh s) = Returned false.
Proof. split; reflexivity. Qed.

(** C2, amended.  [_should_full_refresh] reads the clock and returns
    FULL ([True]) exactly when more than the interval has passed since
    the last full refresh, or the partial counter has reached its
    limit; it changes no attribute of the renderer.  When exactly the
    interval has passed and the counter is below the limit it returns
    PARTIAL; with a 60 s interval, 61 s after the last full refresh it
    returns FULL. *)
Theorem should_full_refresh_decides :
  forall s : DisplayRenderer.state,
    let r := DisplayRenderer.self s in
    let w := EPD2in7.env (DisplayRenderer.epd s) in
    let now := wall_clock w (clock_reads w) in
    let last := DisplayRenderer.last_full_refresh r in
    let interval := (DisplayRenderer.full_refresh_minutes r * 60)%Z in
    let count := DisplayRenderer.partial_count r in
    let limit := DisplayRenderer.full_refresh_after_partials r in
    exists b s',
      DisplayRenderer._should_full_refresh s = (Returned b, s') /\
      DisplayRenderer.self s' = r /\
      (b = true <-> (now - last > interval \/ count >= limit)%Z) /\
      (now = (last + interval)%Z -> (count < limit)%Z -> b = false) /\
      (interval = 60%Z -> now = (last + 61)%Z -> b = true).
Proof.
  intros s r w now last interval count limit.
  rewrite should_full_refresh_run. fold r w now last interval count limit.
  do 2 eexists. split; [reflexivity |]. split; [reflexivity |].
  assert (Hiff : ((now - last >? interval)%Z || (count >=? limit)%Z = true
                  <-> (now - last > interval \/ count >= limit)%Z)).
  { rewrite orb_true_iff, Z.gtb_gt, Z.geb_ge. reflexivity. }
  split; [exact Hiff |]. split.
  - intros Hnow Hcount. apply not_true_is_false. rewrite Hiff. lia.
  - intros Hint Hnow. apply Hiff. lia.
Qed.

(** C6: the code breaks the claim on the fallback path.  An initialised
    renderer with default settings and no retained frame is asked to
    render 5 s after start-up.  The scheduler says PARTIAL;
    [_render_partial] runs [_render_full], which transmits and retains
    the full frame; [render] then counts a partial update: the counter
    is 1, not 0, and the time of the last full refresh is not moved. *)
Theorem render_fallback_increments_counter :
  let s :=
    DisplayRenderer.mkState
      (DisplayRenderer.mkRenderer 264 176 "normal" 45 60 1000 0 None true)
      (EPD2in7.mkMachine
         (EPD2in7.mkEPD 25 17 24 8 (Some (EPD2in7.mkSpiDev 4000000 0))
                        176 264)
         (mkWorld true (fun _ => 0%Z) 0 (fun _ => 1005%Z) 0 [])) in
  exists s1 s2 image,
    DisplayRenderer._render_full (D := DisplayRenderer.marking) None 0
      (snd (DisplayRenderer.print "Partial refresh" (DisplayRenderer.tick s)))
    = (Returned tt, s1) /\
    DisplayRenderer.last_image (DisplayRenderer.self s1) = Some image /\
    DisplayRenderer.render (D := DisplayRenderer.marking) None 0 s
    = (Returned tt, s2) /\
    DisplayRenderer.partial_count (DisplayRenderer.self s2) = 1%Z /\
    DisplayRenderer.last_full_refresh (DisplayRenderer.self s2) = 1000%Z.
Proof.
  intros s.
  destruct (render_fallback_run (D := DisplayRenderer.marking) None 0 s
              eq_refl eq_refl eq_refl eq_refl)
    as (s1 & image & Hfull & Himg & Hrender & Hlast).
  exists s1, (DisplayRenderer.set_partial_count 1 s1), image.
  split; [exact Hfull |]. split; [exact Himg |].
  split; [exact Hrender |]. split; [reflexivity | exact Hlast].
Qed.

(** C7, as stated, fails in blank mode: the first [render] of a
    renderer configured with mode "blank" draws no zone.  The frame it
    retains is the plain white frame, not the frame with the zones
    drawn, and the partial counter is untouched. *)
Lemma first_render_blank_draws_nothing :
  let s :=
    DisplayRenderer.mkState
      (DisplayRenderer.__init__ 264 176 "blank" 45 60)
      (EPD2in7.mkMachine (EPD2in7.__init__ 25 17 24 8)
         (mkWorld true (fun _ => 0%Z) 0 (fun _ => 1005%Z) 0 [])) in
  DisplayRenderer.last_image (DisplayRenderer.self s) = None /\
  exists s',
    DisplayRenderer.render (D := DisplayRenderer.marking) None 0 s
    = (Returned tt, s') /\
    DisplayRenderer.last_image (DisplayRenderer.self s')
    = Some (new (264, 176) WHITE) /\
    DisplayRenderer.partial_count (DisplayRenderer.self s') = 0%Z /\
    forall now : Z,
      getpixel (DisplayRenderer.full_frame (D := DisplayRenderer.marking)
                  (DisplayRenderer.self s) None now 0) (0, 0)
      <> getpixel (new (264, 176) WHITE) (0, 0).
Proof.
  intros s. split; [reflexivity |].
  destruct (render_blank_run (D := DisplayRenderer.marking) None 0 s
              eq_refl) as (s' & Hrender & Himg & Hcount).
  exists s'. split; [exact Hrender |]. split; [exact Himg |].
  split; [exact Hcount |].
  intros now. vm_compute. discriminate.
Qed.

Lemma first_render_takes_full_path_witness :
  let s :=
    DisplayRenderer.mkState
      (DisplayRenderer.__init__ 264 176 "normal" 45 60)
      (EPD2in7.mkMachine (EPD2in7.__init__ 25 17 24 8)
         (mkWorld true (fun _ => 0%Z) 0 (fun _ => 1005%Z) 0 [])) in
  exists s2 image,
    DisplayRenderer.render (D := DisplayRenderer.marking) None 0 s
    = (Returned tt, s2) /\
    DisplayRenderer.last_image (DisplayRenderer.self s2) = Some image.
Proof.
  intros s.
  destruct (first_render_takes_full_path (D := DisplayRenderer.marking)
              None 0 s eq_refl eq_refl)
    as (s0 & s1 & s2 & e1 & e2 & image & H).
  exists s2, image. split; apply H.
Defined.

(* ================================================================== *)
(** * More about the driver                                            *)
(* ================================================================== *)

Lemma add_data_last (acc : list EPD2in7.command) (c : Z) (ds data : list Z) :
  EPD2in7.add_data (acc ++ [(c, ds)]) data = acc ++ [(c, ds ++ data)].
Proof.
  induction acc as [| cmd acc IH]; [reflexivity |].
  cbn [app EPD2in7.add_data]. rewrite IH.
  destruct cmd as [c0 ds0]. destruct (acc ++ [(c, ds)]) eqn:E; [| reflexivity].
  now destruct acc.
Qed.

(** Streaming data bytes appends them, in order, to the data of the last
    command. *)
Lemma bus_data_stream (dc : Z) (data : list Z) :
  forall (l : level) (acc : list EPD2in7.command) (c : Z) (ds : list Z),
    snd (fold_left (EPD2in7.bus_step dc) (EPD2in7.data_events dc data)
           (l, acc ++ [(c, ds)]))
    = acc ++ [(c, ds ++ data)].
Proof.
  induction data as [| b data IH]; intros l acc c ds.
  - cbn. now rewrite app_nil_r.
  - cbn [EPD2in7.data_events flat_map app].
    rewrite !bus_cons.
    cbn [EPD2in7.bus_step fst snd]. rewrite Z.eqb_refl. cbn [fst snd].
    rewrite add_data_last. fold (EPD2in7.data_events dc data).
    rewrite IH. now rewrite <- app_assoc.
Qed.

(** X1.  [display_frame] on an opened device returns after putting on the
    bus the write-RAM command 0x24 with exactly the bytes of the buffer,
    in order, as its data; the driver object is unchanged. *)
Theorem display_frame_streams_buffer :
  forall (frame_buffer : list Z) (e : EPD2in7.machine),
    HAS_HARDWARE (EPD2in7.env e) = true ->
    EPD2in7.spi (EPD2in7.self e) <> None ->
    exists e' sent,
      EPD2in7.display_frame frame_buffer e = (Returned tt, e') /\
      EPD2in7.self e' = EPD2in7.self e /\
      trace (EPD2in7.env e') = trace (EPD2in7.env e) ++ sent /\
      EPD2in7.commands (EPD2in7.dc_pin (EPD2in7.self e)) sent
      = [(0x24%Z, frame_buffer)] /\
      List.length sent = 2 + 2 * List.length frame_buffer.
Proof.
  intros buffer e Hhw Hspi.
  destruct e as [[dc rst busy cs dev w h] [hw line reads clock creads tr]].
  cbn in Hhw, Hspi. subst hw. destruct dev as [dev |]; [| contradiction].
  unfold EPD2in7.display_frame. run_driver.
  rewrite send_data_stream by (cbn; congruence). run_fields.
  do 2 eexists. split; [reflexivity |]. run_fields.
  split; [reflexivity |]. rewrite <- !app_assoc. cbn [app].
  split; [reflexivity |]. split.
  - unfold EPD2in7.commands. rewrite !bus_cons.
    cbn [EPD2in7.bus_step fst snd]. rewrite Z.eqb_refl. cbn [fst snd map app].
    apply (bus_data_stream dc buffer LOW [] 0x24%Z []).
  - cbn [List.length]. do 2 f_equal. unfold EPD2in7.data_events.
    induction buffer as [| b buffer IH]; [reflexivity |].
    cbn [flat_map app List.length]. rewrite IH. lia.
Qed.

Lemma display_frame_streams_buffer_witness :
  let e :=
    EPD2in7.mkMachine
      (EPD2in7.mkEPD 25 17 24 8 (Some (EPD2in7.mkSpiDev 4000000 0)) 176 264)
      (mkWorld true (fun _ => 0%Z) 0 (fun _ => 0%Z) 0 []) in
  exists e' sent,
    EPD2in7.display_frame [0x7F; 0xFF; 0x00]%Z e = (Returned tt, e') /\
    trace (EPD2in7.env e') = trace (EPD2in7.env e) ++ sent /\
    EPD2in7.commands 25 sent = [(0x24%Z, [0x7F; 0xFF; 0x00]%Z)].
Proof.
  intros e.
  destruct (display_frame_streams_buffer [0x7F; 0xFF; 0x00]%Z e)
    as (e' & sent & H & _ & Ht & Hc & _).
  - reflexivity.
  - discriminate.
  - exists e', sent. repeat split; assumption.
Defined.



(** X3.  Without hardware (simulation mode) every driver method returns
    at once and leaves the driver object and the world as they were:
    no GPIO, SPI, sleep or print event, and the SPI device is not
    opened. *)
Theorem simulation_mode_is_inert :
  forall (e : EPD2in7.machine),
    HAS_HARDWARE (EPD2in7.env e) = false ->
    (forall mode, EPD2in7.init mode e = (Returned tt, e)) /\
    EPD2in7.reset e = (Returned tt, e) /\
    (forall c, EPD2in7.send_command c e = (Returned tt, e)) /\
    (forall d, EPD2in7.send_data d e = (Returned tt, e)) /\
    EPD2in7.wait_until_idle e = (Returned PyNone, e) /\
    (forall buffer, EPD2in7.display_frame buffer e = (Returned tt, e)) /\
    (forall mode, EPD2in7.refresh mode e = (Returned tt, e)) /\
    EPD2in7.sleep e = (Returned tt, e) /\
    EPD2in7.clear e = (Returned tt, e) /\
    EPD2in7.cleanup e = (Returned tt, e).
Proof.
  intros e Hhw.
  destruct e as [d [hw line reads clock creads tr]].
  cbn in Hhw. subst hw. repeat split; intros; reflexivity.
Qed.

Lemma simulation_mode_is_inert_witness :
  let e :=
    EPD2in7.mkMachine (EPD2in7.__init__ 25 17 24 8)
      (mkWorld false (fun _ => 1%Z) 0 (fun _ => 0%Z) 0 []) in
  EPD2in7.clear e = (Returned tt, e) /\
  EPD2in7.cleanup e = (Returned tt, e).
Proof.
  intros e.
  destruct (simulation_mode_is_inert e eq_refl)
    as (_ & _ & _ & _ & _ & _ & _ & _ & Hclear & Hcleanup).
  split; assumption.
Defined.

(** X4.  [cleanup] on an opened device sends deep sleep (0x10 with data
    0x01), sleeps 100 ms, closes the SPI device and only then releases
    the GPIO pins. *)
Theorem cleanup_sequence :
  forall (e : EPD2in7.machine),
    HAS_HARDWARE (EPD2in7.env e) = true ->
    EPD2in7.spi (EPD2in7.self e) <> None ->
    let dc := EPD2in7.dc_pin (EPD2in7.self e) in
    let sent :=
      [GpioOutput dc LOW; SpiWritebytes [0x10%Z];
       GpioOutput dc HIGH; SpiWritebytes [0x01%Z];
       Sleep 100; SpiClose; GpioCleanup] in
    exists e',
      EPD2in7.cleanup e = (Returned tt, e') /\
      trace (EPD2in7.env e') = trace (EPD2in7.env e) ++ sent /\
      EPD2in7.commands dc sent = [(0x10%Z, [0x01%Z])].
Proof.
  intros e Hhw Hspi.
  destruct e as [[dc rst busy cs dev w h] [hw line reads clock creads tr]].
  cbn in Hhw, Hspi. subst hw. destruct dev as [dev |]; [| contradiction].
  cbn zeta. run_fields.
  unfold EPD2in7.cleanup, EPD2in7.sleep. run_driver.
  eexists. split; [reflexivity |]. run_fields.
  split; [now rewrite <- !app_assoc |].
  unfold EPD2in7.commands. read_bus. reflexivity.
Qed.

Lemma cleanup_sequence_witness :
  let e :=
    EPD2in7.mkMachine
      (EPD2in7.mkEPD 25 17 24 8 (Some (EPD2in7.mkSpiDev 4000000 0)) 176 264)
      (mkWorld true (fun _ => 0%Z) 0 (fun _ => 0%Z) 0 []) in
  exists e',
    EPD2in7.cleanup e = (Returned tt, e') /\
    List.length (trace (EPD2in7.env e')) = 7.
Proof.
  intros e.
  destruct (cleanup_sequence e) as (e' & H & Ht & _).
  - reflexivity.
  - discriminate.
  - exists e'. split; [exact H |]. rewrite Ht. reflexivity.
Defined.

Lemma add_data_nonempty (cs : list EPD2in7.command) (data : list Z) :
  cs <> [] -> EPD2in7.add_data cs data <> [].
Proof.
  destruct cs as [| [c ds] [| cmd cs]]; [congruence | |]; intros _; discriminate.
Qed.

Lemma add_data_app (acc cs : list EPD2in7.command) (data : list Z) :
  cs <> [] ->
  EPD2in7.add_data (acc ++ cs) data = acc ++ EPD2in7.add_data cs data.
Proof.
  intros Hcs. induction acc as [| [c ds] acc IH]; [reflexivity |].
  cbn [app EPD2in7.add_data]. rewrite IH.
  destruct (acc ++ cs) eqn:E; [| reflexivity].
  apply app_eq_nil in E. destruct E. contradiction.
Qed.

(** Commands already closed by a later command are not touched by what
    follows on the bus. *)
Lemma bus_fold_prefix (dc : Z) (t : list event) :
  forall (l : level) (acc cs : list EPD2in7.command),
    cs <> [] ->
    fold_left (EPD2in7.bus_step dc) t (l, acc ++ cs)
    = (fst (fold_left (EPD2in7.bus_step dc) t (l, cs)),
       acc ++ snd (fold_left (EPD2in7.bus_step dc) t (l, cs))).
Proof.
  induction t as [| e t IH]; intros l acc cs Hcs; [reflexivity |].
  rewrite !bus_cons.
  destruct e; cbn [EPD2in7.bus_step fst snd]; try (apply IH; assumption).
  - destruct (pin =? dc)%Z; cbn [fst snd]; apply IH; assumption.
  - destruct l.
    + rewrite <- app_assoc. apply IH.
      intros E. apply app_eq_nil in E. destruct E. contradiction.
    + rewrite add_data_app by assumption. apply IH.
      now apply add_data_nonempty.
Qed.

(** The bus reading of a trace splits where a new command starts. *)
Lemma commands_app_command (dc c : Z) (t1 rest : list event) :
  EPD2in7.commands dc
    (t1 ++ GpioOutput dc LOW :: SpiWritebytes [c] :: rest)
  = EPD2in7.commands dc t1
    ++ EPD2in7.commands dc (GpioOutput dc LOW :: SpiWritebytes [c] :: rest).
Proof.
  unfold EPD2in7.commands. rewrite fold_left_app, !bus_cons.
  cbn [EPD2in7.bus_step fst snd]. rewrite Z.eqb_refl. cbn [fst snd map app].
  destruct (fold_left (EPD2in7.bus_step dc) t1 (LOW, [])) as [l1 cmds1].
  cbn [fst snd]. rewrite bus_fold_prefix by discriminate. reflexivity.
Qed.

Lemma frame_commands (dc : Z) (buffer : list Z) :
  EPD2in7.commands dc
    (GpioOutput dc LOW :: SpiWritebytes [0x24%Z]
       :: EPD2in7.data_events dc buffer)
  = [(0x24%Z, buffer)].
Proof.
  unfold EPD2in7.commands. rewrite !bus_cons.
  cbn [EPD2in7.bus_step fst snd]. rewrite Z.eqb_refl. cbn [fst snd map app].
  apply (bus_data_stream dc buffer LOW [] 0x24%Z []).
Qed.

(** X5.  [clear] on an opened device writes [width * height // 8] bytes
    0xFF to the panel RAM and activates a full update: the bus carries
    0x24 with those bytes, 0x22 with selector 0xF7, then 0x20. *)
Theorem clear_sends_white_frame :
  forall (e : EPD2in7.machine),
    HAS_HARDWARE (EPD2in7.env e) = true ->
    EPD2in7.spi (EPD2in7.self e) <> None ->
    let d := EPD2in7.self e in
    exists e' sent,
      EPD2in7.clear e = (Returned tt, e') /\
      EPD2in7.self e' = d /\
      trace (EPD2in7.env e') = trace (EPD2in7.env e) ++ sent /\
      EPD2in7.commands (EPD2in7.dc_pin d) sent
      = [(0x24%Z,
          repeat 0xFF%Z (Nat.div (EPD2in7.width d * EPD2in7.height d) 8));
         (0x22%Z, [0xF7%Z]); (0x20%Z, [])].
Proof.
  intros e Hhw Hspi.
  destruct e as [[dc rst busy cs dev w h] [hw line reads clock creads tr]].
  cbn in Hhw, Hspi. subst hw. destruct dev as [dev |]; [| contradiction].
  cbn zeta. run_fields.
  unfold EPD2in7.clear, EPD2in7.display_frame. run_driver.
  rewrite send_data_stream by (cbn; congruence). run_fields.
  rewrite refresh_run by (cbn; congruence).
  unfold EPD2in7.after_wait. run_fields.
  do 2 eexists. split; [reflexivity |]. run_fields.
  split; [reflexivity |].
  rewrite <- !app_assoc. cbn [app]. split; [reflexivity |].
  change (String.eqb "full" "partial") with false.
  change (String.eqb "full" "fast") with false. cbv iota.
  rewrite app_comm_cons, (app_comm_cons _ _ (GpioOutput dc LOW)).
  rewrite commands_app_command, frame_commands.
  unfold EPD2in7.commands. read_bus. reflexivity.
Qed.

Lemma clear_sends_white_frame_witness :
  let e :=
    EPD2in7.mkMachine
      (EPD2in7.mkEPD 25 17 24 8 (Some (EPD2in7.mkSpiDev 4000000 0)) 16 2)
      (mkWorld true (fun _ => 0%Z) 0 (fun _ => 0%Z) 0 []) in
  exists e' sent,
    EPD2in7.clear e = (Returned tt, e') /\
    trace (EPD2in7.env e') = trace (EPD2in7.env e) ++ sent /\
    EPD2in7.commands 25 sent
    = [(0x24%Z, [0xFF; 0xFF; 0xFF; 0xFF]%Z); (0x22%Z, [0xF7%Z]); (0x20%Z, [])].
Proof.
  intros e.
  destruct (clear_sends_white_frame e) as (e' & sent & H & _ & Ht & Hc).
  - reflexivity.
  - discriminate.
  - exists e', sent. repeat split; assumption.
Defined.

Lemma pack_bit_lit (image : Image) (x y : nat) (byte : Z) (bit : nat) :
  Codec.pack_bit image x y byte bit
  = if Codec.lit image x y bit
    then Z.lor byte (Z.shiftr 0x80 (Z.of_nat bit)) else byte.
Proof.
  unfold Codec.pack_bit, Codec.lit.
  destruct (x + bit <? fst (size image)); reflexivity.
Qed.

Lemma pack_byte_all_lit (image : Image) (x y : nat) :
  (forall bit, bit < 8 -> Codec.lit image x y bit = true) ->
  Codec.pack_byte image x y = 0xFF%Z.
Proof.
  intros Hlit. unfold Codec.pack_byte, range. cbn [seq fold_left].
  rewrite !pack_bit_lit. rewrite !Hlit by lia. reflexivity.
Qed.

Lemma getpixel_new_inside (w h x y : nat) (color : Z) :
  x < w -> y < h -> getpixel (new (w, h) color) (x, y) = color.
Proof.
  intros Hx Hy. unfold getpixel, new. cbn [rows fst snd].
  rewrite (nth_indep _ [] (repeat color w)) by (rewrite repeat_length; lia).
  rewrite nth_repeat.
  rewrite (nth_indep _ 0%Z color) by (rewrite repeat_length; lia).
  apply nth_repeat.
Qed.

(** X6.  When the width is a multiple of 8, packing an all-white frame
    gives exactly the buffer [clear] builds for a panel of that size:
    [width * height // 8] bytes 0xFF. *)
Theorem white_frame_is_clear_buffer :
  forall w h : nat,
    w mod 8 = 0 ->
    Codec.pack_buffer (new (w, h) WHITE) = repeat 0xFF%Z (Nat.div (w * h) 8).
Proof.
  intros w h Hw.
  assert (Hdiv : w = 8 * (w / 8)).
  { pose proof (Nat.div_mod_eq w 8). lia. }
  assert (Hceil : Codec.ceil_div w 8 = w / 8).
  { pose proof (ceil_div8_bounds w).
    assert (8 * Codec.ceil_div w 8 < 8 * (w / 8) + 8) by lia.
    assert (8 * (w / 8) <= 8 * Codec.ceil_div w 8) by lia. lia. }
  assert (Hlen : Nat.div (w * h) 8 = Codec.ceil_div w 8 * h).
  { rewrite Hceil. rewrite Hdiv at 1.
    replace (8 * (w / 8) * h) with ((w / 8 * h) * 8) by lia.
    apply Nat.div_mul. discriminate. }
  rewrite Hlen.
  change (Codec.ceil_div w 8 * h)
    with (Codec.ceil_div (fst (size (new (w, h) WHITE))) 8
          * snd (size (new (w, h) WHITE))).
  rewrite <- (pack_buffer_length (new (w, h) WHITE)).
  apply Forall_eq_repeat. apply Forall_forall. intros b Hb.
  unfold Codec.pack_buffer, range in Hb. apply in_flat_map in Hb.
  destruct Hb as (y & Hy & Hb). apply in_seq in Hy.
  rewrite range3_by8 in Hb. apply in_map_iff in Hb.
  destruct Hb as (x & <- & Hx). apply in_map_iff in Hx.
  destruct Hx as (k & <- & Hk). apply in_seq in Hk.
  cbn [fst snd size new] in *. symmetry. apply pack_byte_all_lit.
  intros bit Hbit. unfold Codec.lit. cbn [fst size new].
  rewrite Hceil in Hk.
  assert (Hin : 8 * k + bit < w) by lia.
  replace (8 * k + bit <? w) with true by (symmetry; now apply Nat.ltb_lt).
  rewrite getpixel_new_inside by lia. reflexivity.
Qed.

Lemma white_frame_is_clear_buffer_witness :
  Codec.pack_buffer (new (EPD2in7.WIDTH, EPD2in7.HEIGHT) WHITE)
  = repeat 0xFF%Z (Nat.div (EPD2in7.WIDTH * EPD2in7.HEIGHT) 8).
Proof.
  apply (white_frame_is_clear_buffer EPD2in7.WIDTH EPD2in7.HEIGHT).
  reflexivity.
Defined.

Lemma slept_app (t1 t2 : list event) :
  EPD2in7.slept (t1 ++ t2) = (EPD2in7.slept t1 + EPD2in7.slept t2)%Z.
Proof.
  induction t1 as [| e t1 IH]; [reflexivity |].
  cbn [app EPD2in7.slept fold_right]. fold (EPD2in7.slept (t1 ++ t2)).
  fold (EPD2in7.slept t1). rewrite IH. destruct e; lia.
Qed.

Lemma inputs_read_app (t1 t2 : list event) :
  EPD2in7.inputs_read (t1 ++ t2)
  = EPD2in7.inputs_read t1 + EPD2in7.inputs_read t2.
Proof.
  unfold EPD2in7.inputs_read. now rewrite filter_app, length_app.
Qed.

Lemma poll_events_cost (pin : Z) (line : nat -> Z) :
  forall n start,
    EPD2in7.slept (EPD2in7.poll_events pin line start n)
    = (100 * Z.of_nat n)%Z /\
    EPD2in7.inputs_read (EPD2in7.poll_events pin line start n) = S n.
Proof.
  induction n as [| n IH]; intros start; [split; reflexivity |].
  destruct (IH (S start)) as [Hs Hr].
  cbn [EPD2in7.poll_events]. split.
  - change (EPD2in7.slept (?a :: Sleep 100 :: ?t))
      with (100 + EPD2in7.slept t)%Z.
    rewrite Hs. lia.
  - change (EPD2in7.inputs_read (GpioInput ?p ?v :: Sleep 100 :: ?t))
      with (S (EPD2in7.inputs_read t)).
    now rewrite Hr.
Qed.

(** X7.  A busy wait blocks for a bounded time: whatever the busy line
    does, [wait_until_idle] returns after sleeping at most 10.2 s in
    total (at least 0.2 s with hardware) and after reading the busy pin
    at most 101 times. *)
Theorem wait_until_idle_is_bounded :
  forall e : EPD2in7.machine,
    exists e' waited,
      EPD2in7.wait_until_idle e = (Returned PyNone, e') /\
      trace (EPD2in7.env e') = trace (EPD2in7.env e) ++ waited /\
      (EPD2in7.slept waited <= 10200)%Z /\
      EPD2in7.inputs_read waited <= 101 /\
      (HAS_HARDWARE (EPD2in7.env e) = true ->
       (200 <= EPD2in7.slept waited)%Z /\ 1 <= EPD2in7.inputs_read waited).
Proof.
  intros e. rewrite wait_until_idle_run. unfold EPD2in7.after_wait.
  destruct (HAS_HARDWARE (EPD2in7.env e)) eqn:Hhw.
  - do 2 eexists. split; [reflexivity |]. run_fields.
    split; [reflexivity |].
    unfold EPD2in7.wait_events.
    set (n := EPD2in7.busy_count _ _ 100).
    pose proof (busy_count_le (busy_line (EPD2in7.env e)) 100
                  (gpio_reads (EPD2in7.env e))) as Hn. fold n in Hn.
    rewrite !slept_app, !inputs_read_app.
    destruct (poll_events_cost (EPD2in7.busy_pin (EPD2in7.self e))
                (busy_line (EPD2in7.env e)) n (gpio_reads (EPD2in7.env e)))
      as [-> ->].
    destruct (100 <=? n);
      cbn [EPD2in7.slept EPD2in7.inputs_read fold_right filter List.length];
      repeat split; lia.
  - exists e, []. rewrite app_nil_r.
    split; [reflexivity |]. split; [reflexivity |].
    cbn. split; [lia |]. split; [lia | discriminate].
Qed.

(* ================================================================== *)
(** * What a render puts on the bus                                    *)
(* ================================================================== *)

Lemma display_frame_run (buffer : list Z) (e : EPD2in7.machine) :
  HAS_HARDWARE (EPD2in7.env e) = true ->
  EPD2in7.spi (EPD2in7.self e) <> None ->
  let w := EPD2in7.env e in
  let dc := EPD2in7.dc_pin (EPD2in7.self e) in
  EPD2in7.display_frame buffer e =
  (Returned tt,
   EPD2in7.mkMachine (EPD2in7.self e)
     (mkWorld true (busy_line w) (gpio_reads w) (wall_clock w)
        (clock_reads w)
        (trace w ++ GpioOutput dc LOW :: SpiWritebytes [0x24%Z]
                 :: EPD2in7.data_events dc buffer))).
Proof.
  intros Hhw Hspi.
  destruct e as [[dc rst busy cs dev w h] [hw line reads clock creads tr]].
  cbn in Hhw, Hspi. subst hw. destruct dev as [dev |]; [| contradiction].
  cbn zeta. run_fields. unfold EPD2in7.display_frame. run_driver.
  rewrite send_data_stream by (cbn; congruence). run_fields.
  now rewrite <- !app_assoc.
Qed.

Lemma init_run_commands (mode : string) (e : EPD2in7.machine) :
  HAS_HARDWARE (EPD2in7.env e) = true ->
  exists e' sent,
    EPD2in7.init mode e = (Returned tt, e') /\
    trace (EPD2in7.env e') = trace (EPD2in7.env e) ++ sent /\
    EPD2in7.commands (EPD2in7.dc_pin (EPD2in7.self e)) sent
    = EPD2in7.init_commands /\
    HAS_HARDWARE (EPD2in7.env e') = true /\
    EPD2in7.spi (EPD2in7.self e') <> None /\
    EPD2in7.dc_pin (EPD2in7.self e') = EPD2in7.dc_pin (EPD2in7.self e) /\
    wall_clock (EPD2in7.env e') = wall_clock (EPD2in7.env e) /\
    clock_reads (EPD2in7.env e') = clock_reads (EPD2in7.env e).
Proof.
  intros Hhw.
  destruct e as [[dc rst busy cs dev w h] [hw line reads clock creads tr]].
  cbn in Hhw. subst hw. unfold EPD2in7.init. run_driver.
  match goal with |- exists e' sent, (_, ?s) = _ /\ _ => exists s end.
  run_fields. rewrite <- !app_assoc. cbn [app].
  eexists. split; [reflexivity |]. split; [reflexivity |].
  split.
  - unfold EPD2in7.commands.
    destruct (Z.eqb_spec rst dc) as [-> | Hne].
    + read_bus. reflexivity.
    + apply Z.eqb_neq in Hne. read_bus. reflexivity.
  - repeat split. discriminate.
Qed.

(** The three driver calls of a render, [init(mode)],
    [display_frame(buffer)] and [refresh(mode)], one after the other. *)
Lemma transmit_run (mode : string) (buffer : list Z) (e : EPD2in7.machine) :
  HAS_HARDWARE (EPD2in7.env e) = true ->
  let selector :=
    if String.eqb mode "partial" then 0xFF%Z
    else if String.eqb mode "fast" then 0xC7%Z else 0xF7%Z in
  exists e1 e2 e3 sent,
    EPD2in7.init mode e = (Returned tt, e1) /\
    EPD2in7.display_frame buffer e1 = (Returned tt, e2) /\
    EPD2in7.refresh mode e2 = (Returned tt, e3) /\
    trace (EPD2in7.env e3) = trace (EPD2in7.env e) ++ sent /\
    EPD2in7.commands (EPD2in7.dc_pin (EPD2in7.self e)) sent
    = EPD2in7.init_commands
      ++ [(0x24%Z, buffer); (0x22%Z, [selector]); (0x20%Z, [])] /\
    clock_reads (EPD2in7.env e3) = clock_reads (EPD2in7.env e) /\
    wall_clock (EPD2in7.env e3) = wall_clock (EPD2in7.env e).
Proof.
  intros Hhw selector.
  destruct (init_run_commands mode e Hhw)
    as (e1 & sent1 & H1 & T1 & C1 & Hhw1 & Hspi1 & Hdc1 & Hwc1 & Hcr1).
  pose proof (display_frame_run buffer e1 Hhw1 Hspi1) as H2.
  cbn zeta in H2. rewrite Hdc1 in H2.
  set (dc := EPD2in7.dc_pin (EPD2in7.self e)) in *.
  match type of H2 with _ = (_, ?m) => set (e2 := m) in * end.
  assert (Hhw2 : HAS_HARDWARE (EPD2in7.env e2) = true) by reflexivity.
  assert (Hspi2 : EPD2in7.spi (EPD2in7.self e2) <> None) by exact Hspi1.
  pose proof (refresh_run mode e2 Hhw2 Hspi2) as H3. cbn zeta in H3.
  fold selector in H3.
  match type of H3 with _ = (_, ?m) => set (e3 := m) in * end.
  exists e1, e2, e3.
  exists (sent1
            ++ (GpioOutput dc LOW :: SpiWritebytes [0x24%Z]
                  :: EPD2in7.data_events dc buffer)
            ++ (GpioOutput dc LOW :: SpiWritebytes [0x22%Z]
                  :: GpioOutput dc HIGH :: SpiWritebytes [selector]
                  :: GpioOutput dc LOW :: SpiWritebytes [0x20%Z]
                  :: EPD2in7.wait_events
                       (EPD2in7.busy_pin (EPD2in7.self e1))
                       (busy_line (EPD2in7.env e1))
                       (gpio_reads (EPD2in7.env e1)))).
  split; [exact H1 |]. split; [exact H2 |]. split; [exact H3 |].
  split.
  { unfold e3, EPD2in7.after_wait. subst e2. run_fields.
    rewrite Hdc1. fold dc. rewrite T1. rewrite <- !app_assoc.
    cbn [app]. reflexivity. }
  split.
  { cbn [app]. rewrite commands_app_command, C1. f_equal.
    rewrite app_comm_cons, (app_comm_cons _ _ (GpioOutput dc LOW)).
    rewrite commands_app_command, frame_commands.
    unfold EPD2in7.commands. read_bus. reflexivity. }
  unfold e3, EPD2in7.after_wait. subst e2. run_fields. split; assumption.
Qed.

Section RenderBus.
Context {D : DisplayRenderer.Drawing}.

(** X8.  With hardware present, [_render_full] prints its message and
    then puts on the bus the initialisation commands, the write-RAM
    command with the packed full frame, and a full-mode activation
    (0x22 with 0xF7, then 0x20); it retains the frame it sent and
    changes nothing else in the renderer. *)
Theorem render_full_bus :
  forall (data : option DisplayRenderer.TokenData) (stale : Z)
         (s : DisplayRenderer.state),
    HAS_HARDWARE (EPD2in7.env (DisplayRenderer.epd s)) = true ->
    let w := EPD2in7.env (DisplayRenderer.epd s) in
    let dc := EPD2in7.dc_pin (EPD2in7.self (DisplayRenderer.epd s)) in
    let image :=
      DisplayRenderer.full_frame (DisplayRenderer.self s) data
        (wall_clock w (clock_reads w)) stale in
    exists s1 sent,
      DisplayRenderer._render_full data stale s = (Returned tt, s1) /\
      DisplayRenderer.self s1
      = DisplayRenderer.self
          (DisplayRenderer.set_last_image (Some image) s) /\
      trace (EPD2in7.env (DisplayRenderer.epd s1))
      = trace w ++ Print "Full refresh" :: sent /\
      EPD2in7.commands dc sent
      = EPD2in7.init_commands
        ++ [(0x24%Z, Codec.pack_buffer image); (0x22%Z, [0xF7%Z]);
            (0x20%Z, [])].
Proof.
  intros data stale s Hhw w dc image.
  destruct (transmit_run "full" (Codec.pack_buffer image)
              (DisplayRenderer.entering ["Full refresh"%string] s) Hhw)
    as (e1 & e2 & e3 & sent & H1 & H2 & H3 & T & C & _).
  unfold DisplayRenderer.entering in H1. cbn [map] in H1.
  subst image w. clear Hhw.
  unfold DisplayRenderer._render_full. run_renderer.
  eexists. exists sent. split; [reflexivity |]. run_renderer_fields.
  split; [reflexivity |]. split.
  - rewrite T. unfold DisplayRenderer.entering. run_fields.
    cbn [map]. now rewrite <- app_assoc.
  - exact C.
Qed.

Lemma render_partial_run (data : option DisplayRenderer.TokenData)
    (stale : Z) (s : DisplayRenderer.state) (last : Image) :
  DisplayRenderer.last_image (DisplayRenderer.self s) = Some last ->
  let w := EPD2in7.env (DisplayRenderer.epd s) in
  let image :=
    DisplayRenderer.partial_frame (DisplayRenderer.self s) last data
      (wall_clock w (clock_reads w)) stale in
  exists e1 e2 e3,
    EPD2in7.init "partial"
      (DisplayRenderer.entering ["Partial refresh"%string] s)
    = (Returned tt, e1) /\
    EPD2in7.display_frame (Codec.pack_buffer image) e1 = (Returned tt, e2) /\
    EPD2in7.refresh "partial" e2 = (Returned tt, e3) /\
    EPD2in7.follows
      (DisplayRenderer.entering ["Partial refresh"%string] s) e3 /\
    DisplayRenderer._render_partial data stale s
    = (Returned tt,
       DisplayRenderer.set_last_image (Some image)
         (DisplayRenderer.set_epd e3 s)).
Proof.
  intros Hlast w image.
  destruct (epd_init_ok "partial"
              (DisplayRenderer.entering ["Partial refresh"%string] s))
    as (e1 & H1 & R1 & F1).
  destruct (epd_display_frame_ok (Codec.pack_buffer image) e1 R1)
    as (e2 & H2 & R2 & F2 & _).
  destruct (epd_refresh_ok "partial" e2 R2) as (e3 & H3 & R3 & F3).
  exists e1, e2, e3. repeat (split; [assumption |]).
  split; [eauto using follows_trans |].
  unfold DisplayRenderer._render_partial.
  unfold DisplayRenderer.entering in H1. cbn [map] in H1.
  subst image w.
  unfold bind at 1. unfold DisplayRenderer.print at 1.
  unfold DisplayRenderer.on_epd at 1, lift at 1.
  unfold EPD2in7.print, EPD2in7.perform, modify, emit.
  unfold DisplayRenderer.set_epd at 1.
  unfold bind at 1, gets at 1. cbn [DisplayRenderer.self].
  rewrite Hlast. run_renderer. reflexivity.
Qed.

(** X9.  With hardware present and a retained frame, [_render_partial]
    prints its message, runs the driver's [init] again, and puts on the
    bus the initialisation commands, the write-RAM command with the
    packed frame (the retained frame with the dynamic zones cleared and
    redrawn), and a partial-mode activation (0x22 with 0xFF, then
    0x20); it retains the frame it sent. *)
Theorem render_partial_bus :
  forall (data : option DisplayRenderer.TokenData) (stale : Z)
         (s : DisplayRenderer.state) (last : Image),
    HAS_HARDWARE (EPD2in7.env (DisplayRenderer.epd s)) = true ->
    DisplayRenderer.last_image (DisplayRenderer.self s) = Some last ->
    let w := EPD2in7.env (DisplayRenderer.epd s) in
    let dc := EPD2in7.dc_pin (EPD2in7.self (DisplayRenderer.epd s)) in
    let image :=
      DisplayRenderer.partial_frame (DisplayRenderer.self s) last data
        (wall_clock w (clock_reads w)) stale in
    exists s1 sent,
      DisplayRenderer._render_partial data stale s = (Returned tt, s1) /\
      DisplayRenderer.self s1
      = DisplayRenderer.self
          (DisplayRenderer.set_last_image (Some image) s) /\
      trace (EPD2in7.env (DisplayRenderer.epd s1))
      = trace w ++ Print "Partial refresh" :: sent /\
      EPD2in7.commands dc sent
      = EPD2in7.init_commands
        ++ [(0x24%Z, Codec.pack_buffer image); (0x22%Z, [0xFF%Z]);
            (0x20%Z, [])].
Proof.
  intros data stale s last Hhw Hlast w dc image.
  destruct (transmit_run "partial" (Codec.pack_buffer image)
              (DisplayRenderer.entering ["Partial refresh"%string] s) Hhw)
    as (e1 & e2 & e3 & sent & H1 & H2 & H3 & T & C & _).
  destruct (render_partial_run data stale s last Hlast)
    as (e1' & e2' & e3' & H1' & H2' & H3' & _ & Hrun).
  rewrite H1 in H1'. injection H1' as <-.
  fold w in H2'. fold image in H2'. rewrite H2 in H2'. injection H2' as <-.
  rewrite H3 in H3'. injection H3' as <-.
  eexists. exists sent. split; [exact Hrun |].
  split; [reflexivity |]. split.
  - unfold DisplayRenderer.set_last_image, DisplayRenderer.set_epd.
    run_renderer_fields. rewrite T. unfold DisplayRenderer.entering.
    run_fields. cbn [map]. now rewrite <- app_assoc.
  - exact C.
Qed.

End RenderBus.

Lemma render_full_bus_witness :
  let s :=
    DisplayRenderer.mkState
      (DisplayRenderer.mkRenderer 16 2 "normal" 45 60 1000 0 None true)
      (EPD2in7.mkMachine (EPD2in7.__init__ 25 17 24 8)
         (mkWorld true (fun _ => 0%Z) 0 (fun _ => 1005%Z) 0 [])) in
  exists s1 sent,
    DisplayRenderer._render_full (D := DisplayRenderer.marking) None 0 s
    = (Returned tt, s1) /\
    EPD2in7.commands 25 sent
    = EPD2in7.init_commands
      ++ [(0x24%Z, [0x7F; 0xFF; 0xFF; 0xFF]%Z); (0x22%Z, [0xF7%Z]);
          (0x20%Z, [])].
Proof.
  intros s.
  destruct (render_full_bus (D := DisplayRenderer.marking) None 0 s eq_refl)
    as (s1 & sent & H & _ & _ & C).
  exists s1, sent. split; [exact H | exact C].
Defined.

Lemma render_partial_bus_witness :
  let s :=
    DisplayRenderer.mkState
      (DisplayRenderer.mkRenderer 16 2 "normal" 45 60 1000 1
         (Some (new (16, 2) BLACK)) true)
      (EPD2in7.mkMachine (EPD2in7.__init__ 25 17 24 8)
         (mkWorld true (fun _ => 0%Z) 0 (fun _ => 1005%Z) 0 [])) in
  exists s1 sent,
    DisplayRenderer._render_partial (D := DisplayRenderer.marking) None 0 s
    = (Returned tt, s1) /\
    EPD2in7.commands 25 sent
    = EPD2in7.init_commands
      ++ [(0x24%Z, [0x00; 0x00; 0x00; 0x00]%Z); (0x22%Z, [0xFF%Z]);
          (0x20%Z, [])].
Proof.
  intros s.
  destruct (render_partial_bus (D := DisplayRenderer.marking) None 0 s
              (new (16, 2) BLACK) eq_refl eq_refl)
    as (s1 & sent & H & _ & _ & C).
  exists s1, sent. split; [exact H | exact C].
Defined.

(* ================================================================== *)
(** * The scheduler's counters across renders                          *)
(* ================================================================== *)

Section RenderCounters.
Context {D : DisplayRenderer.Drawing}.

Lemma render_partial_returns (data : option DisplayRenderer.TokenData)
    (stale : Z) (s : DisplayRenderer.state) :
  exists s1,
    DisplayRenderer._render_partial data stale s = (Returned tt, s1).
Proof.
  destruct (DisplayRenderer.last_image (DisplayRenderer.self s)) as [last |]
    eqn:Hlast.
  - destruct (render_partial_run data stale s last Hlast)
      as (e1 & e2 & e3 & _ & _ & _ & _ & H).
    eexists. exact H.
  - rewrite render_partial_fallback by exact Hlast.
    destruct (render_full_run data stale
                (snd (DisplayRenderer.print "Partial refresh" s)))
      as (e1 & e2 & e3 & _ & _ & _ & _ & H).
    eexists. exact H.
Qed.

(** [render] on an initialised renderer outside blank mode. *)
Lemma render_initialized_run (data : option DisplayRenderer.TokenData)
    (stale : Z) (s : DisplayRenderer.state) :
  DisplayRenderer.initialized (DisplayRenderer.self s) = true ->
  String.eqb (DisplayRenderer.lower (DisplayRenderer.mode
                                       (DisplayRenderer.self s)))
             "blank" = false ->
  let r := DisplayRenderer.self s in
  let w := EPD2in7.env (DisplayRenderer.epd s) in
  let decision :=
    ((wall_clock w (clock_reads w) - DisplayRenderer.last_full_refresh r
      >? DisplayRenderer.full_refresh_minutes r * 60)%Z
     || (DisplayRenderer.partial_count r
         >=? DisplayRenderer.full_refresh_after_partials r)%Z) in
  exists s1,
    (if decision
     then DisplayRenderer._render_full data stale (DisplayRenderer.tick s)
     else DisplayRenderer._render_partial data stale (DisplayRenderer.tick s))
    = (Returned tt, s1) /\
    DisplayRenderer.render data stale s
    = (Returned tt,
       if decision then
         DisplayRenderer.set_partial_count 0
           (DisplayRenderer.set_last_full_refresh
              (wall_clock (EPD2in7.env (DisplayRenderer.epd s1))
                 (clock_reads (EPD2in7.env (DisplayRenderer.epd s1))))
              (DisplayRenderer.tick s1))
       else
         DisplayRenderer.set_partial_count
           (DisplayRenderer.partial_count (DisplayRenderer.self s1) + 1)
           s1).
Proof.
  intros Hini Hmode r w decision.
  assert (Hbranch : exists s1,
             (if decision
              then DisplayRenderer._render_full data stale
                     (DisplayRenderer.tick s)
              else DisplayRenderer._render_partial data stale
                     (DisplayRenderer.tick s))
             = (Returned tt, s1)).
  { destruct decision.
    - destruct (render_full_run data stale (DisplayRenderer.tick s))
        as (e1 & e2 & e3 & _ & _ & _ & _ & H).
      eexists. exact H.
    - apply render_partial_returns. }
  destruct Hbranch as (s1 & Hbranch). exists s1. split; [exact Hbranch |].
  unfold DisplayRenderer.render.
  unfold bind at 1, gets. rewrite Hini. cbn [negb].
  unfold bind at 1, ret. unfold bind at 1, gets. rewrite Hmode.
  unfold bind at 1. rewrite should_full_refresh_run.
  fold r w. fold decision. destruct decision.
  - unfold bind at 1. rewrite Hbranch. unfold DisplayRenderer.tick.
    run_renderer. reflexivity.
  - unfold bind at 1. rewrite Hbranch. run_renderer. reflexivity.
Qed.

(** X10.  When the scheduler decides FULL (initialised renderer,
    outside blank mode), [render] retains the freshly drawn full frame,
    sets the partial counter to 0 and sets the time of the last full
    refresh to the clock reading taken after the transmission (the
    third reading of the call); the configuration is unchanged. *)
Theorem render_full_branch_resets :
  forall (data : option DisplayRenderer.TokenData) (stale : Z)
         (s : DisplayRenderer.state),
    DisplayRenderer.initialized (DisplayRenderer.self s) = true ->
    String.eqb (DisplayRenderer.lower (DisplayRenderer.mode
                                         (DisplayRenderer.self s)))
               "blank" = false ->
    let r := DisplayRenderer.self s in
    let w := EPD2in7.env (DisplayRenderer.epd s) in
    ((wall_clock w (clock_reads w) - DisplayRenderer.last_full_refresh r
      > DisplayRenderer.full_refresh_minutes r * 60)%Z
     \/ (DisplayRenderer.partial_count r
         >= DisplayRenderer.full_refresh_after_partials r)%Z) ->
    exists s',
      DisplayRenderer.render data stale s = (Returned tt, s') /\
      DisplayRenderer.self s'
      = DisplayRenderer.mkRenderer
          (DisplayRenderer.width r) (DisplayRenderer.height r)
          (DisplayRenderer.mode r)
          (DisplayRenderer.full_refresh_minutes r)
          (DisplayRenderer.full_refresh_after_partials r)
          (wall_clock w (clock_reads w + 2))
          0%Z
          (Some (DisplayRenderer.full_frame r data
                   (wall_clock w (clock_reads w + 1)) stale))
          true.
Proof.
  intros data stale s Hini Hmode r w Hdec.
  destruct (render_initialized_run data stale s Hini Hmode)
    as (s1 & Hbranch & Hrender).
  fold r w in Hbranch, Hrender.
  assert (Htrue : ((wall_clock w (clock_reads w)
                    - DisplayRenderer.last_full_refresh r
                    >? DisplayRenderer.full_refresh_minutes r * 60)%Z
                   || (DisplayRenderer.partial_count r
                       >=? DisplayRenderer.full_refresh_after_partials r)%Z)
                  = true).
  { rewrite orb_true_iff, Z.gtb_gt, Z.geb_ge. exact Hdec. }
  rewrite Htrue in Hbranch, Hrender.
  destruct (render_full_run data stale (DisplayRenderer.tick s))
    as (e1 & e2 & e3 & _ & _ & _ & F & Hfull).
  rewrite Hbranch in Hfull. injection Hfull as Hs1.
  destruct F as (_ & Hclock & Hreads & _).
  eexists. split; [exact Hrender |].
  rewrite Hs1. unfold DisplayRenderer.set_partial_count,
    DisplayRenderer.set_last_full_refresh, DisplayRenderer.tick,
    DisplayRenderer.set_last_image, DisplayRenderer.set_epd.
  run_renderer_fields. rewrite Hclock, Hreads.
  unfold DisplayRenderer.entering, DisplayRenderer.tick. run_renderer_fields.
  rewrite Hini. fold r w.
  replace (clock_reads w + 2) with (S (S (clock_reads w))) by lia.
  replace (clock_reads w + 1) with (S (clock_reads w)) by lia.
  reflexivity.
Qed.

(** X11.  When the scheduler decides PARTIAL and a frame is retained
    (initialised renderer, outside blank mode), [render] retains the
    partial frame built on the previous one, adds one to the partial
    counter and keeps the time of the last full refresh. *)
Theorem render_partial_branch_counts :
  forall (data : option DisplayRenderer.TokenData) (stale : Z)
         (s : DisplayRenderer.state) (last : Image),
    DisplayRenderer.initialized (DisplayRenderer.self s) = true ->
    String.eqb (DisplayRenderer.lower (DisplayRenderer.mode
                                         (DisplayRenderer.self s)))
               "blank" = false ->
    DisplayRenderer.last_image (DisplayRenderer.self s) = Some last ->
    let r := DisplayRenderer.self s in
    let w := EPD2in7.env (DisplayRenderer.epd s) in
    (wall_clock w (clock_reads w) - DisplayRenderer.last_full_refresh r
     <= DisplayRenderer.full_refresh_minutes r * 60)%Z ->
    (DisplayRenderer.partial_count r
     < DisplayRenderer.full_refresh_after_partials r)%Z ->
    exists s',
      DisplayRenderer.render data stale s = (Returned tt, s') /\
      DisplayRenderer.self s'
      = DisplayRenderer.mkRenderer
          (DisplayRenderer.width r) (DisplayRenderer.height r)
          (DisplayRenderer.mode r)
          (DisplayRenderer.full_refresh_minutes r)
          (DisplayRenderer.full_refresh_after_partials r)
          (DisplayRenderer.last_full_refresh r)
          (DisplayRenderer.partial_count r + 1)%Z
          (Some (DisplayRenderer.partial_frame r last data
                   (wall_clock w (clock_reads w + 1)) stale))
          true.
Proof.
  intros data stale s last Hini Hmode Hlast r w Htime Hcount.
  destruct (render_initialized_run data stale s Hini Hmode)
    as (s1 & Hbranch & Hrender).
  fold r w in Hbranch, Hrender.
  assert (Hfalse : ((wall_clock w (clock_reads w)
                     - DisplayRenderer.last_full_refresh r
                     >? DisplayRenderer.full_refresh_minutes r * 60)%Z
                    || (DisplayRenderer.partial_count r
                        >=? DisplayRenderer.full_refresh_after_partials r)%Z)
                   = false).
  { apply orb_false_iff. split.
    - rewrite Z.gtb_ltb. apply Z.ltb_ge. lia.
    - rewrite Z.geb_leb. apply Z.leb_gt. lia. }
  rewrite Hfalse in Hbranch, Hrender.
  destruct (render_partial_run data stale (DisplayRenderer.tick s) last Hlast)
    as (e1 & e2 & e3 & _ & _ & _ & _ & Hpartial).
  rewrite Hbranch in Hpartial. injection Hpartial as Hs1.
  eexists. split; [exact Hrender |].
  rewrite Hs1. unfold DisplayRenderer.set_partial_count,
    DisplayRenderer.tick, DisplayRenderer.set_last_image,
    DisplayRenderer.set_epd.
  run_renderer_fields. rewrite Hini. fold r w.
  replace (clock_reads w + 1) with (S (clock_reads w)) by lia.
  reflexivity.
Qed.

End RenderCounters.

Lemma render_full_branch_resets_witness :
  let s :=
    DisplayRenderer.mkState
      (DisplayRenderer.mkRenderer 16 2 "normal" 45 60 1000 60
         (Some (new (16, 2) BLACK)) true)
      (EPD2in7.mkMachine (EPD2in7.__init__ 25 17 24 8)
         (mkWorld true (fun _ => 0%Z) 0 (fun k => 1005 + Z.of_nat k)%Z 0 [])) in
  exists s',
    DisplayRenderer.render (D := DisplayRenderer.marking) None 0 s
    = (Returned tt, s') /\
    DisplayRenderer.partial_count (DisplayRenderer.self s') = 0%Z /\
    DisplayRenderer.last_full_refresh (DisplayRenderer.self s') = 1007%Z.
Proof.
  intros s.
  destruct (render_full_branch_resets (D := DisplayRenderer.marking) None 0 s
              eq_refl eq_refl) as (s' & H & Hself).
  - right. cbn. lia.
  - exists s'. split; [exact H |]. rewrite Hself. split; reflexivity.
Defined.

Lemma render_partial_branch_counts_witness :
  let s :=
    DisplayRenderer.mkState
      (DisplayRenderer.mkRenderer 16 2 "normal" 45 60 1000 3
         (Some (new (16, 2) BLACK)) true)
      (EPD2in7.mkMachine (EPD2in7.__init__ 25 17 24 8)
         (mkWorld true (fun _ => 0%Z) 0 (fun k => 1005 + Z.of_nat k)%Z 0 [])) in
  exists s',
    DisplayRenderer.render (D := DisplayRenderer.marking) None 0 s
    = (Returned tt, s') /\
    DisplayRenderer.partial_count (DisplayRenderer.self s') = 4%Z /\
    DisplayRenderer.last_full_refresh (DisplayRenderer.self s') = 1000%Z.
Proof.
  intros s.
  destruct (render_partial_branch_counts (D := DisplayRenderer.marking)
              None 0 s (new (16, 2) BLACK) eq_refl eq_refl eq_refl)
    as (s' & H & Hself).
  - cbn. lia.
  - cbn. lia.
  - exists s'. split; [exact H |]. rewrite Hself. split; reflexivity.
Defined.

(* ================================================================== *)
(** * The force-full-refresh button                                    *)
(* ================================================================== *)

Ltac run_app :=
  repeat (progress
    (unfold TetsuoDisplay.on_renderer, TetsuoDisplay.set_manual_refresh_requested;
     run_renderer;
     cbn [TetsuoDisplay.self TetsuoDisplay.renderer TetsuoDisplay.running
          TetsuoDisplay.force_full_refresh
          TetsuoDisplay.manual_refresh_requested])).

Lemma on_force_full_refresh_run (a : TetsuoDisplay.state) :
  let rs := TetsuoDisplay.renderer a in
  let w := EPD2in7.env (DisplayRenderer.epd rs) in
  TetsuoDisplay._on_force_full_refresh a
  = (Returned tt,
     TetsuoDisplay.mkState
       (TetsuoDisplay.mkApp
          (TetsuoDisplay.running (TetsuoDisplay.self a))
          (TetsuoDisplay.force_full_refresh (TetsuoDisplay.self a))
          true)
       (DisplayRenderer.set_partial_count
          (DisplayRenderer.full_refresh_after_partials
             (DisplayRenderer.self rs))
          (DisplayRenderer.mkState (DisplayRenderer.self rs)
             (EPD2in7.mkMachine (EPD2in7.self (DisplayRenderer.epd rs))
                (emit (Print (TetsuoDisplay.newline
                              ++ "[BUTTON] KEY1: Force full refresh requested"))
                      w))))).
Proof.
  cbn zeta. unfold TetsuoDisplay._on_force_full_refresh. run_app.
  reflexivity.
Qed.

Section ForceFull.
Context {D : DisplayRenderer.Drawing}.

(** X12.  After the KEY1 callback, the next [render] of an initialised
    renderer outside blank mode takes the FULL branch whatever the
    clock says: the callback sets the partial counter to its limit and
    raises the manual-refresh flag, and the render draws the full
    frame and sets the counter back to 0. *)
Theorem force_full_refresh_forces_full :
  forall (data : option DisplayRenderer.TokenData) (stale : Z)
         (a : TetsuoDisplay.state),
    let r := DisplayRenderer.self (TetsuoDisplay.renderer a) in
    DisplayRenderer.initialized r = true ->
    String.eqb (DisplayRenderer.lower (DisplayRenderer.mode r)) "blank"
    = false ->
    exists a1 rs' now,
      TetsuoDisplay._on_force_full_refresh a = (Returned tt, a1) /\
      TetsuoDisplay.manual_refresh_requested (TetsuoDisplay.self a1) = true /\
      DisplayRenderer.partial_count
        (DisplayRenderer.self (TetsuoDisplay.renderer a1))
      = DisplayRenderer.full_refresh_after_partials r /\
      DisplayRenderer.render data stale (TetsuoDisplay.renderer a1)
      = (Returned tt, rs') /\
      DisplayRenderer.partial_count (DisplayRenderer.self rs') = 0%Z /\
      DisplayRenderer.last_image (DisplayRenderer.self rs')
      = Some (DisplayRenderer.full_frame
                (DisplayRenderer.self (TetsuoDisplay.renderer a1))
                data now stale).
Proof.
  intros data stale a r Hini Hmode.
  pose proof (on_force_full_refresh_run a) as Hrun. cbn zeta in Hrun.
  match type of Hrun with _ = (_, ?st) => set (a1 := st) in * end.
  set (rs1 := TetsuoDisplay.renderer a1).
  assert (Hini1 : DisplayRenderer.initialized (DisplayRenderer.self rs1) = true)
    by exact Hini.
  assert (Hmode1 : String.eqb
                     (DisplayRenderer.lower
                        (DisplayRenderer.mode (DisplayRenderer.self rs1)))
                     "blank" = false) by exact Hmode.
  destruct (render_initialized_run data stale rs1 Hini1 Hmode1)
    as (s1 & Hbranch & Hrender).
  assert (Hcount : (DisplayRenderer.partial_count (DisplayRenderer.self rs1)
                    >=? DisplayRenderer.full_refresh_after_partials
                          (DisplayRenderer.self rs1))%Z = true).
  { unfold rs1, a1, DisplayRenderer.set_partial_count. cbn.
    apply Z.geb_le. lia. }
  rewrite Hcount, orb_true_r in Hbranch, Hrender.
  destruct (render_full_run data stale (DisplayRenderer.tick rs1))
    as (e1 & e2 & e3 & _ & _ & _ & _ & Hfull).
  rewrite Hbranch in Hfull. injection Hfull as Hs1.
  exists a1. eexists. eexists. split; [exact Hrun |].
  split; [reflexivity |]. split; [reflexivity |].
  split; [exact Hrender |]. split; [reflexivity |].
  rewrite Hs1. reflexivity.
Qed.

End ForceFull.

Lemma force_full_refresh_forces_full_witness :
  let a :=
    TetsuoDisplay.mkState (TetsuoDisplay.mkApp true false false)
      (DisplayRenderer.mkState
         (DisplayRenderer.mkRenderer 16 2 "normal" 45 60 1000 3
            (Some (new (16, 2) BLACK)) true)
         (EPD2in7.mkMachine (EPD2in7.__init__ 25 17 24 8)
            (mkWorld true (fun _ => 0%Z) 0 (fun _ => 1005%Z) 0 []))) in
  exists a1 rs',
    TetsuoDisplay._on_force_full_refresh a = (Returned tt, a1) /\
    DisplayRenderer.render (D := DisplayRenderer.marking) None 0
      (TetsuoDisplay.renderer a1)
    = (Returned tt, rs') /\
    DisplayRenderer.partial_count (DisplayRenderer.self rs') = 0%Z.
Proof.
  intros a.
  destruct (force_full_refresh_forces_full (D := DisplayRenderer.marking)
              None 0 a eq_refl eq_refl)
    as (a1 & rs' & now & H1 & _ & _ & H2 & H3 & _).
  exists a1, rs'. repeat split; assumption.
Defined.

(* ================================================================== *)
(** * Clearing the dynamic zones                                       *)
(* ================================================================== *)

Lemma nth_map_indexed {A B} (f : nat * A -> B) (d : B) (d' : A) :
  forall (l : list A) (start n : nat),
    n < List.length l ->
    nth n (map f (combine (seq start (List.length l)) l)) d
    = f (start + n, nth n l d').
Proof.
  induction l as [| a l IH]; intros start n Hn; [cbn in Hn; lia |].
  cbn [List.length seq combine map]. destruct n as [| n].
  - cbn. now rewrite Nat.add_0_r.
  - cbn [nth]. cbn in Hn. rewrite IH by lia. f_equal. f_equal. lia.
Qed.

Lemma length_map_indexed {A B} (f : nat * A -> B) (l : list A) (start : nat) :
  List.length (map f (combine (seq start (List.length l)) l)) = List.length l.
Proof.
  rewrite length_map, length_combine, length_seq. apply Nat.min_id.
Qed.

Lemma rectangle_well_formed (image : Image) (x0 y0 x1 y1 : nat) (v : Z) :
  well_formed image -> well_formed (rectangle image x0 y0 x1 y1 v).
Proof.
  intros [Hh Hw]. unfold well_formed, rectangle. cbn [rows size].
  split; [now rewrite length_map_indexed |].
  rewrite Forall_forall in *. intros row Hrow.
  apply in_map_iff in Hrow. destruct Hrow as ([y r] & <- & Hin).
  apply in_combine_r in Hin. cbn [fst snd].
  destruct ((y0 <=? y) && (y <=? y1)); [| now apply Hw].
  rewrite length_map_indexed. now apply Hw.
Qed.

Lemma getpixel_rectangle (image : Image) (x0 y0 x1 y1 : nat) (v : Z)
    (x y : nat) :
  well_formed image ->
  x < fst (size image) -> y < snd (size image) ->
  getpixel (rectangle image x0 y0 x1 y1 v) (x, y)
  = if (y0 <=? y) && (y <=? y1) && ((x0 <=? x) && (x <=? x1))
    then v else getpixel image (x, y).
Proof.
  intros [Hh Hw] Hx Hy. unfold getpixel, rectangle. cbn [rows fst snd].
  rewrite (nth_map_indexed _ [] [] (rows image) 0 y) by lia.
  cbn [fst snd Nat.add].
  assert (Hrow : List.length (nth y (rows image) []) = fst (size image)).
  { rewrite Forall_forall in Hw. apply Hw. apply nth_In. lia. }
  destruct ((y0 <=? y) && (y <=? y1)); cbn [andb]; [| reflexivity].
  rewrite (nth_map_indexed _ 0%Z 0%Z (nth y (rows image) []) 0 x) by lia.
  reflexivity.
Qed.

Lemma clear_zone_well_formed (image : Image) (z : DisplayRenderer.zone) :
  well_formed image -> well_formed (DisplayRenderer._clear_zone image z).
Proof.
  destruct z as [[[zx zy] zw] zh]. apply rectangle_well_formed.
Qed.

Lemma clear_zone_size (image : Image) (z : DisplayRenderer.zone) :
  size (DisplayRenderer._clear_zone image z) = size image.
Proof. destruct z as [[[zx zy] zw] zh]. reflexivity. Qed.

Lemma getpixel_clear_zone (image : Image) (z : DisplayRenderer.zone)
    (x y : nat) :
  well_formed image ->
  x < fst (size image) -> y < snd (size image) ->
  getpixel (DisplayRenderer._clear_zone image z) (x, y)
  = if DisplayRenderer.covers z x y then WHITE else getpixel image (x, y).
Proof.
  intros Hwf Hx Hy. destruct z as [[[zx zy] zw] zh].
  unfold DisplayRenderer._clear_zone, DisplayRenderer.covers.
  rewrite getpixel_rectangle by assumption.
  destruct (zx <=? x), (x <=? zx + zw), (zy <=? y), (y <=? zy + zh);
    reflexivity.
Qed.

Lemma clear_zones_spec (zones : list DisplayRenderer.zone) :
  forall image : Image,
    well_formed image ->
    let cleared := fold_left DisplayRenderer._clear_zone zones image in
    well_formed cleared /\
    size cleared = size image /\
    forall x y,
      x < fst (size image) -> y < snd (size image) ->
      getpixel cleared (x, y)
      = if existsb (fun z => DisplayRenderer.covers z x y) zones
        then WHITE else getpixel image (x, y).
Proof.
  induction zones as [| z zones IH]; intros image Hwf.
  - cbn [fold_left existsb]. cbn zeta.
    split; [exact Hwf |]. split; [reflexivity | intros; reflexivity].
  - cbn [fold_left existsb]. cbn zeta.
    destruct (IH (DisplayRenderer._clear_zone image z)
                (clear_zone_well_formed image z Hwf)) as (Hwf' & Hsize & Hpix).
    split; [exact Hwf' |].
    split; [rewrite Hsize; apply clear_zone_size |].
    intros x y Hx Hy. rewrite Hpix by (rewrite clear_zone_size; assumption).
    rewrite getpixel_clear_zone by assumption.
    destruct (DisplayRenderer.covers z x y),
      (existsb (fun z0 => DisplayRenderer.covers z0 x y) zones); reflexivity.
Qed.

(** X13.  The four [_clear_zone] calls of [_render_partial] keep the
    size and shape of the retained frame, turn WHITE exactly the pixels
    of the four filled rectangles (corners included), and leave every
    other pixel as it was; in particular the rows above y = 32, which
    hold the header and its separator line, are never touched. *)
Theorem clearing_keeps_static_pixels :
  forall last : Image,
    well_formed last ->
    let cleared :=
      fold_left DisplayRenderer._clear_zone DisplayRenderer.dynamic_zones
                (copy last) in
    well_formed cleared /\
    size cleared = size last /\
    (forall x y,
        x < fst (size last) -> y < snd (size last) ->
        getpixel cleared (x, y)
        = if existsb (fun z => DisplayRenderer.covers z x y)
                     DisplayRenderer.dynamic_zones
          then WHITE else getpixel last (x, y)) /\
    (forall x y,
        x < fst (size last) -> y < 32 -> y < snd (size last) ->
        getpixel cleared (x, y) = getpixel last (x, y)).
Proof.
  intros last Hwf cleared.
  destruct (clear_zones_spec DisplayRenderer.dynamic_zones (copy last) Hwf)
    as (Hwf' & Hsize & Hpix).
  fold cleared in Hwf', Hsize, Hpix.
  split; [exact Hwf' |]. split; [exact Hsize |]. split; [exact Hpix |].
  intros x y Hx Hy32 Hy. rewrite (Hpix x y Hx Hy).
  replace (existsb (fun z => DisplayRenderer.covers z x y)
                   DisplayRenderer.dynamic_zones) with false; [reflexivity |].
  symmetry. unfold DisplayRenderer.dynamic_zones. cbn [existsb].
  unfold DisplayRenderer.covers, DisplayRenderer.ZONE_PRICE,
    DisplayRenderer.ZONE_CHANGE, DisplayRenderer.ZONE_STATS,
    DisplayRenderer.ZONE_FOOTER.
  replace (32 <=? y) with false by (symmetry; apply Nat.leb_gt; lia).
  replace (102 <=? y) with false by (symmetry; apply Nat.leb_gt; lia).
  replace (156 <=? y) with false by (symmetry; apply Nat.leb_gt; lia).
  now rewrite !andb_false_r.
Qed.

Lemma clearing_keeps_static_pixels_witness :
  let last := new (264, 176) BLACK in
  let cleared :=
    fold_left DisplayRenderer._clear_zone DisplayRenderer.dynamic_zones
              (copy last) in
  getpixel cleared (100, 27) = BLACK /\
  getpixel cleared (150, 50) = WHITE /\
  getpixel cleared (152, 50) = BLACK.
Proof.
  intros last cleared.
  assert (Hwf : well_formed last).
  { split; [apply repeat_length |].
    apply Forall_forall. intros row Hrow. apply repeat_spec in Hrow.
    subst row. apply repeat_length. }
  destruct (clearing_keeps_static_pixels last Hwf) as (_ & _ & Hpix & _).
  fold cleared in Hpix.
  repeat split; rewrite Hpix by (cbn; lia); reflexivity.
Defined.

(* ================================================================== *)
(** * Every render returns                                             *)
(* ================================================================== *)

Section RenderOutcome.
Context {D : DisplayRenderer.Drawing}.

Lemma renderer_init_self (s : DisplayRenderer.state) :
  let r := DisplayRenderer.self s in
  let w := EPD2in7.env (DisplayRenderer.epd s) in
  exists s',
    DisplayRenderer.init s = (Returned tt, s') /\
    DisplayRenderer.self s'
    = if DisplayRenderer.initialized r then r
      else DisplayRenderer.mkRenderer
             (DisplayRenderer.width r) (DisplayRenderer.height r)
             (DisplayRenderer.mode r)
             (DisplayRenderer.full_refresh_minutes r)
             (DisplayRenderer.full_refresh_after_partials r)
             (wall_clock w (clock_reads w))
             (DisplayRenderer.partial_count r)
             (DisplayRenderer.last_image r) true.
Proof.
  intros r w. unfold DisplayRenderer.init. unfold bind at 1, gets.
  destruct (DisplayRenderer.initialized (DisplayRenderer.self s)) eqn:Hi;
    cbn [negb].
  - exists s. unfold ret, r. rewrite Hi. split; reflexivity.
  - destruct (epd_init_ok "full" (DisplayRenderer.epd s))
      as (e1 & H1 & R1 & F1).
    destruct (epd_clear_ok e1 R1) as (e2 & H2 & R2 & F2).
    destruct (follows_trans _ _ _ F1 F2) as (_ & Hclock & Hreads & _).
    run_renderer. eexists. split; [reflexivity |]. run_renderer_fields.
    unfold r. rewrite Hi, Hclock, Hreads. reflexivity.
Qed.

Lemma render_blank_self (data : option DisplayRenderer.TokenData)
    (stale : Z) (s : DisplayRenderer.state) :
  DisplayRenderer.initialized (DisplayRenderer.self s) = true ->
  String.eqb (DisplayRenderer.lower (DisplayRenderer.mode
                                       (DisplayRenderer.self s)))
             "blank" = true ->
  exists s',
    DisplayRenderer.render data stale s = (Returned tt, s') /\
    DisplayRenderer.self s'
    = DisplayRenderer.self
        (DisplayRenderer.set_last_image
           (Some (new (DisplayRenderer.width (DisplayRenderer.self s),
                       DisplayRenderer.height (DisplayRenderer.self s))
                      255%Z)) s).
Proof.
  intros Hini Hmode.
  destruct (epd_init_ok "full" (DisplayRenderer.epd s))
    as (e1 & H1 & R1 & F1).
  destruct (epd_clear_ok e1 R1) as (e2 & H2 & R2 & F2).
  unfold DisplayRenderer.render, DisplayRenderer.show_blank.
  run_renderer. eexists. split; reflexivity.
Qed.

(** What [render] leaves behind on an initialised renderer: the
    configuration is kept and the retained frame is one of three. *)
Lemma render_outcome_initialized (data : option DisplayRenderer.TokenData)
    (stale : Z) (s : DisplayRenderer.state) :
  DisplayRenderer.initialized (DisplayRenderer.self s) = true ->
  let r := DisplayRenderer.self s in
  exists s' now,
    DisplayRenderer.render data stale s = (Returned tt, s') /\
    DisplayRenderer.initialized (DisplayRenderer.self s') = true /\
    DisplayRenderer.width (DisplayRenderer.self s') = DisplayRenderer.width r /\
    DisplayRenderer.height (DisplayRenderer.self s')
    = DisplayRenderer.height r /\
    DisplayRenderer.mode (DisplayRenderer.self s') = DisplayRenderer.mode r /\
    DisplayRenderer.full_refresh_minutes (DisplayRenderer.self s')
    = DisplayRenderer.full_refresh_minutes r /\
    DisplayRenderer.full_refresh_after_partials (DisplayRenderer.self s')
    = DisplayRenderer.full_refresh_after_partials r /\
    (DisplayRenderer.last_image (DisplayRenderer.self s')
     = Some (new (DisplayRenderer.width r, DisplayRenderer.height r) 255%Z)
     \/ DisplayRenderer.last_image (DisplayRenderer.self s')
        = Some (DisplayRenderer.full_frame r data now stale)
     \/ exists last,
         DisplayRenderer.last_image r = Some last /\
         DisplayRenderer.last_image (DisplayRenderer.self s')
         = Some (DisplayRenderer.partial_frame r last data now stale)).
Proof.
  intros Hini r.
  destruct (String.eqb (DisplayRenderer.lower (DisplayRenderer.mode r))
                       "blank") eqn:Hmode.
  - destruct (render_blank_self data stale s Hini Hmode) as (s' & H & Hself).
    exists s', 0%Z. split; [exact H |]. rewrite Hself.
    unfold DisplayRenderer.set_last_image. run_renderer_fields.
    repeat (split; [first [exact Hini | reflexivity] |]). left. reflexivity.
  - destruct (render_initialized_run data stale s Hini Hmode)
      as (s1 & Hbranch & Hrender).
    set (decision := (_ || _)%bool) in *.
    destruct decision.
    + destruct (render_full_run data stale (DisplayRenderer.tick s))
        as (e1 & e2 & e3 & _ & _ & _ & _ & Hfull).
      rewrite Hbranch in Hfull. injection Hfull as Hs1.
      eexists. eexists. split; [exact Hrender |]. rewrite Hs1.
      unfold DisplayRenderer.set_partial_count,
        DisplayRenderer.set_last_full_refresh, DisplayRenderer.tick,
        DisplayRenderer.set_last_image, DisplayRenderer.set_epd.
      run_renderer_fields.
      repeat (split; [first [exact Hini | reflexivity] |]).
      right. left. reflexivity.
    + destruct (DisplayRenderer.last_image r) as [last |] eqn:Hlast.
      * destruct (render_partial_run data stale (DisplayRenderer.tick s)
                    last Hlast)
          as (e1 & e2 & e3 & _ & _ & _ & _ & Hpartial).
        rewrite Hbranch in Hpartial. injection Hpartial as Hs1.
        eexists. eexists. split; [exact Hrender |]. rewrite Hs1.
        unfold DisplayRenderer.set_partial_count, DisplayRenderer.tick,
          DisplayRenderer.set_last_image, DisplayRenderer.set_epd.
        run_renderer_fields.
        repeat (split; [first [exact Hini | reflexivity] |]).
        right. right. exists last. split; reflexivity.
      * rewrite render_partial_fallback in Hbranch by exact Hlast.
        destruct (render_full_run data stale
                    (snd (DisplayRenderer.print "Partial refresh"
                            (DisplayRenderer.tick s))))
          as (e1 & e2 & e3 & _ & _ & _ & _ & Hfull).
        rewrite Hbranch in Hfull. injection Hfull as Hs1.
        eexists. eexists. split; [exact Hrender |]. rewrite Hs1.
        unfold DisplayRenderer.set_partial_count, DisplayRenderer.tick,
          DisplayRenderer.set_last_image, DisplayRenderer.set_epd.
        run_renderer_fields.
        repeat (split; [first [exact Hini | reflexivity] |]).
        right. left. reflexivity.
Qed.

End RenderOutcome.

Section RenderInvariants.
Context {D : DisplayRenderer.Drawing}.

Lemma render_outcome (data : option DisplayRenderer.TokenData)
    (stale : Z) (s : DisplayRenderer.state) :
  let r := DisplayRenderer.self s in
  exists s' ri now,
    DisplayRenderer.render data stale s = (Returned tt, s') /\
    DisplayRenderer.initialized (DisplayRenderer.self s') = true /\
    DisplayRenderer.width (DisplayRenderer.self s') = DisplayRenderer.width r /\
    DisplayRenderer.height (DisplayRenderer.self s')
    = DisplayRenderer.height r /\
    DisplayRenderer.mode (DisplayRenderer.self s') = DisplayRenderer.mode r /\
    DisplayRenderer.full_refresh_minutes (DisplayRenderer.self s')
    = DisplayRenderer.full_refresh_minutes r /\
    DisplayRenderer.full_refresh_after_partials (DisplayRenderer.self s')
    = DisplayRenderer.full_refresh_after_partials r /\
    DisplayRenderer.width ri = DisplayRenderer.width r /\
    DisplayRenderer.height ri = DisplayRenderer.height r /\
    (DisplayRenderer.last_image (DisplayRenderer.self s')
     = Some (new (DisplayRenderer.width r, DisplayRenderer.height r) 255%Z)
     \/ DisplayRenderer.last_image (DisplayRenderer.self s')
        = Some (DisplayRenderer.full_frame ri data now stale)
     \/ exists last,
         DisplayRenderer.last_image r = Some last /\
         DisplayRenderer.last_image (DisplayRenderer.self s')
         = Some (DisplayRenderer.partial_frame ri last data now stale)).
Proof.
  intros r.
  destruct (DisplayRenderer.initialized r) eqn:Hi.
  - destruct (render_outcome_initialized data stale s Hi)
      as (s' & now & H). exists s', r, now.
    destruct H as (H1 & H2 & H3 & H4 & H5 & H6 & H7 & H8).
    repeat (split; [assumption || reflexivity |]). exact H8.
  - destruct (renderer_init_self s) as (si & Hinit & Hself).
    fold r in Hself. rewrite Hi in Hself.
    assert (Hi' : DisplayRenderer.initialized (DisplayRenderer.self si) = true)
      by (rewrite Hself; reflexivity).
    rewrite (render_after_init data stale s si Hi Hinit Hi').
    destruct (render_outcome_initialized data stale si Hi')
      as (s' & now & H). exists s', (DisplayRenderer.self si), now.
    destruct H as (H1 & H2 & H3 & H4 & H5 & H6 & H7 & H8).
    rewrite Hself in H3, H4, H5, H6, H7, H8. cbn in H3, H4, H5, H6, H7, H8.
    rewrite <- Hself in H8.
    repeat (split; [first [assumption | rewrite Hself; reflexivity] |]).
    exact H8.
Qed.


Lemma full_frame_size (r : DisplayRenderer.t)
    (data : option DisplayRenderer.TokenData) (now stale : Z) :
  DisplayRenderer.size_preserving D ->
  size (DisplayRenderer.full_frame r data now stale)
  = (DisplayRenderer.width r, DisplayRenderer.height r).
Proof.
  intros (Hh & Hp & Hc & Hs & Hf). unfold DisplayRenderer.full_frame.
  now rewrite Hf, Hs, Hc, Hp, Hh.
Qed.

Lemma partial_frame_size (r : DisplayRenderer.t) (last : Image)
    (data : option DisplayRenderer.TokenData) (now stale : Z) :
  DisplayRenderer.size_preserving D ->
  size (DisplayRenderer.partial_frame r last data now stale) = size last.
Proof.
  intros (Hh & Hp & Hc & Hs & Hf). unfold DisplayRenderer.partial_frame.
  now rewrite Hf, Hs, Hc, Hp, !clear_zone_size.
Qed.

(** X15.  If the drawing operations keep the image size, [render]
    keeps the invariant that the retained frame, when there is one, has
    the configured display size; and after a render there is one, so
    the buffer packed from it has [ceil(width/8) * height] bytes. *)
Theorem render_keeps_frame_size :
  forall (data : option DisplayRenderer.TokenData) (stale : Z)
         (s : DisplayRenderer.state),
    DisplayRenderer.size_preserving D ->
    let r := DisplayRenderer.self s in
    (forall last, DisplayRenderer.last_image r = Some last ->
                  size last = (DisplayRenderer.width r,
                               DisplayRenderer.height r)) ->
    exists s' image,
      DisplayRenderer.render data stale s = (Returned tt, s') /\
      DisplayRenderer.last_image (DisplayRenderer.self s') = Some image /\
      size image = (DisplayRenderer.width (DisplayRenderer.self s'),
                    DisplayRenderer.height (DisplayRenderer.self s')) /\
      List.length (Codec.pack_buffer image)
      = Codec.ceil_div (DisplayRenderer.width r) 8
        * DisplayRenderer.height r.
Proof.
  intros data stale s Hsize r Hinv.
  destruct (render_outcome data stale s)
    as (s' & ri & now & H1 & _ & Hw & Hh & _ & _ & _ & Hwi & Hhi & H8).
  fold r in Hw, Hh, Hwi, Hhi, H8.
  assert (Himg : exists image,
             DisplayRenderer.last_image (DisplayRenderer.self s') = Some image
             /\ size image = (DisplayRenderer.width r,
                              DisplayRenderer.height r)).
  { destruct H8 as [H | [H | (last & Hlast & H)]]; rewrite H; eexists;
      (split; [reflexivity |]).
    - reflexivity.
    - rewrite full_frame_size by assumption. now rewrite Hwi, Hhi.
    - rewrite partial_frame_size by assumption. now apply Hinv. }
  destruct Himg as (image & Himg & Hsz).
  exists s', image. split; [exact H1 |]. split; [exact Himg |].
  split; [now rewrite Hw, Hh |].
  rewrite pack_buffer_length, Hsz. reflexivity.
Qed.

End RenderInvariants.

Lemma marking_size_preserving :
  DisplayRenderer.size_preserving DisplayRenderer.marking.
Proof. repeat split. Qed.

Lemma render_keeps_frame_size_witness :
  let s :=
    DisplayRenderer.mkState
      (DisplayRenderer.mkRenderer 16 2 "normal" 45 60 1000 3
         (Some (new (16, 2) BLACK)) true)
      (EPD2in7.mkMachine (EPD2in7.__init__ 25 17 24 8)
         (mkWorld true (fun _ => 0%Z) 0 (fun _ => 1005%Z) 0 [])) in
  exists s' image,
    DisplayRenderer.render (D := DisplayRenderer.marking) None 0 s
    = (Returned tt, s') /\
    DisplayRenderer.last_image (DisplayRenderer.self s') = Some image /\
    List.length (Codec.pack_buffer image) = 4.
Proof.
  intros s.
  destruct (render_keeps_frame_size (D := DisplayRenderer.marking) None 0 s
              marking_size_preserving)
    as (s' & image & H & Himg & _ & Hlen).
  - intros last Hlast. injection Hlast as <-. reflexivity.
  - exists s', image. repeat split; assumption.
Defined.

(* ================================================================== *)
(** * Configuration paths                                              *)
(* ================================================================== *)

Lemma lookup_store_same (key : string) (v : Config.value)
    (d : list (string * Config.value)) :
  Config.lookup key (Config.store key v d) = Some v.
Proof.
  induction d as [| [k old] d IH]; cbn.
  - now rewrite String.eqb_refl.
  - destruct (String.eqb k key) eqn:E; cbn; rewrite E; [reflexivity | exact IH].
Qed.


Lemma split_nonempty (key_path : string) :
  exists first others, Config.split key_path = first :: others.
Proof.
  induction key_path as [| c rest IH]; cbn.
  - eauto.
  - destruct (Ascii.eqb c "."%char); [eauto |].
    destruct IH as (first & others & ->). eauto.
Qed.

Lemma set_keys_deeper (key key2 : string) (rest : list string)
    (v target : Config.value) :
  Config.set_keys (key :: key2 :: rest) v target
  = match target with
    | Config.VDict d =>
        match Config.set_keys (key2 :: rest) v
                (match Config.lookup key d with
                 | Some sub => sub
                 | None => Config.VDict []
                 end) with
        | inr sub' => inr (Config.VDict (Config.store key sub' d))
        | inl e => inl e
        end
    | _ => inl Config.TypeError
    end.
Proof.
  destruct target; try reflexivity.
  change (Config.set_keys (key :: key2 :: rest) v (Config.VDict items))
    with (match Config.lookup key items with
          | None =>
              match Config.set_keys (key2 :: rest) v (Config.VDict []) with
              | inr sub => inr (Config.VDict (Config.store key sub items))
              | inl e => inl e
              end
          | Some sub =>
              match Config.set_keys (key2 :: rest) v sub with
              | inr sub' => inr (Config.VDict (Config.store key sub' items))
              | inl e => inl e
              end
          end).
  destruct (Config.lookup key items); reflexivity.
Qed.

Lemma set_keys_then_walk :
  forall (keys : list string) (v target data' : Config.value),
    Config.set_keys keys v target = inr data' ->
    Config.walk keys data' = inr v.
Proof.
  induction keys as [| key rest IH]; intros v target data' Hset;
    [discriminate Hset |].
  destruct rest as [| key2 rest].
  - cbn in Hset. destruct target; try discriminate Hset.
    injection Hset as <-. cbn. now rewrite lookup_store_same.
  - rewrite set_keys_deeper in Hset.
    destruct target; try discriminate Hset.
    destruct (Config.set_keys (key2 :: rest) v _) as [e | sub'] eqn:E;
      [discriminate Hset |].
    injection Hset as <-.
    unfold Config.walk at 1. unfold Config.subscript at 1.
    rewrite lookup_store_same. exact (IH _ _ _ E).
Qed.

Lemma set_keys_fresh :
  forall (keys : list string) (v : Config.value),
    keys <> [] ->
    exists data', Config.set_keys keys v (Config.VDict []) = inr data'.
Proof.
  induction keys as [| key rest IH]; intros v Hne; [congruence |].
  destruct rest as [| key2 rest].
  - cbn. eauto.
  - rewrite set_keys_deeper. cbn [Config.lookup].
    destruct (IH v) as (sub & ->); [discriminate | eauto].
Qed.



(** X17.  Round trip: when [Config.set] returns, [Config.get] on the
    same dotted path gives back the value that was set, whatever the
    default. *)
Theorem get_after_set :
  forall (data data' v default : Config.value) (key_path : string),
    Config.set data key_path v = inr data' ->
    Config.get data' key_path default = v.
Proof.
  intros data data' v default key_path Hset. unfold Config.get.
  now rewrite (set_keys_then_walk _ _ _ _ Hset).
Qed.

Lemma get_after_set_witness :
  exists data',
    Config.set (Config.VDict [("token"%string, Config.VDict [])])
               "primary.pair" (Config.VStr "abc")
    = inr data' /\
    Config.get data' "primary.pair" Config.VNone = Config.VStr "abc".
Proof.
  eexists. split; [reflexivity |].
  apply (get_after_set (Config.VDict [("token"%string, Config.VDict [])])).
  reflexivity.
Defined.


Lemma store_absent (key : string) (v : Config.value)
    (d : list (string * Config.value)) :
  Config.lookup key d = None -> Config.store key v d = d ++ [(key, v)].
Proof.
  induction d as [| [k old] d IH]; cbn; [reflexivity |].
  destruct (String.eqb k key); [discriminate |].
  intros H. now rewrite IH.
Qed.




(** X19.  [Config.set] raises [TypeError] when the data is not a
    mapping, and when the path has to go through an existing value
    that is not a mapping (for instance setting "a.b" where "a" holds a
    number). *)
Theorem set_through_scalar_raises :
  forall (data v : Config.value) (key_path : string),
    (forall d, data <> Config.VDict d) \/
    (exists d first second others scalar,
        data = Config.VDict d /\
        Config.split key_path = first :: second :: others /\
        Config.lookup first d = Some scalar /\
        forall d', scalar <> Config.VDict d') ->
    Config.set data key_path v = inl Config.TypeError.
Proof.
  intros data v key_path H. unfold Config.set.
  destruct H as [Hnot | (d & first & second & others & scalar
                         & -> & Hsplit & Hlook & Hscalar)].
  - destruct (split_nonempty key_path) as (first & others & ->).
    destruct others as [| second others].
    + cbn. destruct data; try reflexivity. now destruct (Hnot items).
    + rewrite set_keys_deeper. destruct data; try reflexivity.
      now destruct (Hnot items).
  - rewrite Hsplit, set_keys_deeper, Hlook.
    destruct others as [| third others].
    + cbn. destruct scalar; try reflexivity. now destruct (Hscalar items).
    + rewrite set_keys_deeper. destruct scalar; try reflexivity.
      now destruct (Hscalar items).
Qed.

Lemma set_through_scalar_raises_witness :
  Config.set (Config.VDict [("poll"%string, Config.VInt 45)])
             "poll.interval_seconds" (Config.VInt 30)
  = inl Config.TypeError.
Proof.
  apply (set_through_scalar_raises
           (Config.VDict [("poll"%string, Config.VInt 45)]) (Config.VInt 30)
           "poll.interval_seconds").
  right. exists [("poll"%string, Config.VInt 45)], "poll"%string,
    "interval_seconds"%string, [], (Config.VInt 45).
  split; [reflexivity |]. split; [reflexivity |]. split; [reflexivity |].
  intros d'. discriminate.
Defined.

(** X20.  [Config.set] on a mapping that lacks the first key of the
    path always returns: it appends one new section after the existing
    ones, which are kept in order, and builds the missing nested
    mappings so that the path leads to the value. *)
Theorem set_creates_missing_section :
  forall (d : list (string * Config.value)) (v : Config.value)
         (key_path first : string) (rest : list string),
    Config.split key_path = first :: rest ->
    Config.lookup first d = None ->
    exists section,
      Config.set (Config.VDict d) key_path v
      = inr (Config.VDict (d ++ [(first, section)])) /\
      Config.walk rest section = inr v.
Proof.
  intros d v key_path first rest Hsplit Hlook. unfold Config.set.
  rewrite Hsplit. destruct rest as [| second rest].
  - exists v. cbn. rewrite store_absent by assumption. split; reflexivity.
  - rewrite set_keys_deeper, Hlook.
    destruct (set_keys_fresh (second :: rest) v) as (section & Hsec);
      [discriminate |].
    rewrite Hsec. exists section.
    rewrite store_absent by assumption. split; [reflexivity |].
    exact (set_keys_then_walk _ _ _ _ Hsec).
Qed.

Lemma set_creates_missing_section_witness :
  exists section,
    Config.set (Config.VDict [("token"%string, Config.VDict [])])
               "primary.pair" (Config.VStr "abc")
    = inr (Config.VDict [("token"%string, Config.VDict []);
                         ("primary"%string, section)]) /\
    Config.walk ["pair"%string] section = inr (Config.VStr "abc").
Proof.
  apply (set_creates_missing_section
           [("token"%string, Config.VDict [])] (Config.VStr "abc")
           "primary.pair" "primary" ["pair"%string]); reflexivity.
Defined.

(* ================================================================== *)
(** * The partial counter stays within its limit                       *)
(* ================================================================== *)

Section CounterBound.
Context {D : DisplayRenderer.Drawing}.

Lemma render_counter_initialized (data : option DisplayRenderer.TokenData)
    (stale : Z) (s : DisplayRenderer.state) :
  DisplayRenderer.initialized (DisplayRenderer.self s) = true ->
  let r := DisplayRenderer.self s in
  let count := DisplayRenderer.partial_count r in
  exists s',
    DisplayRenderer.render data stale s = (Returned tt, s') /\
    (DisplayRenderer.partial_count (DisplayRenderer.self s') = count
     \/ DisplayRenderer.partial_count (DisplayRenderer.self s') = 0%Z
     \/ (DisplayRenderer.partial_count (DisplayRenderer.self s')
         = (count + 1)%Z
         /\ (count < DisplayRenderer.full_refresh_after_partials r)%Z)).
Proof.
  intros Hini r count.
  destruct (String.eqb (DisplayRenderer.lower (DisplayRenderer.mode r))
                       "blank") eqn:Hmode.
  - destruct (render_blank_self data stale s Hini Hmode) as (s' & H & Hself).
    exists s'. split; [exact H |]. left. rewrite Hself. reflexivity.
  - destruct (render_initialized_run data stale s Hini Hmode)
      as (s1 & Hbranch & Hrender).
    fold r in Hbranch, Hrender.
    destruct (_ >? _)%Z eqn:Htime in Hbranch, Hrender.
    + cbn [orb] in Hrender. eexists. split; [exact Hrender |].
      right. left. reflexivity.
    + cbn [orb] in Hbranch, Hrender.
      destruct (_ >=? _)%Z eqn:Hcount in Hbranch, Hrender.
      * eexists. split; [exact Hrender |]. right. left. reflexivity.
      * assert (Hlt : (count < DisplayRenderer.full_refresh_after_partials r)%Z).
        { rewrite Z.geb_leb in Hcount. apply Z.leb_gt in Hcount. exact Hcount. }
        assert (Hs1 : DisplayRenderer.partial_count (DisplayRenderer.self s1)
                      = count).
        { destruct (DisplayRenderer.last_image r) as [last |] eqn:Hlast.
          - destruct (render_partial_run data stale (DisplayRenderer.tick s)
                        last Hlast)
              as (e1 & e2 & e3 & _ & _ & _ & _ & Hpartial).
            rewrite Hbranch in Hpartial. injection Hpartial as ->.
            reflexivity.
          - rewrite render_partial_fallback in Hbranch by exact Hlast.
            destruct (render_full_run data stale
                        (snd (DisplayRenderer.print "Partial refresh"
                                (DisplayRenderer.tick s))))
              as (e1 & e2 & e3 & _ & _ & _ & _ & Hfull).
            rewrite Hbranch in Hfull. injection Hfull as ->.
            reflexivity. }
        eexists. split; [exact Hrender |]. right. right.
        split; [| exact Hlt].
        unfold DisplayRenderer.set_partial_count. run_renderer_fields.
        now rewrite Hs1.
Qed.

(** X21.  Whatever path [render] takes, the partial counter afterwards
    is unchanged (blank mode), 0 (full branch), or one more than before
    and then it was below [full_after_partials].  So a counter between
    0 and the limit stays between 0 and the limit. *)
Theorem partial_count_stays_bounded :
  forall (data : option DisplayRenderer.TokenData) (stale : Z)
         (s : DisplayRenderer.state),
    let r := DisplayRenderer.self s in
    let count := DisplayRenderer.partial_count r in
    let limit := DisplayRenderer.full_refresh_after_partials r in
    exists s',
      DisplayRenderer.render data stale s = (Returned tt, s') /\
      (DisplayRenderer.partial_count (DisplayRenderer.self s') = count
       \/ DisplayRenderer.partial_count (DisplayRenderer.self s') = 0%Z
       \/ (DisplayRenderer.partial_count (DisplayRenderer.self s')
           = (count + 1)%Z /\ (count < limit)%Z)) /\
      ((0 <= count <= limit)%Z ->
       (0 <= DisplayRenderer.partial_count (DisplayRenderer.self s')
        <= limit)%Z).
Proof.
  intros data stale s r count limit.
  assert (H : exists s',
             DisplayRenderer.render data stale s = (Returned tt, s') /\
             (DisplayRenderer.partial_count (DisplayRenderer.self s') = count
              \/ DisplayRenderer.partial_count (DisplayRenderer.self s') = 0%Z
              \/ (DisplayRenderer.partial_count (DisplayRenderer.self s')
                  = (count + 1)%Z /\ (count < limit)%Z))).
  { destruct (DisplayRenderer.initialized r) eqn:Hi.
    - exact (render_counter_initialized data stale s Hi).
    - destruct (renderer_init_self s) as (si & Hinit & Hself).
      fold r in Hself. rewrite Hi in Hself.
      assert (Hi' : DisplayRenderer.initialized (DisplayRenderer.self si)
                    = true) by (rewrite Hself; reflexivity).
      rewrite (render_after_init data stale s si Hi Hinit Hi').
      destruct (render_counter_initialized data stale si Hi')
        as (s' & Hrender & Hcases).
      rewrite Hself in Hcases. cbn in Hcases.
      exists s'. split; [exact Hrender | exact Hcases]. }
  destruct H as (s' & Hrender & Hcases).
  exists s'. split; [exact Hrender |]. split; [exact Hcases |].
  intros Hbound. destruct Hcases as [-> | [-> | [-> Hlt]]]; lia.
Qed.

End CounterBound.
